(** * code-input: a shallow embedding of [src/code-input.js]

    The development follows the source file top to bottom: the global
    [codeInput] object (observed attributes, template registry, pending
    queue), the [Template] and [Plugin] classes, and the [CodeInput] custom
    element with its highlight loop, attribute callbacks and event-listener
    overrides.

    Conventions of the embedding.
    - JavaScript strings are [string]s of 8-bit characters; a string value
      that may be [null] or [undefined] is an [option string] with [None]
      for the absent value.
    - Plain objects used as dictionaries ([usedTemplates],
      [templateNotYetRegisteredQueue], [boundEventCallbacks], attribute
      tables) are [gmap string _] over their own properties; a key that is
      not a string is first converted to one, as JavaScript does.  Keys
      that every object inherits ([constructor], [toString], ...) are not
      template names of the model.
    - Elements are heap objects: the state maps an element identity to its
      fields, so that the pending queue can hold references to elements that
      are mutated elsewhere.  A DOM node is the record of the fields the
      class reads and writes.
    - A method is a function of the state monad [M]; a JavaScript exception
      is the outcome [Throw], which carries the state reached so far.
    - Code that the library calls but does not define (plugin hooks, the
      template's highlight function, listeners of the page, the browser's
      layout and frame scheduling) is recorded as an [Event] in a trace, in
      call order, and is taken to return without touching the state.  What
      such code writes is not followed: the content of the code element
      once the highlight function has run, the [style] attributes that
      the size synchronisation sets, whatever a listener of the page
      does.
    - Attribute changes reach the class through its mutation observers
      only: the browser collects the records of the changes and runs
      [mutationObserverCallback] on the batch, once per observer.
    - Calls of the browser's own methods succeed: attribute names and class
      tokens are the ones a browser accepts (a class token has no white
      space). *)

From Stdlib Require Import String Ascii List Bool Arith Lia.
From stdpp Require Import base option list strings gmap.
Import ListNotations.

Local Open Scope string_scope.
Local Open Scope list_scope.

(** ** Strings *)

Module Str.

(** [text.replace(new RegExp(pat, "g"), rep)] for a pattern without regular
    expression operators and a replacement without [$]: every
    non-overlapping occurrence of the non-empty literal [pat], found left to
    right, is replaced by [rep].  [skip] counts the characters of the
    current match that are still to be consumed. *)
Fixpoint replaceAll_from (pat rep : string) (skip : nat) (s : string) : string :=
  match s with
  | EmptyString => EmptyString
  | String c s' =>
      match skip with
      | S k => replaceAll_from pat rep k s'
      | O =>
          if String.prefix pat s
          then rep +:+ replaceAll_from pat rep (String.length pat - 1) s'
          else String c (replaceAll_from pat rep 0 s')
      end
  end.

Definition replaceAll (pat rep s : string) : string :=
  replaceAll_from pat rep 0 s.

(** [s.toLowerCase()] on the ASCII letters. *)
Definition lower_ascii (c : ascii) : ascii :=
  let n := nat_of_ascii c in
  if Nat.leb 65 n && Nat.leb n 90 then ascii_of_nat (n + 32) else c.

Fixpoint toLowerCase (s : string) : string :=
  match s with
  | EmptyString => EmptyString
  | String c s' => String (lower_ascii c) (toLowerCase s')
  end.

(** [name.substring(0, 5) == "aria-"] *)
Definition is_aria (name : string) : bool := String.prefix "aria-" name.

(** [list.includes(name)] on a list of strings. *)
Definition includes (l : list string) (name : string) : bool :=
  existsb (String.eqb name) l.

End Str.

(** ** HTML escaping (methods of [CodeInput], independent of the element) *)

(** [escapeHtml(text)] *)
Definition escapeHtml (text : string) : string :=
  Str.replaceAll "<" "&lt;" (Str.replaceAll "&" "&amp;" text).

(** [unescapeHtml(text)] *)
Definition unescapeHtml (text : string) : string :=
  Str.replaceAll "&gt;" ">"
    (Str.replaceAll "&lt;" "<" (Str.replaceAll "&amp;" "&" text)).

(** The per-character reading of [escapeHtml]: what one character of the
    input becomes. *)
Definition escapeChar (c : ascii) : string :=
  if Ascii.eqb c "&" then "&amp;"
  else if Ascii.eqb c "<" then "&lt;"
  else String c EmptyString.

Fixpoint escapeChars (s : string) : string :=
  match s with
  | EmptyString => EmptyString
  | String c s' => escapeChar c +:+ escapeChars s'
  end.

(** Texts made only of the three markup characters. *)
Definition isMarkupChar (c : ascii) : bool :=
  Ascii.eqb c "&" || Ascii.eqb c "<" || Ascii.eqb c ">".

Fixpoint onlyMarkup (s : string) : bool :=
  match s with
  | EmptyString => true
  | String c s' => isMarkupChar c && onlyMarkup s'
  end.

(** ** JavaScript values, as far as [registerTemplate] inspects them *)

Definition InstId := nat.    (* identity of a <code-input> element *)
Definition PluginId := nat.  (* identity of a codeInput.Plugin instance *)
Definition FunId := nat.     (* identity of a function object *)

#[local] Set Warnings "-register-all".

Inductive JSVal : Type :=
| VUndefined
| VNull
| VBool (b : bool)
| VNumber (n : nat)
| VString (s : string)
| VFunction (f : FunId)
| VStringObject (s : string)     (* new String(s) *)
| VBooleanObject (b : bool)      (* new Boolean(b) *)
| VArray (l : list JSVal)
| VPlugin (p : PluginId)         (* an instance of codeInput.Plugin or of a subclass *)
| VObject.                       (* any other object *)

(** [typeof v] *)
Definition typeof (v : JSVal) : string :=
  match v with
  | VUndefined => "undefined"
  | VBool _ => "boolean"
  | VNumber _ => "number"
  | VString _ => "string"
  | VFunction _ => "function"
  | VNull | VStringObject _ | VBooleanObject _ | VArray _ | VPlugin _ | VObject => "object"
  end.

(** The constructors that [registerTemplate] uses on the right of
    [instanceof]. *)
Inductive Constructor := StringC | FunctionC | BooleanC | PluginC.

(** [v instanceof C] *)
Definition instanceof (v : JSVal) (C : Constructor) : bool :=
  match v, C with
  | VStringObject _, StringC => true
  | VFunction _, FunctionC => true
  | VBooleanObject _, BooleanC => true
  | VPlugin _, PluginC => true
  | _, _ => false
  end.

(** [Array.isArray(v)] *)
Definition isArray (v : JSVal) : bool :=
  match v with VArray _ => true | _ => false end.

(** The truth value of [v] in a condition, as in [if (template.isCode)]. *)
Definition toBoolean (v : JSVal) : bool :=
  match v with
  | VUndefined | VNull => false
  | VBool b => b
  | VNumber n => negb (Nat.eqb n 0)
  | VString s => negb (String.eqb s "")
  | VFunction _ | VStringObject _ | VBooleanObject _ | VArray _ | VPlugin _ | VObject => true
  end.

(** The property key a string-typed value converts to in [obj[v]]. *)
Definition stringOf (v : JSVal) : option string :=
  match v with
  | VString s | VStringObject s => Some s
  | _ => None
  end.

(** The property key of a name that may be [undefined]: [obj[undefined]]
    and [undefined in obj] use the key ["undefined"]. *)
Definition propertyKey (name : option string) : string :=
  match name with Some n => n | None => "undefined" end.

(** [a || b] on values that are a string or absent. *)
Definition or_else (a b : option string) : option string :=
  match a with
  | Some s => if String.eqb s "" then b else a
  | None => b
  end.

(** ** Templates *)

(** The object passed to [registerTemplate], seen through the five
    properties that are read from it; a property that is missing reads as
    [VUndefined]. *)
Record TemplateObject := {
  prop_highlight : JSVal;
  prop_preElementStyled : JSVal;
  prop_isCode : JSVal;
  prop_includeCodeInputInHighlightFunc : JSVal;
  prop_plugins : JSVal
}.

(** A registered template, seen through the uses the element makes of it:
    the function it calls, the three flags as its conditions read them, and
    the plugins [pluginEvt] iterates over. *)
Record Template := {
  highlight : FunId;
  preElementStyled : bool;
  isCode : bool;
  includeCodeInputInHighlightFunc : bool;
  plugins : list PluginId
}.

Definition pluginOf (v : JSVal) : option PluginId :=
  match v with VPlugin p => Some p | _ => None end.

Definition arrayElements (v : JSVal) : list JSVal :=
  match v with VArray l => l | _ => [] end.

(** The [Template] view of an object; defined when [highlight] is a function
    and every element of [plugins] is a plugin. *)
Definition asTemplate (o : TemplateObject) : option Template :=
  match prop_highlight o, mapM pluginOf (arrayElements (prop_plugins o)) with
  | VFunction f, Some ps =>
      Some {| highlight := f;
              preElementStyled := toBoolean (prop_preElementStyled o);
              isCode := toBoolean (prop_isCode o);
              includeCodeInputInHighlightFunc :=
                toBoolean (prop_includeCodeInputInHighlightFunc o);
              plugins := ps |}
  | _, _ => None
  end.

(** [new codeInput.Template(highlight, preElementStyled, isCode,
    includeCodeInputInHighlightFunc, plugins)] *)
Definition Template_constructor (highlight preElementStyled isCode
    includeCodeInputInHighlightFunc plugins : JSVal) : TemplateObject :=
  {| prop_highlight := highlight;
     prop_preElementStyled := preElementStyled;
     prop_isCode := isCode;
     prop_includeCodeInputInHighlightFunc := includeCodeInputInHighlightFunc;
     prop_plugins := plugins |}.

(** ** Calls that leave the library *)

Inductive Event :=
| PluginCall (p : PluginId) (eventName : string) (this : InstId)
    (args : list (option string))
    (* plugin[eventName](this, ...args) *)
| InnerHTMLSet (this : InstId) (html : string)
    (* this.codeElement.innerHTML = html *)
| HighlightCall (f : FunId) (this : InstId) (withCodeInput : bool)
    (* template.highlight(resultElement) or template.highlight(resultElement, this) *)
| SyncSize (this : InstId) (fromPre : bool)
    (* getComputedStyle of the pre (or code) element copied to the textarea *)
| LoadEvent (this : InstId)
    (* this.dispatchEvent(new CustomEvent("code-input_load")) *)
| ListenerCall (this : InstId) (listener : nat) (type : string)
    (* a listener of the page run by a bound callback *)
| RequestAnimationFrame (this : InstId)
    (* window.requestAnimationFrame(this.animateFrame.bind(this)) *)
| ResizeObserve (this : InstId)
| MutationObserve (this : InstId)
    (* this.mutationObserver.observe(this, ...) *)
| MutationDisconnect (this : InstId).

Inductive JSError := TypeError.

(** ** Event listeners *)

Inductive ListenerKind := IsFunction | HasHandleEvent | OtherListener.

(** A listener handed over by the page: its identity, the string it
    converts to when used as a property key, and how it is called. *)
Record Listener := {
  listenerId : nat;
  listenerKey : string;
  listenerKind : ListenerKind
}.

(** Function objects the library creates.  [Bound id l] is the
    [boundCallback] that the [id]-th allocation of [addEventListener]
    produced for the listener argument [l]. *)
Inductive Fn :=
| Bound (id : FunId) (l : ListenerArg)
| BlurArrow (id : FunId)     (* () => { this.classList.remove("code-input_mouse-focused"); } *)
| InputArrow (id : FunId)    (* (evt) => { this.value = this.textareaElement.value; } *)
with ListenerArg :=
| PageListener (l : Listener)
| MouseDownArrow             (* () => { this.classList.add("code-input_mouse-focused"); } *)
| DeferredArrow (remove : bool) (type : string) (boundCallback : option Fn)
    (options : option bool).
    (* () => { this.textareaElement.addEventListener(type, boundCallback[, options]); }
       or the same with removeEventListener *)

Definition fnId (f : Fn) : FunId :=
  match f with Bound id _ | BlurArrow id | InputArrow id => id end.

(** An entry of an element's listener list; [capture] is the part of
    [options] that the browser compares on removal. *)
Record EventListener := {
  evType : string;
  callback : Fn;
  capture : bool
}.

Definition captureOf (options : option bool) : bool :=
  match options with Some b => b | None => false end.

Definition sameListener (type : string) (f : Fn) (cap : bool) (e : EventListener) : bool :=
  String.eqb (evType e) type && Nat.eqb (fnId (callback e)) (fnId f) && Bool.eqb (capture e) cap.

(** [target.addEventListener(type, f, options)] of the browser *)
Definition dom_addEventListener (type : string) (f : Fn) (options : option bool)
    (ls : list EventListener) : list EventListener :=
  if existsb (sameListener type f (captureOf options)) ls then ls
  else ls ++ [{| evType := type; callback := f; capture := captureOf options |}].

(** [target.removeEventListener(type, f, options)] of the browser; a
    callback that is [undefined] removes nothing. *)
Definition dom_removeEventListener (type : string) (f : option Fn) (options : option bool)
    (ls : list EventListener) : list EventListener :=
  match f with
  | None => ls
  | Some f => List.filter (fun e => negb (sameListener type f (captureOf options) e)) ls
  end.

(** ** Elements *)

(** [classList] of an element: an ordered set of tokens, none of which
    contains white space. *)
Module ClassList.

Definition contains (l : list string) (tok : string) : bool := Str.includes l tok.

Definition add (tok : string) (l : list string) : list string :=
  if contains l tok then l else l ++ [tok].

Definition remove (tok : string) (l : list string) : list string :=
  List.filter (fun t => negb (String.eqb t tok)) l.

End ClassList.

(** The [<textarea code-input-fallback>] child a page may provide. *)
Record FallbackTextarea := {
  fb_attributes : gmap string string;
  fb_value : string
}.

(** The editable [<textarea>]. *)
Record Textarea := mkTextarea {
  ta_value : string;
  ta_attributes : gmap string string;
  ta_listeners : list EventListener
}.

(** Field updates of [Textarea]. *)
Definition set_ta_value (v : string) (t : Textarea) : Textarea :=
  mkTextarea v (ta_attributes t) (ta_listeners t).

Definition set_ta_attributes (v : gmap string string) (t : Textarea) : Textarea :=
  mkTextarea (ta_value t) v (ta_listeners t).

Definition set_ta_listeners (v : list EventListener) (t : Textarea) : Textarea :=
  mkTextarea (ta_value t) (ta_attributes t) v.

(** [textarea.placeholder] reflects the content attribute. *)
Definition ta_placeholder (t : Textarea) : string :=
  default "" (ta_attributes t !! "placeholder").
Definition ta_setAttribute (name value : string) (t : Textarea) : Textarea :=
  set_ta_attributes (<[name := value]> (ta_attributes t)) t.
Definition ta_removeAttribute (name : string) (t : Textarea) : Textarea :=
  set_ta_attributes (delete name (ta_attributes t)) t.

(** The [<pre>], [<code>] and dialog [<div>] elements. *)
Record Element := mkElement {
  el_classList : list string;
  el_innerHTML : string
}.

Definition set_el_classList (v : list string) (e : Element) : Element :=
  mkElement v (el_innerHTML e).

Definition set_el_innerHTML (v : string) (e : Element) : Element :=
  mkElement (el_classList e) v.

(** A [<code-input>] element: the state of the host element that the class
    reads ([attributes], [classList], [isConnected], [innerHTML], the
    fallback child, its listeners) followed by the fields the class
    declares. *)
Record CodeInput := mkCodeInput {
  attributes : gmap string string;
  classList : list string;
  isConnected : bool;
  innerHTML : string;
  fallbackTextarea : option FallbackTextarea;
  listeners : list EventListener;
  textareaElement : option Textarea;
  preElement : option Element;
  codeElement : option Element;
  dialogContainerElement : option Element;
  boundEventCallbacks : gmap string Fn;
  needsHighlight : bool;
  originalAriaDescription : option string;
  template : option Template;
  initialValue : option string;
  mutationObserver : bool
}.

(** Field updates of [CodeInput]. *)
Definition set_attributes (v : gmap string string) (c : CodeInput) : CodeInput :=
  mkCodeInput v (classList c) (isConnected c) (innerHTML c) (fallbackTextarea c) (listeners c) (textareaElement c) (preElement c) (codeElement c) (dialogContainerElement c) (boundEventCallbacks c) (needsHighlight c) (originalAriaDescription c) (template c) (initialValue c) (mutationObserver c).

Definition set_classList (v : list string) (c : CodeInput) : CodeInput :=
  mkCodeInput (attributes c) v (isConnected c) (innerHTML c) (fallbackTextarea c) (listeners c) (textareaElement c) (preElement c) (codeElement c) (dialogContainerElement c) (boundEventCallbacks c) (needsHighlight c) (originalAriaDescription c) (template c) (initialValue c) (mutationObserver c).

Definition set_isConnected (v : bool) (c : CodeInput) : CodeInput :=
  mkCodeInput (attributes c) (classList c) v (innerHTML c) (fallbackTextarea c) (listeners c) (textareaElement c) (preElement c) (codeElement c) (dialogContainerElement c) (boundEventCallbacks c) (needsHighlight c) (originalAriaDescription c) (template c) (initialValue c) (mutationObserver c).

Definition set_innerHTML (v : string) (c : CodeInput) : CodeInput :=
  mkCodeInput (attributes c) (classList c) (isConnected c) v (fallbackTextarea c) (listeners c) (textareaElement c) (preElement c) (codeElement c) (dialogContainerElement c) (boundEventCallbacks c) (needsHighlight c) (originalAriaDescription c) (template c) (initialValue c) (mutationObserver c).

Definition set_fallbackTextarea (v : option FallbackTextarea) (c : CodeInput) : CodeInput :=
  mkCodeInput (attributes c) (classList c) (isConnected c) (innerHTML c) v (listeners c) (textareaElement c) (preElement c) (codeElement c) (dialogContainerElement c) (boundEventCallbacks c) (needsHighlight c) (originalAriaDescription c) (template c) (initialValue c) (mutationObserver c).

Definition set_listeners (v : list EventListener) (c : CodeInput) : CodeInput :=
  mkCodeInput (attributes c) (classList c) (isConnected c) (innerHTML c) (fallbackTextarea c) v (textareaElement c) (preElement c) (codeElement c) (dialogContainerElement c) (boundEventCallbacks c) (needsHighlight c) (originalAriaDescription c) (template c) (initialValue c) (mutationObserver c).

Definition set_textareaElement (v : option Textarea) (c : CodeInput) : CodeInput :=
  mkCodeInput (attributes c) (classList c) (isConnected c) (innerHTML c) (fallbackTextarea c) (listeners c) v (preElement c) (codeElement c) (dialogContainerElement c) (boundEventCallbacks c) (needsHighlight c) (originalAriaDescription c) (template c) (initialValue c) (mutationObserver c).

Definition set_preElement (v : option Element) (c : CodeInput) : CodeInput :=
  mkCodeInput (attributes c) (classList c) (isConnected c) (innerHTML c) (fallbackTextarea c) (listeners c) (textareaElement c) v (codeElement c) (dialogContainerElement c) (boundEventCallbacks c) (needsHighlight c) (originalAriaDescription c) (template c) (initialValue c) (mutationObserver c).

Definition set_codeElement (v : option Element) (c : CodeInput) : CodeInput :=
  mkCodeInput (attributes c) (classList c) (isConnected c) (innerHTML c) (fallbackTextarea c) (listeners c) (textareaElement c) (preElement c) v (dialogContainerElement c) (boundEventCallbacks c) (needsHighlight c) (originalAriaDescription c) (template c) (initialValue c) (mutationObserver c).

Definition set_dialogContainerElement (v : option Element) (c : CodeInput) : CodeInput :=
  mkCodeInput (attributes c) (classList c) (isConnected c) (innerHTML c) (fallbackTextarea c) (listeners c) (textareaElement c) (preElement c) (codeElement c) v (boundEventCallbacks c) (needsHighlight c) (originalAriaDescription c) (template c) (initialValue c) (mutationObserver c).

Definition set_boundEventCallbacks (v : gmap string Fn) (c : CodeInput) : CodeInput :=
  mkCodeInput (attributes c) (classList c) (isConnected c) (innerHTML c) (fallbackTextarea c) (listeners c) (textareaElement c) (preElement c) (codeElement c) (dialogContainerElement c) v (needsHighlight c) (originalAriaDescription c) (template c) (initialValue c) (mutationObserver c).

Definition set_needsHighlight (v : bool) (c : CodeInput) : CodeInput :=
  mkCodeInput (attributes c) (classList c) (isConnected c) (innerHTML c) (fallbackTextarea c) (listeners c) (textareaElement c) (preElement c) (codeElement c) (dialogContainerElement c) (boundEventCallbacks c) v (originalAriaDescription c) (template c) (initialValue c) (mutationObserver c).

Definition set_originalAriaDescription (v : option string) (c : CodeInput) : CodeInput :=
  mkCodeInput (attributes c) (classList c) (isConnected c) (innerHTML c) (fallbackTextarea c) (listeners c) (textareaElement c) (preElement c) (codeElement c) (dialogContainerElement c) (boundEventCallbacks c) (needsHighlight c) v (template c) (initialValue c) (mutationObserver c).

Definition set_template (v : option Template) (c : CodeInput) : CodeInput :=
  mkCodeInput (attributes c) (classList c) (isConnected c) (innerHTML c) (fallbackTextarea c) (listeners c) (textareaElement c) (preElement c) (codeElement c) (dialogContainerElement c) (boundEventCallbacks c) (needsHighlight c) (originalAriaDescription c) v (initialValue c) (mutationObserver c).

Definition set_initialValue (v : option string) (c : CodeInput) : CodeInput :=
  mkCodeInput (attributes c) (classList c) (isConnected c) (innerHTML c) (fallbackTextarea c) (listeners c) (textareaElement c) (preElement c) (codeElement c) (dialogContainerElement c) (boundEventCallbacks c) (needsHighlight c) (originalAriaDescription c) (template c) v (mutationObserver c).

Definition set_mutationObserver (v : bool) (c : CodeInput) : CodeInput :=
  mkCodeInput (attributes c) (classList c) (isConnected c) (innerHTML c) (fallbackTextarea c) (listeners c) (textareaElement c) (preElement c) (codeElement c) (dialogContainerElement c) (boundEventCallbacks c) (needsHighlight c) (originalAriaDescription c) (template c) (initialValue c) v.

(** The element as its constructor leaves it. *)
Definition newCodeInput : CodeInput :=
  {| attributes := ∅; classList := []; isConnected := false; innerHTML := "";
     fallbackTextarea := None; listeners := [];
     textareaElement := None; preElement := None; codeElement := None;
     dialogContainerElement := None; boundEventCallbacks := ∅;
     needsHighlight := false; originalAriaDescription := None;
     template := None; initialValue := None; mutationObserver := false |}.

Definition getAttribute (c : CodeInput) (name : string) : option string :=
  attributes c !! name.

(** ** The global [codeInput] object and the heap of elements *)

(** The mutable fields of [codeInput], the elements of the page, the next
    unused identity of a function object, and the trace of calls that left
    the library. *)
Record State := mkState {
  observedAttributes : list string;
  usedTemplates : gmap string Template;
  defaultTemplate : option string;
  templateNotYetRegisteredQueue : gmap string (list InstId);
  heap : gmap InstId CodeInput;
  nextFn : FunId;
  trace : list Event
}.

(** Field updates of [State]. *)
Definition set_observedAttributes (v : list string) (s : State) : State :=
  mkState v (usedTemplates s) (defaultTemplate s) (templateNotYetRegisteredQueue s) (heap s) (nextFn s) (trace s).

Definition set_usedTemplates (v : gmap string Template) (s : State) : State :=
  mkState (observedAttributes s) v (defaultTemplate s) (templateNotYetRegisteredQueue s) (heap s) (nextFn s) (trace s).

Definition set_defaultTemplate (v : option string) (s : State) : State :=
  mkState (observedAttributes s) (usedTemplates s) v (templateNotYetRegisteredQueue s) (heap s) (nextFn s) (trace s).

Definition set_templateNotYetRegisteredQueue (v : gmap string (list InstId)) (s : State) : State :=
  mkState (observedAttributes s) (usedTemplates s) (defaultTemplate s) v (heap s) (nextFn s) (trace s).

Definition set_heap (v : gmap InstId CodeInput) (s : State) : State :=
  mkState (observedAttributes s) (usedTemplates s) (defaultTemplate s) (templateNotYetRegisteredQueue s) v (nextFn s) (trace s).

Definition set_nextFn (v : FunId) (s : State) : State :=
  mkState (observedAttributes s) (usedTemplates s) (defaultTemplate s) (templateNotYetRegisteredQueue s) (heap s) v (trace s).

Definition set_trace (v : list Event) (s : State) : State :=
  mkState (observedAttributes s) (usedTemplates s) (defaultTemplate s) (templateNotYetRegisteredQueue s) (heap s) (nextFn s) v.

(** [codeInput.textareaSyncAttributes]: never modified by the library. *)
Definition textareaSyncAttributes : list string :=
  [ "value"; "min"; "max"; "type"; "pattern";
    "autocomplete"; "autocorrect"; "autofocus"; "cols"; "dirname";
    "disabled"; "form"; "maxlength"; "minlength"; "name"; "placeholder";
    "readonly"; "required"; "rows"; "spellcheck"; "wrap" ].

(** [codeInput.textareaSyncAttributes.regexp]: the array literal above has
    no such property, and nothing in the library defines one, so the
    expression evaluates to [undefined]. *)
Definition textareaSyncAttributes_regexp : option (list (string -> bool)) := None.

(** [codeInput.textareaSyncEvents] *)
Definition textareaSyncEvents : list string :=
  [ "change"; "selectionchange"; "invalid"; "input" ].

(** The [codeInput] object after the script has been loaded. *)
Definition codeInput : State :=
  {| observedAttributes := [ "value"; "placeholder"; "language"; "lang"; "template" ];
     usedTemplates := ∅;
     defaultTemplate := None;
     templateNotYetRegisteredQueue := ∅;
     heap := ∅;
     nextFn := 0;
     trace := [] |}.

(** ** A state monad with exceptions *)

Inductive Outcome (A : Type) :=
| Return (a : A) (s : State)
| Throw (e : JSError) (s : State).
Arguments Return {A} a s.
Arguments Throw {A} e s.

Definition M (A : Type) := State -> Outcome A.

Definition ret {A} (a : A) : M A := fun s => Return a s.
Definition throw {A} (e : JSError) : M A := fun s => Throw e s.
Definition bind {A B} (m : M A) (k : A -> M B) : M B :=
  fun s => match m s with
           | Return a s' => k a s'
           | Throw e s' => Throw e s'
           end.
Definition gets {A} (f : State -> A) : M A := fun s => Return (f s) s.
Definition modify (f : State -> State) : M unit := fun s => Return tt (f s).

Declare Scope js_scope.
Delimit Scope js_scope with js.
Notation "x <- m ;; k" := (bind m (fun x => k))
  (at level 100, m at next level, right associativity) : js_scope.
Notation "m ;; k" := (bind m (fun _ => k))
  (at level 100, right associativity) : js_scope.
Local Open Scope js_scope.

(** The state an outcome ends in. *)
Definition finalState {A} (o : Outcome A) : State :=
  match o with Return _ s | Throw _ s => s end.

(** [for (x of l) body(x)], and [for (i in l)] over the indices of an
    array, whose keys are taken when the loop starts. *)
Fixpoint forEach {A} (l : list A) (body : A -> M unit) : M unit :=
  match l with
  | [] => ret tt
  | x :: l' => body x ;; forEach l' body
  end.

(** A listener run by the browser's event dispatch: an exception it raises
    is reported and does not reach the code that dispatched the event. *)
Definition reported (m : M unit) : M unit :=
  fun s => Return tt (finalState (m s)).

Definition log (ev : Event) : M unit :=
  modify (fun s => set_trace (trace s ++ [ev]) s).

(** The element with identity [i]; an identity the heap has not seen yet is
    an element fresh from its constructor. *)
Definition elem (s : State) (i : InstId) : CodeInput :=
  default newCodeInput (heap s !! i).
Definition this (i : InstId) : M CodeInput := gets (fun s => elem s i).
Definition modifyThis (i : InstId) (f : CodeInput -> CodeInput) : M unit :=
  modify (fun s => set_heap (<[i := f (elem s i)]> (heap s)) s).

Definition allocFn : M FunId :=
  n <- gets nextFn ;; modify (set_nextFn (S n)) ;; ret n.

Definition classList_add (i : InstId) (tok : string) : M unit :=
  modifyThis i (fun c => set_classList (ClassList.add tok (classList c)) c).
Definition classList_remove (i : InstId) (tok : string) : M unit :=
  modifyThis i (fun c => set_classList (ClassList.remove tok (classList c)) c).

(** ** [codeInput.Plugin] *)

(** [new codeInput.Plugin(observedAttributes)] *)
Definition Plugin_constructor (observed : list string) : M unit :=
  forEach observed (fun attribute =>
    modify (fun s => set_observedAttributes (observedAttributes s ++ [attribute]) s)).

(** ** [codeInput.CodeInput]: the highlight loop *)

Definition newline : string := String (ascii_of_nat 10) EmptyString.

(** [pluginEvt(eventName, args)]: every hook name the library uses is a
    method of [codeInput.Plugin], so [eventName in plugin] holds for each
    plugin of a template. *)
Definition pluginEvt (i : InstId) (eventName : string)
    (args : option (list (option string))) : M unit :=
  c <- this i ;;
  match template c with
  | None => throw TypeError
  | Some t =>
      forEach (plugins t) (fun p => log (PluginCall p eventName i (default [] args)))
  end.

(** [scheduleHighlight()] *)
Definition scheduleHighlight (i : InstId) : M unit :=
  modifyThis i (set_needsHighlight true).

(** [get value()] *)
Definition get_value (i : InstId) : M string :=
  c <- this i ;;
  match textareaElement c with
  | None => throw TypeError
  | Some ta => ret (ta_value ta)
  end.

(** [set value(val)]; [None] is [null] or [undefined]. *)
Definition set_value (i : InstId) (val : option string) : M unit :=
  let val := match val with None => "" | Some v => v end in
  c <- this i ;;
  match textareaElement c with
  | None => throw TypeError
  | Some ta =>
      modifyThis i (set_textareaElement (Some (set_ta_value val ta))) ;;
      scheduleHighlight i
  end.

(** [syncSize()]: the copy of the computed background colour, height and
    width to the [style] of the element and of the textarea is recorded as
    one call; the [style] attributes are not part of the model. *)
Definition syncSize (i : InstId) : M unit :=
  c <- this i ;;
  match template c with
  | None => throw TypeError
  | Some t =>
      match (if preElementStyled t then preElement c else codeElement c),
            textareaElement c with
      | Some _, Some _ => log (SyncSize i (preElementStyled t))
      | _, _ => throw TypeError
      end
  end.

(** [update()]: the assignment to [innerHTML] and the call of the
    template's highlight function are recorded as calls; what the highlight
    function then makes of the code element is not followed. *)
Definition update (i : InstId) : M unit :=
  c <- this i ;;
  let resultElement := codeElement c in
  value <- get_value i ;;
  let value := value +:+ newline in
  match resultElement with
  | None => throw TypeError
  | Some code =>
      modifyThis i (set_codeElement (Some (set_el_innerHTML (escapeHtml value) code))) ;;
      log (InnerHTMLSet i (escapeHtml value)) ;;
      pluginEvt i "beforeHighlight" None ;;
      c <- this i ;;
      match template c with
      | None => throw TypeError
      | Some t =>
          log (HighlightCall (highlight t) i (includeCodeInputInHighlightFunc t)) ;;
          syncSize i ;;
          pluginEvt i "afterHighlight" None
      end
  end.

(** [animateFrame()] *)
Definition animateFrame (i : InstId) : M unit :=
  c <- this i ;;
  (if needsHighlight c
   then update i ;; modifyThis i (set_needsHighlight false)
   else ret tt) ;;
  log (RequestAnimationFrame i).

(** [getTemplate()] *)
Definition getTemplate (i : InstId) : M (option Template) :=
  c <- this i ;;
  dflt <- gets defaultTemplate ;;
  let templateName :=
    match getAttribute c "template" with
    | None => dflt
    | Some n => Some n
    end in
  let key := propertyKey templateName in
  used <- gets usedTemplates ;;
  match used !! key with
  | Some t => ret (Some t)
  | None =>
      modify (fun s =>
        set_templateNotYetRegisteredQueue
          (<[key := default [] (templateNotYetRegisteredQueue s !! key) ++ [i]]>
             (templateNotYetRegisteredQueue s)) s) ;;
      ret None
  end.

(** ** [codeInput.CodeInput]: event listeners *)

(** The source text of the arrow functions that the class passes to its own
    [addEventListener]: a function used as a property key converts to its
    source text. *)
Definition quote : string := String (ascii_of_nat 34) EmptyString.

Definition mouseDownArrowSource : string :=
  "() => {" +:+ newline +:+
  "                this.classList.add(" +:+ quote +:+ "code-input_mouse-focused" +:+ quote +:+ ");"
  +:+ newline +:+ "            }".

Definition deferredArrowSource (remove : bool) (options : option bool) : string :=
  "() => { this.textareaElement."
  +:+ (if remove then "removeEventListener" else "addEventListener")
  +:+ "(type, boundCallback"
  +:+ (match options with Some _ => ", options" | None => "" end)
  +:+ "); }".

(** The key of [this.boundEventCallbacks[listener]]. *)
Definition listenerKeyOf (listener : ListenerArg) : string :=
  match listener with
  | PageListener l => listenerKey l
  | MouseDownArrow => mouseDownArrowSource
  | DeferredArrow remove _ _ options => deferredArrowSource remove options
  end.

Definition textarea_addEventListener (i : InstId) (ta : Textarea) (type : string)
    (f : Fn) (options : option bool) : M unit :=
  modifyThis i (set_textareaElement
    (Some (set_ta_listeners (dom_addEventListener type f options (ta_listeners ta)) ta))).

Definition textarea_removeEventListener (i : InstId) (ta : Textarea) (type : string)
    (f : option Fn) (options : option bool) : M unit :=
  modifyThis i (set_textareaElement
    (Some (set_ta_listeners (dom_removeEventListener type f options (ta_listeners ta)) ta))).

(** The body of [addEventListener(type, listener, options)], with the
    method it calls on [this] for a textarea that does not exist yet as
    the parameter [self]. *)
Definition addEventListener_body
    (self : InstId -> string -> ListenerArg -> option bool -> M unit)
    (i : InstId) (type : string) (listener : ListenerArg) (options : option bool)
    : M unit :=
  id <- allocFn ;;
  let boundCallback := Bound id listener in
  modifyThis i (fun c => set_boundEventCallbacks
    (<[listenerKeyOf listener := boundCallback]> (boundEventCallbacks c)) c) ;;
  if Str.includes textareaSyncEvents type then
    modifyThis i (fun c => set_boundEventCallbacks
      (<[listenerKeyOf listener := boundCallback]> (boundEventCallbacks c)) c) ;;
    c <- this i ;;
    match textareaElement c with
    | None =>
        self i "code-input_load" (DeferredArrow false type (Some boundCallback) options) None
    | Some ta => textarea_addEventListener i ta type boundCallback options
    end
  else
    modifyThis i (fun c =>
      set_listeners (dom_addEventListener type boundCallback options (listeners c)) c).

(** [addEventListener]: the call the method makes on itself has the type
    ["code-input_load"], which is not a textarea event, so that call never
    makes another one. *)
Definition addEventListener : InstId -> string -> ListenerArg -> option bool -> M unit :=
  addEventListener_body (addEventListener_body (fun _ _ _ _ => ret tt)).

(** [removeEventListener(type, listener, options)] *)
Definition removeEventListener (i : InstId) (type : string) (listener : ListenerArg)
    (options : option bool) : M unit :=
  c <- this i ;;
  let boundCallback := boundEventCallbacks c !! listenerKeyOf listener in
  if Str.includes textareaSyncEvents type then
    match textareaElement c with
    | None =>
        addEventListener i "code-input_load" (DeferredArrow true type boundCallback options) None
    | Some ta => textarea_removeEventListener i ta type boundCallback options
    end
  else
    modifyThis i (fun c =>
      set_listeners (dom_removeEventListener type boundCallback options (listeners c)) c).

(** What a listener argument does when its bound callback runs:
    [listener(evt)] for a function, [listener.handleEvent(evt)] for an
    object that has one.  A listener of the page is recorded as a call;
    what its code does is not followed. *)
Definition callListener (i : InstId) (type : string) (listener : ListenerArg) : M unit :=
  match listener with
  | PageListener l =>
      match listenerKind l with
      | IsFunction | HasHandleEvent => log (ListenerCall i (listenerId l) type)
      | OtherListener => ret tt
      end
  | MouseDownArrow => classList_add i "code-input_mouse-focused"
  | DeferredArrow remove type' boundCallback options =>
      c <- this i ;;
      match textareaElement c with
      | None => throw TypeError
      | Some ta =>
          if remove then textarea_removeEventListener i ta type' boundCallback options
          else match boundCallback with
               | Some f => textarea_addEventListener i ta type' f options
               | None => ret tt
               end
      end
  end.

Definition callFn (i : InstId) (type : string) (f : Fn) : M unit :=
  match f with
  | Bound _ listener => callListener i type listener
  | BlurArrow _ => classList_remove i "code-input_mouse-focused"
  | InputArrow _ => v <- get_value i ;; set_value i (Some v)
  end.

Definition listenersFor (type : string) (ls : list EventListener) : list EventListener :=
  List.filter (fun e => String.eqb (evType e) type) ls.

(** The browser dispatching an event of the given type on the element. *)
Definition dispatchEvent (i : InstId) (type : string) : M unit :=
  c <- this i ;;
  forEach (listenersFor type (listeners c)) (fun e => reported (callFn i type (callback e))).

(** The browser dispatching an event on the textarea of the element; for
    [input], after the user changed its text to [text]. *)
Definition textareaEvent (i : InstId) (type : string) : M unit :=
  c <- this i ;;
  match textareaElement c with
  | None => ret tt
  | Some ta =>
      forEach (listenersFor type (ta_listeners ta))
        (fun e => reported (callFn i type (callback e)))
  end.

Definition userInput (i : InstId) (text : string) : M unit :=
  c <- this i ;;
  match textareaElement c with
  | None => ret tt
  | Some ta =>
      modifyThis i (set_textareaElement (Some (set_ta_value text ta))) ;;
      textareaEvent i "input"
  end.

(** ** [codeInput.CodeInput]: setup and the element callbacks *)

(** Attributes that are copied to the textarea. *)
Definition syncsToTextarea (name : string) : bool :=
  Str.includes textareaSyncAttributes name || Str.is_aria name.

Definition syncedAttributes (attrs : gmap string string) : gmap string string :=
  filter (fun kv : string * string => Is_true (syncsToTextarea kv.1)) attrs.

(** The class [setup] gives the [<code>] element. *)
Definition languageClasses (t : Template) (lang : option string) : list string :=
  if isCode t then
    match lang with
    | Some l => if String.eqb l "" then [] else ClassList.add ("language-" +:+ Str.toLowerCase l) []
    | None => []
    end
  else [].

(** [setup()].  The textarea is built in local variables and stored in
    [this.textareaElement] once its attributes are synchronised; its text
    is [value] from the start (the source leaves an empty value to the
    textarea's default text and assigns [this.value = value] before it
    returns). *)
Definition setup (i : InstId) : M unit :=
  c <- this i ;;
  match textareaElement c with
  | Some _ => ret tt
  | None =>
    classList_add i "code-input_registered" ;;
    match template c with
    | None => throw TypeError
    | Some t =>
      (if preElementStyled t then classList_add i "code-input_pre-element-styled"
       else ret tt) ;;
      pluginEvt i "beforeElementsAdded" None ;;
      c <- this i ;;
      let attrs :=
        match fallbackTextarea c with
        | Some fb => attributes c ∪ fb_attributes fb
        | None => attributes c
        end in
      let value :=
        match fallbackTextarea c with
        | Some fb => fb_value fb
        | None => unescapeHtml (innerHTML c)
        end in
      let value := default "" (or_else (or_else (Some value) (attrs !! "value")) (Some "")) in
      let lang := or_else (attrs !! "language") (attrs !! "lang") in
      let placeholder :=
        default "" (or_else (or_else (attrs !! "placeholder") lang) (Some "")) in
      let tabindex := default "0" (or_else (attrs !! "tabindex") (Some "0")) in
      let created : gmap string string :=
        <["tabindex" := tabindex]> (<["spellcheck" := "false"]> {["placeholder" := placeholder]}) in
      let attrs := <["tabindex" := "-1"]> attrs in
      modifyThis i (fun c =>
        set_originalAriaDescription
          (or_else (attrs !! "aria-description") (Some "Code input field"))
          (set_initialValue (Some value) (set_attributes attrs c))) ;;
      addEventListener i "mousedown" MouseDownArrow None ;;
      blur <- allocFn ;;
      modifyThis i (fun c => set_fallbackTextarea None (set_innerHTML "" c)) ;;
      input <- allocFn ;;
      let textarea :=
        {| ta_value := value;
           ta_attributes := syncedAttributes attrs ∪ created;
           ta_listeners :=
             [ {| evType := "blur"; callback := BlurArrow blur; capture := false |};
               {| evType := "input"; callback := InputArrow input; capture := false |} ] |} in
      modifyThis i (set_textareaElement (Some textarea)) ;;
      modifyThis i (fun c =>
        set_codeElement (Some (mkElement (languageClasses t lang) ""))
          (set_preElement (Some (mkElement [] "")) c)) ;;
      modifyThis i (set_dialogContainerElement
        (Some (mkElement ["code-input_dialog-container"] ""))) ;;
      pluginEvt i "afterElementsAdded" None ;;
      log (LoadEvent i) ;;
      dispatchEvent i "code-input_load" ;;
      set_value i (Some value) ;;
      animateFrame i ;;
      log (ResizeObserve i)
    end
  end.

(** [connectedCallback()] *)
Definition connectedCallback (i : InstId) : M unit :=
  t <- getTemplate i ;;
  modifyThis i (set_template t) ;;
  match t with
  | Some _ =>
      classList_add i "code-input_registered" ;;
      setup i ;;
      classList_add i "code-input_loaded"
  | None => ret tt
  end ;;
  modifyThis i (set_mutationObserver true) ;;
  log (MutationObserve i).

(** [disconnectedCallback()] *)
Definition disconnectedCallback (i : InstId) : M unit :=
  c <- this i ;;
  if mutationObserver c then log (MutationDisconnect i) else throw TypeError.

(** The pieces of the language branch of [attributeChangedCallback]:
    both values are lower-cased before they are used. *)

(** [code.classList.contains(`language-${newValue}`)], asked when
    [newValue] is not [null]. *)
Definition languageApplied (code : Element) (newValue : option string) : bool :=
  match Str.toLowerCase <$> newValue with
  | Some nv => ClassList.contains (el_classList code) ("language-" +:+ nv)
  | None => false
  end.

(** [classList.remove("language-" + oldValue)] when [oldValue] is not
    [null], then [classList.remove("language-none")]. *)
Definition withoutLanguage (oldValue : option string) (l : list string) : list string :=
  ClassList.remove "language-none"
    match Str.toLowerCase <$> oldValue with
    | Some ov => ClassList.remove ("language-" +:+ ov) l
    | None => l
    end.

(** [classList.add("language-" + newValue)] when [newValue] is neither
    absent nor empty. *)
Definition withLanguage (newValue : option string) (l : list string) : list string :=
  match Str.toLowerCase <$> newValue with
  | Some nv => if String.eqb nv "" then l else ClassList.add ("language-" +:+ nv) l
  | None => l
  end.

(** [if (mainTextarea.placeholder == oldValue) mainTextarea.placeholder = newValue] *)
Definition placeholderSynced (oldValue newValue : option string) (ta : Textarea) : Textarea :=
  if match Str.toLowerCase <$> oldValue with
     | Some ov => String.eqb (ta_placeholder ta) ov
     | None => false
     end
  then ta_setAttribute "placeholder" (default "null" (Str.toLowerCase <$> newValue)) ta
  else ta.

(** The language branch of [attributeChangedCallback]; [code.parentElement]
    is [this.preElement], which [setup] creates together with the code
    element. *)
Definition languageChanged (i : InstId) (oldValue newValue : option string) : M unit :=
  c <- this i ;;
  match codeElement c, preElement c with
  | Some code, Some pre =>
      if languageApplied code newValue then ret tt
      else
        modifyThis i (fun c =>
          set_codeElement
            (Some (set_el_classList
                     (withLanguage newValue (withoutLanguage oldValue (el_classList code)))
                     code))
            (set_preElement
               (Some (set_el_classList (withoutLanguage oldValue (el_classList pre)) pre))
               c)) ;;
        match textareaElement c with
        | None => throw TypeError
        | Some mainTextarea =>
            modifyThis i (set_textareaElement
              (Some (placeholderSynced oldValue newValue mainTextarea))) ;;
            scheduleHighlight i
        end
  | _, _ => throw TypeError
  end.

(** [attributeChangedCallback(name, oldValue, newValue)] *)
Definition attributeChangedCallback (i : InstId) (name : string)
    (oldValue newValue : option string) : M unit :=
  c <- this i ;;
  if isConnected c then
    pluginEvt i "attributeChanged" (Some [Some name; oldValue; newValue]) ;;
    if String.eqb name "value" then set_value i newValue
    else if String.eqb name "template" then
      used <- gets usedTemplates ;;
      dflt <- gets defaultTemplate ;;
      let t := used !! propertyKey (or_else newValue dflt) in
      modifyThis i (set_template t) ;;
      match t with
      | None => throw TypeError
      | Some t =>
          (if preElementStyled t then classList_add i "code-input_pre-element-styled"
           else classList_remove i "code-input_pre-element-styled") ;;
          scheduleHighlight i
      end
    else if String.eqb name "lang" || String.eqb name "language" then
      languageChanged i oldValue newValue
    else if syncsToTextarea name then
      c <- this i ;;
      match textareaElement c with
      | None => throw TypeError
      | Some ta =>
          modifyThis i (set_textareaElement (Some
            match newValue with
            | None => ta_removeAttribute name ta
            | Some v => ta_setAttribute name v ta
            end))
      end
    else
      match textareaSyncAttributes_regexp with
      | None => throw TypeError
      | Some patterns =>
          forEach patterns (fun attribute =>
            if attribute name then
              c <- this i ;;
              match textareaElement c with
              | None => throw TypeError
              | Some ta =>
                  modifyThis i (set_textareaElement (Some
                    match newValue with
                    | None => ta_removeAttribute name ta
                    | Some v => ta_setAttribute name v ta
                    end))
              end
            else ret tt)
      end
  else ret tt.

(** A record of the browser's mutation observer. *)
Record MutationRecord := {
  mutationType : string;
  attributeName : string;
  oldValue : option string
}.

(** [mutationObserverCallback(mutationList, observer)]: the first record
    of an observed attribute is passed on and ends the callback. *)
Fixpoint mutationObserverCallback (i : InstId) (mutationList : list MutationRecord)
    : M unit :=
  match mutationList with
  | [] => ret tt
  | mutation :: rest =>
      if negb (String.eqb (mutationType mutation) "attributes")
      then mutationObserverCallback i rest
      else
        observed <- gets observedAttributes ;;
        if Str.includes observed (attributeName mutation)
           || Str.is_aria (attributeName mutation)
        then
          c <- this i ;;
          attributeChangedCallback i (attributeName mutation) (oldValue mutation)
            (getAttribute c (attributeName mutation))
        else mutationObserverCallback i rest
  end.

(** [formResetCallback()] *)
Definition formResetCallback (i : InstId) : M unit :=
  c <- this i ;; set_value i (initialValue c).

(** ** [codeInput.registerTemplate] *)

(** One round of the loops of [registerTemplate] over a queue bucket. *)
Definition replay (template : Template) (bucket : list InstId) : M unit :=
  forEach bucket (fun elem =>
    modifyThis elem (set_template (Some template)) ;;
    connectedCallback elem).

Definition replayQueued (template : Template) (key : string) : M unit :=
  queue <- gets templateNotYetRegisteredQueue ;;
  match queue !! key with
  | Some bucket => replay template bucket
  | None => ret tt
  end.

(** [registerTemplate(templateName, template)]; a [template] that is
    [undefined] or [null] is [None]. *)
Definition registerTemplate (templateName : JSVal) (template : option TemplateObject)
    : M unit :=
  if negb (String.eqb (typeof templateName) "string" || instanceof templateName StringC)
  then throw TypeError else
  match template with
  | None => throw TypeError
  | Some template =>
  if negb (String.eqb (typeof (prop_highlight template)) "function"
           || instanceof (prop_highlight template) FunctionC)
  then throw TypeError else
  if negb (String.eqb (typeof (prop_includeCodeInputInHighlightFunc template)) "boolean"
           || instanceof (prop_includeCodeInputInHighlightFunc template) BooleanC)
  then throw TypeError else
  if negb (String.eqb (typeof (prop_preElementStyled template)) "boolean"
           || instanceof (prop_preElementStyled template) BooleanC)
  then throw TypeError else
  if negb (String.eqb (typeof (prop_isCode template)) "boolean"
           || instanceof (prop_isCode template) BooleanC)
  then throw TypeError else
  if negb (isArray (prop_plugins template)) then throw TypeError else
  if existsb (fun plugin => negb (instanceof plugin PluginC))
       (arrayElements (prop_plugins template))
  then throw TypeError else
  match stringOf templateName, asTemplate template with
  | Some name, Some tpl =>
      modify (fun s => set_usedTemplates (<[name := tpl]> (usedTemplates s)) s) ;;
      replayQueued tpl name ;;
      dflt <- gets defaultTemplate ;;
      match dflt with
      | None =>
          modify (set_defaultTemplate (Some name)) ;;
          replayQueued tpl (propertyKey None)
      | Some _ => ret tt
      end
  | _, _ => throw TypeError
  end
  end.

(** ** What the browser does to an element *)

(** The element is inserted into the document. *)
Definition attach (i : InstId) : M unit :=
  modifyThis i (set_isConnected true) ;; connectedCallback i.

(** The element is removed from the document. *)
Definition detach (i : InstId) : M unit :=
  modifyThis i (set_isConnected false) ;; disconnectedCallback i.

(** [element.setAttribute(name, value)] by the page on an element with
    exactly one mutation observer, followed by the delivery of the record
    that the observer receives for it. *)
Definition setAttribute (i : InstId) (name value : string) : M unit :=
  c <- this i ;;
  modifyThis i (fun c => set_attributes (<[name := value]> (attributes c)) c) ;;
  mutationObserverCallback i
    [ {| mutationType := "attributes"; attributeName := name;
         oldValue := getAttribute c name |} ].

(** [element.setAttribute(name, value)] and [element.removeAttribute(name)]
    of the browser, which write the attribute and do not call the
    library. *)
Definition dom_setAttribute (i : InstId) (name value : string) : M unit :=
  modifyThis i (fun c => set_attributes (<[name := value]> (attributes c)) c).

Definition dom_removeAttribute (i : InstId) (name : string) : M unit :=
  modifyThis i (fun c => set_attributes (delete name (attributes c)) c).

(** The record that the browser notes for the mutation observers of an
    element when its attribute [name] is written; [c] is the element before
    the change.  The observers are created with [attributeOldValue: true]. *)
Definition attributeRecord (c : CodeInput) (name : string) : MutationRecord :=
  {| mutationType := "attributes"; attributeName := name; oldValue := getAttribute c name |}.

(** The number of mutation observers that observe element [i] after the
    calls of a trace.  [connectedCallback] creates an observer each time it
    runs and stores it in [this.mutationObserver], where it replaces the
    one created before; [disconnectedCallback] disconnects the stored one.
    [older] counts the observers that were replaced while they observed --
    nothing disconnects them -- and [current] tells whether the stored one
    observes. *)
Fixpoint observersAfter (i : InstId) (tr : list Event) (older : nat) (current : bool) : nat :=
  match tr with
  | [] => older + (if current then 1 else 0)
  | MutationObserve j :: tr' =>
      if Nat.eqb j i
      then observersAfter i tr' (older + (if current then 1 else 0)) true
      else observersAfter i tr' older current
  | MutationDisconnect j :: tr' =>
      if Nat.eqb j i
      then observersAfter i tr' older false
      else observersAfter i tr' older current
  | _ :: tr' => observersAfter i tr' older current
  end.

Definition liveObservers (i : InstId) (tr : list Event) : nat :=
  observersAfter i tr 0 false.

(** [m] run [n] times. *)
Fixpoint times (n : nat) (m : M unit) : M unit :=
  match n with
  | O => ret tt
  | S n' => m ;; times n' m
  end.

(** The browser delivering a batch of records of element [i]: the callback
    of each observer of the element runs on the batch, one after the other;
    an exception of a callback is reported. *)
Definition deliver (i : InstId) (records : list MutationRecord) : M unit :=
  tr <- gets trace ;;
  times (liveObservers i tr) (reported (mutationObserverCallback i records)).

(** Running a script: a list of calls, one after the other. *)
Definition run (script : list (M unit)) : M unit := forEach script id.

(** ** Notions used to state the properties *)

(** The element has been set up and has a template: all that a highlight
    pass reads is there. *)
Definition ready (c : CodeInput) : Prop :=
  is_Some (textareaElement c) /\ is_Some (codeElement c) /\
  is_Some (preElement c) /\ is_Some (template c).

(** The trace of one highlight pass of element [i] with template [t] on the
    text [value]. *)
Definition highlightPass (i : InstId) (t : Template) (value : string) : list Event :=
  [InnerHTMLSet i (escapeHtml (value +:+ newline))]
  ++ map (fun p => PluginCall p "beforeHighlight" i []) (plugins t)
  ++ [HighlightCall (highlight t) i (includeCodeInputInHighlightFunc t);
      SyncSize i (preElementStyled t)]
  ++ map (fun p => PluginCall p "afterHighlight" i []) (plugins t).

(** The number of calls of a highlight function for element [i] in a trace:
    one per highlight pass. *)
Definition isHighlightOf (i : InstId) (ev : Event) : bool :=
  match ev with
  | HighlightCall _ j _ => Nat.eqb i j
  | _ => false
  end.

Definition highlightPasses (i : InstId) (tr : list Event) : nat :=
  length (List.filter (isHighlightOf i) tr).

(** The state after one highlight pass of element [i] from state [s], where
    the element has the textarea [ta], the code element [code] and the
    template [t]. *)
Definition afterUpdate (i : InstId) (t : Template) (ta : Textarea) (code : Element)
    (s : State) : State :=
  set_trace (trace s ++ highlightPass i t (ta_value ta))
    (set_heap
       (<[i := set_codeElement
                 (Some (set_el_innerHTML (escapeHtml (ta_value ta +:+ newline)) code))
                 (elem s i)]> (heap s)) s).

(** Changes that reach the class between two frames: assignments to the
    [value] property, and the calls of [attributeChangedCallback] that
    [mutationObserverCallback] makes for the record it passes on. *)
Inductive Mutation :=
| SetValue (val : option string)
| AttributeChanged (name : string) (oldValue newValue : option string).

Definition mutate (i : InstId) (m : Mutation) : M unit :=
  match m with
  | SetValue val => set_value i val
  | AttributeChanged name old new => attributeChangedCallback i name old new
  end.

(** Each change is a task of its own: an exception it raises is reported
    and the next change still runs. *)
Definition mutations (i : InstId) (ms : list Mutation) : M unit :=
  forEach ms (fun m => reported (mutate i m)).

Definition isValueMutation (m : Mutation) : bool :=
  match m with
  | SetValue _ => true
  | AttributeChanged name _ _ => String.eqb name "value"
  end.

(** A change of the [template] attribute names a registered template (or
    falls back to a registered default). *)
Definition keepsTemplate (s : State) (m : Mutation) : bool :=
  match m with
  | AttributeChanged name _ new =>
      if String.eqb name "template"
      then bool_decide (is_Some (usedTemplates s !! propertyKey (or_else new (defaultTemplate s))))
      else true
  | SetValue _ => true
  end.

(** What a run of mutations keeps of the state it started from, [s0]. *)
Definition frameInv (i : InstId) (s0 s : State) : Prop :=
  ready (elem s i) /\ isConnected (elem s i) = true /\
  usedTemplates s = usedTemplates s0 /\ defaultTemplate s = defaultTemplate s0.

(** ** What happens to an element between two frames *)


(** One step of what happens to element [i] between two frame ticks:
    - the [value] property is assigned, by the page or by the [input]
      listener of the textarea;
    - the page sets or removes an attribute of the element; the browser
      notes a record of the change for the mutation observers of the
      element and does not call the library;
    - the browser runs the callback of one mutation observer of the
      element on a batch of records; an exception of the callback is
      reported by the browser.
    Which batches the browser forms, when it delivers them and to how many
    observers is left open: a frame is any sequence of such steps. *)
Inductive FrameStep :=
| AssignValue (val : option string)
| WriteAttribute (name : string) (value : option string)
| ObserverCallback (records : list MutationRecord).

Definition frameStep (i : InstId) (st : FrameStep) : M unit :=
  match st with
  | AssignValue val => set_value i val
  | WriteAttribute name value =>
      match value with
      | Some v => dom_setAttribute i name v
      | None => dom_removeAttribute i name
      end
  | ObserverCallback records => reported (mutationObserverCallback i records)
  end.

Definition frame (i : InstId) (steps : list FrameStep) : M unit :=
  forEach steps (frameStep i).






(** The arguments [registerTemplate] accepts, in the words of its error
    messages: a name that is a string, a highlight function that is a
    function, three flags that are true or false, a plugin array whose
    elements are plugins. *)
Definition isStringTyped (v : JSVal) : bool :=
  match v with VString _ | VStringObject _ => true | _ => false end.
Definition isCallable (v : JSVal) : bool :=
  match v with VFunction _ => true | _ => false end.
Definition isBooleanTyped (v : JSVal) : bool :=
  match v with VBool _ | VBooleanObject _ => true | _ => false end.
Definition isPlugin (v : JSVal) : bool :=
  match v with VPlugin _ => true | _ => false end.
Definition isPluginArray (v : JSVal) : bool :=
  match v with VArray l => forallb isPlugin l | _ => false end.

Definition wellFormedTemplate (o : TemplateObject) : bool :=
  isCallable (prop_highlight o)
  && isBooleanTyped (prop_preElementStyled o)
  && isBooleanTyped (prop_isCode o)
  && isBooleanTyped (prop_includeCodeInputInHighlightFunc o)
  && isPluginArray (prop_plugins o).

Definition wellFormedRegistration (templateName : JSVal) (template : option TemplateObject)
    : bool :=
  isStringTyped templateName
  && match template with Some o => wellFormedTemplate o | None => false end.

(** The text after the first replacement of [escapeHtml]. *)
Fixpoint ampChars (s : string) : string :=
  match s with
  | EmptyString => EmptyString
  | String c s' => (if Ascii.eqb c "&" then "&amp;" else String c EmptyString) +:+ ampChars s'
  end.

(** The escaping of a text after the first replacement of [unescapeHtml]. *)
Fixpoint ampOnly (s : string) : string :=
  match s with
  | EmptyString => EmptyString
  | String c s' => (if Ascii.eqb c "<" then "&lt;" else String c EmptyString) +:+ ampOnly s'
  end.

(** A language class that is on the code element and on the pre element. *)
Definition languageOnBothNodes (c : CodeInput) (tok : string) : Prop :=
  exists code pre,
    codeElement c = Some code /\ preElement c = Some pre /\
    ClassList.contains (el_classList code) tok = true /\
    ClassList.contains (el_classList pre) tok = true.

(** The bound callbacks on the textarea of an element that call the
    listener [l] for events of the given type. *)
Definition callsListener (l : Listener) (f : Fn) : bool :=
  match f with
  | Bound _ (PageListener l') => Nat.eqb (listenerId l') (listenerId l)
  | _ => false
  end.

Definition attachedWrappers (c : CodeInput) (type : string) (l : Listener) : list Fn :=
  match textareaElement c with
  | Some ta =>
      List.filter (callsListener l) (callback <$> listenersFor type (ta_listeners ta))
  | None => []
  end.

(** The elements whose [connectedCallback] ran, in call order: each run
    ends by starting a mutation observer. *)
Definition attachCalls (tr : list Event) : list InstId :=
  omap (fun ev => match ev with MutationObserve i => Some i | _ => None end) tr.

(** A step that stays inside element [i]: the registry, the queue and the
    other elements are as before, no [connectedCallback] ran, and the
    element keeps its attributes, its template and its rendering nodes. *)
Definition localStep (i : InstId) (s s' : State) : Prop :=
  usedTemplates s' = usedTemplates s /\
  defaultTemplate s' = defaultTemplate s /\
  templateNotYetRegisteredQueue s' = templateNotYetRegisteredQueue s /\
  (forall j, j <> i -> elem s' j = elem s j) /\
  attachCalls (trace s') = attachCalls (trace s) /\
  attributes (elem s' i) = attributes (elem s i) /\
  fallbackTextarea (elem s' i) = fallbackTextarea (elem s i) /\
  template (elem s' i) = template (elem s i) /\
  codeElement (elem s' i) = codeElement (elem s i) /\
  preElement (elem s' i) = preElement (elem s i) /\
  (is_Some (textareaElement (elem s i)) -> is_Some (textareaElement (elem s' i))).

(** An element that names no template, now or after [setup] copied the
    attributes of its fallback textarea. *)
Definition unnamed (c : CodeInput) : Prop :=
  attributes c !! "template" = None /\
  match fallbackTextarea c with
  | Some fb => fb_attributes fb !! "template" = None
  | None => True
  end.

(** The template an element asks for is the same in [c'] as in [c]. *)
Definition sameRequest (c c' : CodeInput) : Prop :=
  (forall n, attributes c !! "template" = Some n -> attributes c' !! "template" = Some n) /\
  (unnamed c -> unnamed c').

(** The registry key [getTemplate] looks up for element [i] in state [s]:
    the [template] attribute, or the default name, which may be
    [undefined]. *)
Definition requestedKey (s : State) (i : InstId) : string :=
  propertyKey
    match getAttribute (elem s i) "template" with
    | None => defaultTemplate s
    | Some n => Some n
    end.

(** A queue bucket, empty when the queue has no such key. *)
Definition bucket (s : State) (key : string) : list InstId :=
  default [] (templateNotYetRegisteredQueue s !! key).

(** No bucket lost an element: every bucket of [s] is a prefix of the
    bucket of [s'] with the same key. *)
Definition queueGrows (s s' : State) : Prop :=
  forall key b,
    templateNotYetRegisteredQueue s !! key = Some b ->
    exists b', templateNotYetRegisteredQueue s' !! key = Some (b ++ b').

(** Element [e] asks for the template registered under [name]: by its
    [template] attribute, or by naming none while [name] is the default. *)
Definition requests (s : State) (e : InstId) (name : string) : Prop :=
  attributes (elem s e) !! "template" = Some name \/
  (unnamed (elem s e) /\ defaultTemplate s = Some name).

(** The element has been given the template and has been set up. *)
Definition settled (tpl : Template) (c : CodeInput) : Prop :=
  template c = Some tpl /\ is_Some (textareaElement c).

(** What a replay of the elements [L] does to the queue: a bucket keeps
    its elements and receives only elements of [L] at its end. *)
Definition queueStep (L : list InstId) (s s' : State) : Prop :=
  forall key,
    (exists b', bucket s' key = bucket s key ++ b' /\ Forall (fun x => In x L) b') /\
    (is_Some (templateNotYetRegisteredQueue s !! key) ->
     is_Some (templateNotYetRegisteredQueue s' !! key)).

(** The part of [registerTemplate] that follows the checks. *)
Definition registerChecked (name : string) (tpl : Template) : M unit :=
  modify (fun s => set_usedTemplates (<[name := tpl]> (usedTemplates s)) s) ;;
  replayQueued tpl name ;;
  dflt <- gets defaultTemplate ;;
  match dflt with
  | None =>
      modify (set_defaultTemplate (Some name)) ;;
      replayQueued tpl (propertyKey None)
  | Some _ => ret tt
  end.

(** The queue invariant of the specification, for an element [i]: it is in
    at most one bucket, and it is in none once it has its template. *)
Definition inAtMostOneBucket (s : State) (i : InstId) : Prop :=
  forall k1 k2, In i (bucket s k1) -> In i (bucket s k2) -> k1 = k2.

Definition removedOnceResolved (s : State) (i : InstId) : Prop :=
  is_Some (template (elem s i)) -> forall key, ~ In i (bucket s key).

(** ** Example pages *)

(** A template with one plugin, which observes the attribute
    [data-limit]. *)
Definition demoTemplate : TemplateObject :=
  Template_constructor (VFunction 0) (VBool true) (VBool true) (VBool false)
    (VArray [VPlugin 1]).

(** [<code-input lang="python">] in a page that registered [demoTemplate]
    under the name ["demo"] before the element was attached. *)
Definition pythonPage : State :=
  finalState (run
    [ Plugin_constructor ["data-limit"];
      registerTemplate (VString "demo") (Some demoTemplate);
      modifyThis 0 (set_attributes {["lang" := "python"]});
      attach 0 ] codeInput).

(** The same page after a highlighter that copies the language class to
    the parent of the code element, as Prism does. *)
Definition highlightedPage : State :=
  finalState (modifyThis 0 (fun c =>
    set_preElement (Some (mkElement ["language-python"] "")) c) pythonPage).

(** Two listener objects of a page, each with a [handleEvent] method; used
    as a property key, either converts to ["[object Object]"]. *)
Definition handlerA : Listener :=
  {| listenerId := 1; listenerKey := "[object Object]"; listenerKind := HasHandleEvent |}.
Definition handlerB : Listener :=
  {| listenerId := 2; listenerKey := "[object Object]"; listenerKind := HasHandleEvent |}.

(** [pythonPage] after both objects were added as [input] listeners. *)
Definition listenersPage : State :=
  finalState (run
    [ addEventListener 0 "input" (PageListener handlerA) None;
      addEventListener 0 "input" (PageListener handlerB) None ] pythonPage).

(** An element that was attached without a [template] attribute, detached,
    given the attribute [template="demo"] and attached again, all before
    the page registered [demoTemplate] under that name. *)
Definition reattachedPage : State :=
  finalState (run
    [ attach 0;
      detach 0;
      modifyThis 0 (set_attributes {["template" := "demo"]});
      attach 0;
      registerTemplate (VString "demo") (Some demoTemplate) ] codeInput).

(** Four elements attached before any template is registered: 0 and 3 name
    no template, 1 names ["demo"], 2 names ["other"]. *)
Definition queuedPage : State :=
  finalState (run
    [ attach 0;
      modifyThis 1 (set_attributes {["template" := "demo"]});
      attach 1;
      modifyThis 2 (set_attributes {["template" := "other"]});
      attach 2;
      attach 3 ] codeInput).

(** ** Notions used to state further properties *)

(** The text contains the character [c]. *)
Fixpoint hasChar (c : ascii) (s : string) : bool :=
  match s with
  | EmptyString => false
  | String c' s' => Ascii.eqb c' c || hasChar c s'
  end.

(** The non-empty literal [pat] occurs in the text. *)
Fixpoint occurs (pat s : string) : bool :=
  match s with
  | EmptyString => false
  | String _ s' => String.prefix pat s || occurs pat s'
  end.

(** The last two replacements of [unescapeHtml]. *)
Definition decodeAngles (text : string) : string :=
  Str.replaceAll "&gt;" ">" (Str.replaceAll "&lt;" "<" text).

(** None of the first [k] characters of the text is [<]. *)
Fixpoint plainHead (k : nat) (s : string) : bool :=
  match k, s with
  | S k', String c s' => negb (Ascii.eqb c "<") && plainHead k' s'
  | _, _ => true
  end.

(** ** Further parts of [codeInput.Plugin] and [codeInput.templates] *)

(** [addTranslations(destination, source)]: every key of [source] is
    visited once and assigned in [destination]; the table that
    [destination] has become is the result. *)
Definition addTranslations (destination source : gmap string string) : gmap string string :=
  map_fold (fun key value destination => <[key := value]> destination) destination source.

(** A parameter with a default takes it when the argument is [undefined]. *)
Definition orDefault (arg dflt : JSVal) : JSVal :=
  match arg with VUndefined => dflt | _ => arg end.

(** [new codeInput.Template(...)] with the defaults of its parameters;
    [noop] is the function object that the default of [highlight]
    creates. *)
Definition Template_new (noop : FunId) (highlight preElementStyled isCode
    includeCodeInputInHighlightFunc plugins : JSVal) : TemplateObject :=
  Template_constructor
    (orDefault highlight (VFunction noop))
    (orDefault preElementStyled (VBool true))
    (orDefault isCode (VBool true))
    (orDefault includeCodeInputInHighlightFunc (VBool false))
    (orDefault plugins (VArray [])).

(** [new codeInput.templates.Prism(prism, plugins, preElementStyled)], with
    [highlightElement] for [prism.highlightElement]. *)
Definition templates_Prism (noop : FunId) (highlightElement plugins preElementStyled : JSVal)
    : TemplateObject :=
  Template_new noop highlightElement (orDefault preElementStyled (VBool true))
    (VBool true) (VBool false) (orDefault plugins (VArray [])).

(** [new codeInput.templates.Hljs(hljs, plugins, preElementStyled)];
    [wrapper] is the function the constructor builds around
    [hljs.highlightElement]. *)
Definition templates_Hljs (noop wrapper : FunId) (plugins preElementStyled : JSVal)
    : TemplateObject :=
  Template_new noop (VFunction wrapper) (orDefault preElementStyled (VBool false))
    (VBool true) (VBool false) (orDefault plugins (VArray [])).

(** [codeInput.templates.prism(prism, plugins)] and
    [codeInput.templates.hljs(hljs, plugins)] *)
Definition templates_prism (noop : FunId) (highlightElement plugins : JSVal) : TemplateObject :=
  templates_Prism noop highlightElement (orDefault plugins (VArray [])) VUndefined.

Definition templates_hljs (noop wrapper : FunId) (plugins : JSVal) : TemplateObject :=
  templates_Hljs noop wrapper (orDefault plugins (VArray [])) VUndefined.

(** [codeInput.templates.custom(...)] *)
Definition templates_custom (noop : FunId) (highlight preElementStyled isCode
    includeCodeInputInHighlightFunc plugins : JSVal) : TemplateObject :=
  {| prop_highlight := orDefault highlight (VFunction noop);
     prop_preElementStyled := orDefault preElementStyled (VBool true);
     prop_isCode := orDefault isCode (VBool true);
     prop_includeCodeInputInHighlightFunc :=
       orDefault includeCodeInputInHighlightFunc (VBool false);
     prop_plugins := orDefault plugins (VArray []) |}.

(** The object [codeInput.templates.characterLimit(plugins)] returns;
    [highlight] is the function its literal creates.  The parameter has no
    default. *)
Definition templates_characterLimit (highlight : FunId) (plugins : JSVal) : TemplateObject :=
  {| prop_highlight := VFunction highlight;
     prop_preElementStyled := VBool true;
     prop_isCode := VBool false;
     prop_includeCodeInputInHighlightFunc := VBool true;
     prop_plugins := plugins |}.

(** [codeInput.templates.character_limit()] *)
Definition templates_character_limit (highlight : FunId) : TemplateObject :=
  templates_characterLimit highlight (VArray []).

(** The object [codeInput.templates.rainbowText(rainbowColors, delimiter,
    plugins)] returns, seen through the properties the library reads. *)
Definition templates_rainbowText (highlight : FunId) (plugins : JSVal) : TemplateObject :=
  {| prop_highlight := VFunction highlight;
     prop_preElementStyled := VBool true;
     prop_isCode := VBool false;
     prop_includeCodeInputInHighlightFunc := VBool true;
     prop_plugins := orDefault plugins (VArray []) |}.

(** [codeInput.templates.rainbow_text(rainbowColors, delimiter, plugins)] *)
Definition templates_rainbow_text (highlight : FunId) (plugins : JSVal) : TemplateObject :=
  templates_rainbowText highlight plugins.

(** ** Further methods of [codeInput.CodeInput] *)

(** [get placeholder()] *)
Definition get_placeholder (i : InstId) : M (option string) :=
  c <- this i ;; ret (getAttribute c "placeholder").

(** [set placeholder(val)] *)
Definition set_placeholder (i : InstId) (val : string) : M unit :=
  dom_setAttribute i "placeholder" val.

(** [escape_html(text)] and [get_template()] *)
Definition escape_html (text : string) : string := escapeHtml text.

Definition get_template (i : InstId) : M (option Template) := getTemplate i.

(** ** Notions used to state the properties of [setup] *)

(** The attributes of the element once [setup] has given it those of the
    fallback textarea that it lacks. *)
Definition effectiveAttributes (c : CodeInput) : gmap string string :=
  match fallbackTextarea c with
  | Some fb => attributes c ∪ fb_attributes fb
  | None => attributes c
  end.

(** The text [setup] starts the element with. *)
Definition initialText (c : CodeInput) : string :=
  let value :=
    match fallbackTextarea c with
    | Some fb => fb_value fb
    | None => unescapeHtml (innerHTML c)
    end in
  default "" (or_else (or_else (Some value) (effectiveAttributes c !! "value")) (Some "")).

(** [this.getAttribute("language") || this.getAttribute("lang")] in
    [setup]. *)
Definition requestedLanguage (c : CodeInput) : option string :=
  or_else (effectiveAttributes c !! "language") (effectiveAttributes c !! "lang").

(** The attributes [setup] gives the textarea itself, before it copies
    those of the element. *)
Definition createdAttributes (c : CodeInput) : gmap string string :=
  <["tabindex" := default "0" (or_else (effectiveAttributes c !! "tabindex") (Some "0"))]>
    (<["spellcheck" := "false"]>
       {["placeholder" :=
           default "" (or_else (or_else (effectiveAttributes c !! "placeholder")
                                        (requestedLanguage c)) (Some ""))]}).

(** What running a listener of the element leaves as it is. *)
Definition handlerStep (i : InstId) (s s' : State) : Prop :=
  initialValue (elem s' i) = initialValue (elem s i) /\
  innerHTML (elem s' i) = innerHTML (elem s i) /\
  isConnected (elem s' i) = isConnected (elem s i) /\
  mutationObserver (elem s' i) = mutationObserver (elem s i) /\
  dialogContainerElement (elem s' i) = dialogContainerElement (elem s i) /\
  originalAriaDescription (elem s' i) = originalAriaDescription (elem s i) /\
  observedAttributes s' = observedAttributes s /\
  (forall tok, tok <> "code-input_mouse-focused" ->
     ClassList.contains (classList (elem s' i)) tok =
     ClassList.contains (classList (elem s i)) tok) /\
  (forall ta, textareaElement (elem s i) = Some ta ->
     exists ta', textareaElement (elem s' i) = Some ta' /\
       ta_value ta' = ta_value ta /\ ta_attributes ta' = ta_attributes ta) /\
  (forall j, highlightPasses j (trace s') = highlightPasses j (trace s)).

(** The first record of a batch that [mutationObserverCallback] passes
    on. *)
Definition firstObserved (observed : list string) (l : list MutationRecord)
    : option MutationRecord :=
  List.find (fun m => String.eqb (mutationType m) "attributes" &&
                      (Str.includes observed (attributeName m)
                       || Str.is_aria (attributeName m))) l.

(** No listener of the list has the function identity [n]. *)
Definition freshFn (n : FunId) (ls : list EventListener) : bool :=
  forallb (fun e => negb (Nat.eqb (fnId (callback e)) n)) ls.

(** The element when [setup] dispatches [code-input_load]: [c] is the
    element [setup] found, [t] its template and [n] the first unused
    function identity. *)
Definition builtElement (t : Template) (n : FunId) (c : CodeInput) : CodeInput :=
  {| attributes := <["tabindex" := "-1"]> (effectiveAttributes c);
     classList :=
       (if preElementStyled t then ClassList.add "code-input_pre-element-styled" else id)
         (ClassList.add "code-input_registered" (classList c));
     isConnected := isConnected c;
     innerHTML := "";
     fallbackTextarea := None;
     listeners :=
       dom_addEventListener "mousedown" (Bound n MouseDownArrow) None (listeners c);
     textareaElement :=
       Some {| ta_value := initialText c;
               ta_attributes :=
                 syncedAttributes (<["tabindex" := "-1"]> (effectiveAttributes c))
                 ∪ createdAttributes c;
               ta_listeners :=
                 [ {| evType := "blur"; callback := BlurArrow (S n); capture := false |};
                   {| evType := "input"; callback := InputArrow (S (S n)); capture := false |} ] |};
     preElement := Some (mkElement [] "");
     codeElement := Some (mkElement (languageClasses t (requestedLanguage c)) "");
     dialogContainerElement := Some (mkElement ["code-input_dialog-container"] "");
     boundEventCallbacks :=
       <[mouseDownArrowSource := Bound n MouseDownArrow]> (boundEventCallbacks c);
     needsHighlight := needsHighlight c;
     originalAriaDescription :=
       or_else ((<["tabindex" := "-1"]> (effectiveAttributes c)) !! "aria-description")
               (Some "Code input field");
     template := Some t;
     initialValue := Some (initialText c);
     mutationObserver := mutationObserver c |}.

Definition built (i : InstId) (t : Template) (s : State) : State :=
  {| observedAttributes := observedAttributes s;
     usedTemplates := usedTemplates s;
     defaultTemplate := defaultTemplate s;
     templateNotYetRegisteredQueue := templateNotYetRegisteredQueue s;
     heap := <[i := builtElement t (nextFn s) (elem s i)]> (heap s);
     nextFn := S (S (S (nextFn s)));
     trace :=
       trace s
       ++ map (fun p => PluginCall p "beforeElementsAdded" i []) (plugins t)
       ++ map (fun p => PluginCall p "afterElementsAdded" i []) (plugins t)
       ++ [LoadEvent i] |}.

(** ** Listeners that run code of the page *)

(** The function object runs a listener that the page handed to
    [addEventListener]; the other function objects are arrow functions of
    the library. *)
Definition runsPageCode (f : Fn) : bool :=
  match f with
  | Bound _ (PageListener _) => true
  | _ => false
  end.

(** None of the listeners runs code of the page. *)
Definition libraryOnly (ls : list EventListener) : bool :=
  forallb (fun e => negb (runsPageCode (callback e))) ls.

(** The calls that leave the library during the first [connectedCallback]
    of element [i] with template [t] and initial text [text], when no
    listener of the page runs: the hooks around the construction of the
    elements, the load event, one highlight pass on the text followed by a
    line feed, and the requests to the browser. *)
Definition firstAttachCalls (i : InstId) (t : Template) (text : string) : list Event :=
  map (fun p => PluginCall p "beforeElementsAdded" i []) (plugins t)
  ++ map (fun p => PluginCall p "afterElementsAdded" i []) (plugins t)
  ++ [LoadEvent i;
      InnerHTMLSet i (escapeChars (text +:+ String "010"%char EmptyString))]
  ++ map (fun p => PluginCall p "beforeHighlight" i []) (plugins t)
  ++ [HighlightCall (highlight t) i (includeCodeInputInHighlightFunc t);
      SyncSize i (preElementStyled t)]
  ++ map (fun p => PluginCall p "afterHighlight" i []) (plugins t)
  ++ [RequestAnimationFrame i; ResizeObserve i; MutationObserve i].

(** ** Further example pages *)

(** An element with text content and attributes, in a page that registered
    [demoTemplate]; the element has not been attached yet. *)
Definition unattachedPage : State :=
  finalState (run
    [ registerTemplate (VString "demo") (Some demoTemplate);
      modifyThis 0 (fun c =>
        set_isConnected true
          (set_innerHTML "if (a &lt; b) return;"
             (set_attributes
                (<["lang" := "JavaScript"]> (<["rows" := "4"]> {["data-mode" := "strict"]}))
                c))) ] codeInput).

(** [pythonPage] after the page set the attributes [rows] and [aria-label]
    of the element; the records of the two changes are not delivered
    yet. *)
Definition labelledPage : State :=
  finalState (frame 0 [ WriteAttribute "rows" (Some "10");
                        WriteAttribute "aria-label" (Some "Editor") ] pythonPage).

(** [queuedPage] after the page registered [demoTemplate] under the name
    ["demo"], which is also the default from then on: the elements 0, 1
    and 3 are set up by the replay of [connectedCallback]. *)
Definition replayedPage : State :=
  finalState (registerTemplate (VString "demo") (Some demoTemplate) queuedPage).

(** * Properties *)

(** ** The monad and the heap *)

Lemma elem_set_heap_eq (s : State) (i : InstId) (c : CodeInput) :
  elem (set_heap (<[i := c]> (heap s)) s) i = c.
Proof. unfold elem; simpl. by rewrite lookup_insert_eq. Qed.

Lemma elem_set_heap_ne (s : State) (i j : InstId) (c : CodeInput) :
  i <> j -> elem (set_heap (<[i := c]> (heap s)) s) j = elem s j.
Proof. intros Hne. unfold elem; simpl. by rewrite lookup_insert_ne. Qed.

Lemma elem_set_trace (s : State) (tr : list Event) (i : InstId) :
  elem (set_trace tr s) i = elem s i.
Proof. reflexivity. Qed.

Lemma forEach_log {A} (f : A -> Event) (l : list A) (s : State) :
  forEach l (fun x => log (f x)) s = Return tt (set_trace (trace s ++ map f l) s).
Proof.
  revert s. induction l as [|x l IH]; intros s; simpl.
  - unfold ret. rewrite app_nil_r. by destruct s.
  - unfold bind, log, modify at 1. rewrite IH. simpl.
    by rewrite <- app_assoc.
Qed.

Lemma pluginEvt_run (i : InstId) (eventName : string) args (s : State) (t : Template) :
  template (elem s i) = Some t ->
  pluginEvt i eventName args s =
  Return tt (set_trace
    (trace s ++ map (fun p => PluginCall p eventName i (default [] args)) (plugins t)) s).
Proof.
  intros Ht. unfold pluginEvt, bind, this, gets. rewrite Ht.
  apply forEach_log.
Qed.

Lemma elem_mk_eq o u d q (h : gmap InstId CodeInput) n tr i c :
  elem (mkState o u d q (<[i := c]> h) n tr) i = c.
Proof. unfold elem; simpl. by rewrite lookup_insert_eq. Qed.

Lemma elem_mk_ne o u d q (h : gmap InstId CodeInput) n tr i j c :
  i <> j -> elem (mkState o u d q (<[i := c]> h) n tr) j = default newCodeInput (h !! j).
Proof. intros. unfold elem; simpl. by rewrite lookup_insert_ne. Qed.

Lemma elem_mk_heap o u d q n tr s i :
  elem (mkState o u d q (heap s) n tr) i = elem s i.
Proof. reflexivity. Qed.

(** Reduction of the monad operations and of the record updates they
    perform; projections are only reduced on explicit records. *)
Ltac mproj :=
  cbn [observedAttributes usedTemplates defaultTemplate templateNotYetRegisteredQueue
       heap nextFn trace
       attributes classList isConnected innerHTML fallbackTextarea listeners
       textareaElement preElement codeElement dialogContainerElement boundEventCallbacks
       needsHighlight originalAriaDescription template initialValue mutationObserver
       ta_value ta_attributes ta_listeners el_classList el_innerHTML].

Ltac mred :=
  cbv beta iota delta [bind ret gets modify throw this modifyThis log classList_add
       classList_remove scheduleHighlight allocFn reported finalState
       set_observedAttributes set_usedTemplates set_defaultTemplate
       set_templateNotYetRegisteredQueue set_heap set_nextFn set_trace
       set_attributes set_classList set_isConnected set_innerHTML set_fallbackTextarea
       set_listeners set_textareaElement set_preElement set_codeElement
       set_dialogContainerElement set_boundEventCallbacks set_needsHighlight
       set_originalAriaDescription set_template set_initialValue set_mutationObserver
       set_ta_value set_ta_attributes set_ta_listeners
       set_el_classList set_el_innerHTML];
  mproj; rewrite ?elem_mk_eq, ?elem_mk_heap; mproj.

(** One step of a program: the equations of [bind] on each basic
    operation. *)
Lemma bind_this {B} (i : InstId) (k : CodeInput -> M B) (s : State) :
  bind (this i) k s = k (elem s i) s.
Proof. reflexivity. Qed.

Lemma bind_modifyThis {B} (i : InstId) (f : CodeInput -> CodeInput) (k : unit -> M B)
    (s : State) :
  bind (modifyThis i f) k s = k tt (set_heap (<[i := f (elem s i)]> (heap s)) s).
Proof. reflexivity. Qed.

Lemma bind_log {B} (ev : Event) (k : unit -> M B) (s : State) :
  bind (log ev) k s = k tt (set_trace (trace s ++ [ev]) s).
Proof. reflexivity. Qed.

Lemma bind_allocFn {B} (k : FunId -> M B) (s : State) :
  bind allocFn k s = k (nextFn s) (set_nextFn (S (nextFn s)) s).
Proof. reflexivity. Qed.

Lemma bind_ret {A B} (a : A) (k : A -> M B) (s : State) :
  bind (ret a) k s = k a s.
Proof. reflexivity. Qed.

Lemma bind_Return {A B} (m : M A) (k : A -> M B) (s s' : State) (a : A) :
  m s = Return a s' -> bind m k s = k a s'.
Proof. intros H. unfold bind. by rewrite H. Qed.

Lemma bind_bind {A B C} (m : M A) (k : A -> M B) (k' : B -> M C) (s : State) :
  bind (bind m k) k' s = bind m (fun a => bind (k a) k') s.
Proof. unfold bind. by destruct (m s). Qed.

(** The state after a step, as an explicit record. *)
Ltac mnorm :=
  cbv beta iota delta [classList_add classList_remove scheduleHighlight
       set_observedAttributes set_usedTemplates set_defaultTemplate
       set_templateNotYetRegisteredQueue set_heap set_nextFn set_trace
       set_attributes set_classList set_isConnected set_innerHTML set_fallbackTextarea
       set_listeners set_textareaElement set_preElement set_codeElement
       set_dialogContainerElement set_boundEventCallbacks set_needsHighlight
       set_originalAriaDescription set_template set_initialValue set_mutationObserver
       set_ta_value set_ta_attributes set_ta_listeners
       set_el_classList set_el_innerHTML];
  mproj; rewrite ?elem_mk_eq, ?elem_mk_heap, ?insert_insert_eq; mproj.

Ltac mproj_in H :=
  cbn [observedAttributes usedTemplates defaultTemplate templateNotYetRegisteredQueue
       heap nextFn trace
       attributes classList isConnected innerHTML fallbackTextarea listeners
       textareaElement preElement codeElement dialogContainerElement boundEventCallbacks
       needsHighlight originalAriaDescription template initialValue mutationObserver
       ta_value ta_attributes ta_listeners el_classList el_innerHTML] in H.

Ltac mnorm_in H :=
  cbv beta iota delta [classList_add classList_remove scheduleHighlight
       set_observedAttributes set_usedTemplates set_defaultTemplate
       set_templateNotYetRegisteredQueue set_heap set_nextFn set_trace
       set_attributes set_classList set_isConnected set_innerHTML set_fallbackTextarea
       set_listeners set_textareaElement set_preElement set_codeElement
       set_dialogContainerElement set_boundEventCallbacks set_needsHighlight
       set_originalAriaDescription set_template set_initialValue set_mutationObserver
       set_ta_value set_ta_attributes set_ta_listeners
       set_el_classList set_el_innerHTML] in H;
  mproj_in H; rewrite ?elem_mk_eq, ?elem_mk_heap in H; mproj_in H.

(** One step of a program that begins with a basic operation. *)
Ltac mstep :=
  first [ rewrite bind_this | rewrite bind_modifyThis | rewrite bind_log
        | rewrite bind_allocFn | rewrite bind_ret | rewrite bind_bind ];
  mnorm.

(** ** The highlight pass *)

Lemma update_run (i : InstId) (s : State) ta code pre t :
  textareaElement (elem s i) = Some ta ->
  codeElement (elem s i) = Some code ->
  preElement (elem s i) = Some pre ->
  template (elem s i) = Some t ->
  update i s = Return tt (afterUpdate i t ta code s).
Proof.
  intros Hta Hcode Hpre Ht.
  unfold afterUpdate, highlightPass, update, get_value. mred. rewrite Hta, Hcode. mred.
  erewrite pluginEvt_run by (mred; exact Ht). mred. rewrite ?Ht. mred.
  unfold syncSize. mred. rewrite ?Ht, ?Hpre, ?Hcode, ?Hta.
  destruct (preElementStyled t); mred;
  (erewrite pluginEvt_run by (mred; rewrite ?Ht; reflexivity)); mred;
  rewrite ?Ht, <- ?app_assoc; cbn [app]; reflexivity.
Qed.

(** ** The [value] property *)

Lemma set_value_run (i : InstId) (val : option string) (s : State) ta :
  textareaElement (elem s i) = Some ta ->
  set_value i val s =
  Return tt (set_heap
    (<[i := set_needsHighlight true
              (set_textareaElement (Some (set_ta_value (default "" val) ta)) (elem s i))]>
       (heap s)) s).
Proof.
  intros Hta. unfold set_value. mred. rewrite Hta. mred.
  rewrite insert_insert_eq. by destruct val.
Qed.


(** C10. On a set-up element every call of the [value] setter returns
    normally, stores the assigned text in the textarea -- the empty string
    when [null] or [undefined] is assigned, so that the getter then returns
    it -- and sets [needsHighlight]; assigning the text that is already
    stored leaves the textarea as it is and still sets the flag. *)
Theorem set_value_schedules_highlight (i : InstId) (s : State) (ta : Textarea)
    (val : option string) :
  textareaElement (elem s i) = Some ta ->
  exists s',
    set_value i val s = Return tt s' /\
    needsHighlight (elem s' i) = true /\
    get_value i s' = Return (default "" val) s' /\
    (val = None -> get_value i s' = Return "" s') /\
    (val = Some (ta_value ta) ->
     textareaElement (elem s' i) = Some ta /\ needsHighlight (elem s' i) = true).
Proof.
  intros Hta. eexists. split; [by eapply set_value_run|].
  unfold get_value. mred. split; [reflexivity|]. split; [reflexivity|].
  split; [by intros ->|]. intros ->. split; [|reflexivity]. by destruct ta.
Qed.

Lemma set_value_schedules_highlight_witness :
  exists ta,
    textareaElement (elem pythonPage 0) = Some ta /\
    exists s',
      set_value 0 (Some "") pythonPage = Return tt s' /\
      needsHighlight (elem s' 0) = true /\
      get_value 0 s' = Return (default "" (Some "")) s' /\
      (Some "" = None -> get_value 0 s' = Return "" s') /\
      (Some "" = Some (ta_value ta) ->
       textareaElement (elem s' 0) = Some ta /\ needsHighlight (elem s' 0) = true).
Proof.
  eexists. split; [vm_compute; reflexivity|].
  eapply set_value_schedules_highlight. vm_compute; reflexivity.
Defined.

(** ** The frame loop *)



Lemma highlightPasses_app (i : InstId) (l1 l2 : list Event) :
  highlightPasses i (l1 ++ l2) = highlightPasses i l1 + highlightPasses i l2.
Proof. unfold highlightPasses. by rewrite List.filter_app, length_app. Qed.

Lemma highlightPasses_plugins (i j : InstId) (name : string) args (ps : list PluginId) :
  highlightPasses i (map (fun p => PluginCall p name j args) ps) = 0.
Proof. induction ps as [|p ps IH]; [reflexivity | exact IH]. Qed.

Lemma highlightPasses_pass (i : InstId) (t : Template) (v : string) :
  highlightPasses i (highlightPass i t v) = 1.
Proof.
  unfold highlightPass. rewrite !highlightPasses_app, !highlightPasses_plugins.
  unfold highlightPasses. cbn [List.filter isHighlightOf]. by rewrite Nat.eqb_refl.
Qed.


Lemma languageChanged_run (i : InstId) (old new : option string) (s : State) ta code pre :
  textareaElement (elem s i) = Some ta ->
  codeElement (elem s i) = Some code ->
  preElement (elem s i) = Some pre ->
  languageChanged i old new s =
  Return tt
    (if languageApplied code new then s
     else set_heap
       (<[i := set_needsHighlight true
          (set_textareaElement (Some (placeholderSynced old new ta))
            (set_codeElement
               (Some (set_el_classList
                        (withLanguage new (withoutLanguage old (el_classList code))) code))
               (set_preElement
                  (Some (set_el_classList (withoutLanguage old (el_classList pre)) pre))
                  (elem s i))))]> (heap s)) s).
Proof.
  intros Hta Hcode Hpre. unfold languageChanged. mred. rewrite Hcode, Hpre.
  destruct (languageApplied code new); mred; [reflexivity|].
  rewrite Hta. mred. rewrite !insert_insert_eq. reflexivity.
Qed.

Ltac inv_ready H :=
  let ta := fresh "ta" in let code := fresh "code" in
  let pre := fresh "pre" in let t := fresh "t" in
  let Hta := fresh "Hta" in let Hcode := fresh "Hcode" in
  let Hpre := fresh "Hpre" in let Ht := fresh "Ht" in
  destruct H as ([ta Hta] & [code Hcode] & [pre Hpre] & [t Ht]).

Lemma mutate_keeps (i : InstId) (s0 s : State) (m : Mutation) :
  frameInv i s0 s -> keepsTemplate s0 m = true ->
  frameInv i s0 (finalState (mutate i m s)) /\
  (needsHighlight (elem s i) = true \/ isValueMutation m = true ->
   needsHighlight (elem (finalState (mutate i m s)) i) = true).
Proof.
  intros (Hr & Hc & Hu & Hd) Hk. inv_ready Hr.
  destruct m as [val | name old new]; cbn [mutate isValueMutation].
  - erewrite set_value_run by eassumption. unfold frameInv, ready. mred.
    rewrite Hpre, Hcode, Ht. eauto 10.
  - unfold attributeChangedCallback. mred. rewrite Hc.
    erewrite pluginEvt_run by eassumption. mred.
    destruct (String.eqb name "value") eqn:Ev.
    { erewrite set_value_run by (mred; eassumption). unfold frameInv, ready. mred.
      rewrite Hpre, Hcode, Ht. eauto 10. }
    destruct (String.eqb name "template") eqn:Et.
    { cbn [keepsTemplate] in Hk. rewrite Et in Hk. apply bool_decide_eq_true in Hk.
      mred. rewrite Hu, Hd. destruct Hk as [t' Ht']. rewrite Ht'. mred.
      destruct (preElementStyled t'); unfold frameInv, ready; mred; rewrite ?insert_insert_eq;
        mred; rewrite Hta, Hpre, Hcode; intuition eauto; discriminate. }
    destruct (String.eqb name "lang" || String.eqb name "language") eqn:El.
    { erewrite languageChanged_run by (mred; eassumption).
      destruct (languageApplied code new); unfold frameInv, ready; mred;
        rewrite ?Hta, ?Hpre, ?Hcode, ?Ht; intuition eauto; discriminate. }
    destruct (syncsToTextarea name) eqn:Es.
    { mred. rewrite Hta. unfold frameInv, ready. mred.
      rewrite ?Hta, ?Hpre, ?Hcode, ?Ht. intuition eauto; discriminate. }
    cbv [textareaSyncAttributes_regexp]. mred. unfold frameInv, ready. mred.
    intuition eauto; discriminate.
Qed.

Lemma mutations_keep (i : InstId) (s0 : State) (ms : list Mutation) :
  forall s,
    frameInv i s0 s -> forallb (keepsTemplate s0) ms = true ->
    exists s',
      mutations i ms s = Return tt s' /\
      frameInv i s0 s' /\
      (needsHighlight (elem s i) = true \/ existsb isValueMutation ms = true ->
       needsHighlight (elem s' i) = true).
Proof.
  induction ms as [|m ms IH]; intros s Hinv Hall; cbn [forallb existsb] in *.
  - exists s. split; [reflexivity|]. split; [exact Hinv|].
    intros [H|H]; [exact H | discriminate].
  - apply andb_true_iff in Hall as [Hm Hms].
    destruct (mutate_keeps i s0 s m Hinv Hm) as [Hinv' Hdirty].
    destruct (IH _ Hinv' Hms) as (s' & Hrun & Hinv'' & Hdirty').
    exists s'. split; [|split; [exact Hinv''|]].
    + unfold mutations in *. cbn [forEach]. unfold bind, reported at 1. exact Hrun.
    + intros [H|H].
      * apply Hdirty'. left. apply Hdirty. by left.
      * apply orb_true_iff in H as [H|H].
        -- apply Hdirty'. left. apply Hdirty. by right.
        -- apply Hdirty'. by right.
Qed.


(** ** Between two ticks of the frame loop *)







Lemma mutationObserverCallback_cons (i : InstId) (m : MutationRecord)
    (records : list MutationRecord) (s : State) :
  mutationObserverCallback i (m :: records) s =
  if negb (String.eqb (mutationType m) "attributes")
  then mutationObserverCallback i records s
  else if Str.includes (observedAttributes s) (attributeName m)
          || Str.is_aria (attributeName m)
       then attributeChangedCallback i (attributeName m) (oldValue m)
              (getAttribute (elem s i) (attributeName m)) s
       else mutationObserverCallback i records s.
Proof.
  cbn [mutationObserverCallback].
  destruct (negb (String.eqb (mutationType m) "attributes")); [reflexivity|].
  unfold gets at 1. unfold bind at 1.
  destruct (Str.includes (observedAttributes s) (attributeName m)
            || Str.is_aria (attributeName m)); reflexivity.
Qed.







(** What happens instead: the frame with the [placeholder] attribute
    leaves [needsHighlight] unset, and the tick returns without a highlight
    pass.  A frame in which the [template] attribute comes to name a
    template that is not registered leaves the element without a template:
    the tick then throws before the highlight function is called. *)
Lemma frames_without_pass_detail :
  needsHighlight (elem pythonPage 0) = false /\
  (exists s1 ta s2,
     frame 0
       [ WriteAttribute "placeholder" (Some "Type here");
         ObserverCallback
           [ {| mutationType := "attributes"; attributeName := "placeholder";
                oldValue := None |} ] ] pythonPage = Return tt s1 /\
     needsHighlight (elem s1 0) = false /\
     textareaElement (elem s1 0) = Some ta /\
     ta_placeholder ta = "Type here" /\
     animateFrame 0 s1 = Return tt s2 /\
     highlightPasses 0 (trace s2) = highlightPasses 0 (trace pythonPage)) /\
  (exists s1 s2,
     frame 0
       [ WriteAttribute "template" (Some "missing");
         ObserverCallback
           [ {| mutationType := "attributes"; attributeName := "template";
                oldValue := None |} ];
         AssignValue (Some "x") ] pythonPage = Return tt s1 /\
     needsHighlight (elem s1 0) = true /\
     template (elem s1 0) = None /\
     animateFrame 0 s1 = Throw TypeError s2 /\
     highlightPasses 0 (trace s2) = highlightPasses 0 (trace pythonPage) /\
     needsHighlight (elem s2 0) = true).
Proof.
  split; [vm_compute; reflexivity|]. split.
  - do 3 eexists. split; [vm_compute; reflexivity|].
    split; [vm_compute; reflexivity|]. split; [vm_compute; reflexivity|].
    split; [vm_compute; reflexivity|]. split; vm_compute; reflexivity.
  - do 2 eexists. split; [vm_compute; reflexivity|].
    split; [vm_compute; reflexivity|]. split; [vm_compute; reflexivity|].
    split; [vm_compute; reflexivity|]. split; vm_compute; reflexivity.
Qed.

(** Typing into the textarea of [pythonPage] runs the [input] listener that
    [setup] installed: three keystrokes within a frame are followed by one
    highlight pass, on the last text. *)
Lemma typing_is_coalesced :
  let s1 := finalState (run [userInput 0 "a"; userInput 0 "a<"; userInput 0 "a<b"] pythonPage) in
  needsHighlight (elem s1 0) = true /\
  exists s2,
    animateFrame 0 s1 = Return tt s2 /\
    trace s2 =
      trace s1 ++
      [ InnerHTMLSet 0 ("a&lt;b" +:+ newline);
        PluginCall 1 "beforeHighlight" 0 [];
        HighlightCall 0 0 false;
        SyncSize 0 true;
        PluginCall 1 "afterHighlight" 0 [];
        RequestAnimationFrame 0 ] /\
    needsHighlight (elem s2 0) = false.
Proof.
  split; [vm_compute; reflexivity|].
  eexists. split; [vm_compute; reflexivity|].
  split; vm_compute; reflexivity.
Qed.

(** ** HTML escaping *)

Lemma append_cons (c : ascii) (a b : string) : String c a +:+ b = String c (a +:+ b).
Proof. reflexivity. Qed.

Lemma append_empty (b : string) : "" +:+ b = b.
Proof. reflexivity. Qed.

Lemma prefix_empty (s : string) : String.prefix "" s = true.
Proof. by destruct s. Qed.

Ltac scomp := repeat (rewrite ?append_cons, ?append_empty, ?prefix_empty; cbn).


Lemma replaceAll_from_cons (pat rep : string) (c : ascii) (s : string) :
  Str.replaceAll_from pat rep 0 (String c s) =
  if String.prefix pat (String c s)
  then rep +:+ Str.replaceAll_from pat rep (String.length pat - 1) s
  else String c (Str.replaceAll_from pat rep 0 s).
Proof. reflexivity. Qed.

Lemma prefix_single (a c : ascii) (s : string) :
  String.prefix (String a "") (String c s) = Ascii.eqb c a.
Proof.
  cbn [String.prefix]. rewrite prefix_empty.
  destruct (ascii_dec a c) as [->|Hne]; [by rewrite Ascii.eqb_refl|].
  by destruct (Ascii.eqb_spec c a) as [->|_].
Qed.

Lemma replaceAll_amp (s : string) : Str.replaceAll "&" "&amp;" s = ampChars s.
Proof.
  unfold Str.replaceAll. induction s as [|c s IH]; [reflexivity|].
  rewrite replaceAll_from_cons, prefix_single. cbn [ampChars String.length Nat.sub].
  rewrite IH. by destruct (Ascii.eqb c "&").
Qed.

Lemma replaceAll_lt_amp (s : string) : Str.replaceAll "<" "&lt;" (ampChars s) = escapeChars s.
Proof.
  unfold Str.replaceAll. induction s as [|c s IH]; [reflexivity|].
  cbn [ampChars escapeChars]. unfold escapeChar.
  destruct (Ascii.eqb_spec c "&") as [->|Hamp].
  - scomp. by rewrite IH.
  - rewrite append_cons, append_empty, replaceAll_from_cons, prefix_single.
    cbn [String.length Nat.sub]. rewrite IH. by destruct (Ascii.eqb c "<").
Qed.

Lemma escapeHtml_chars (s : string) : escapeHtml s = escapeChars s.
Proof. unfold escapeHtml. by rewrite replaceAll_amp, replaceAll_lt_amp. Qed.


Lemma isMarkupChar_cases (c : ascii) :
  isMarkupChar c = true -> c = "&"%char \/ c = "<"%char \/ c = ">"%char.
Proof.
  unfold isMarkupChar. intros H.
  destruct (Ascii.eqb_spec c "&"); [by left|].
  destruct (Ascii.eqb_spec c "<"); [by right; left|].
  destruct (Ascii.eqb_spec c ">"); [by right; right|]. discriminate.
Qed.

Lemma unescape_pass1 (s : string) :
  onlyMarkup s = true ->
  Str.replaceAll "&amp;" "&" (escapeChars s) = ampOnly s.
Proof.
  unfold Str.replaceAll. induction s as [|c s IH]; [reflexivity|].
  cbn [onlyMarkup]. intros [Hc Hs]%andb_true_iff.
  destruct (isMarkupChar_cases c Hc) as [->| [->| ->]]; scomp; by rewrite (IH Hs).
Qed.

Lemma ampOnly_no_lt_tail (s : string) :
  onlyMarkup s = true -> String.prefix "lt;" (ampOnly s) = false.
Proof.
  destruct s as [|c s]; [reflexivity|]. cbn [onlyMarkup].
  intros [Hc _]%andb_true_iff.
  by destruct (isMarkupChar_cases c Hc) as [->| [->| ->]].
Qed.

Lemma unescape_pass2 (s : string) :
  onlyMarkup s = true ->
  Str.replaceAll "&lt;" "<" (ampOnly s) = s.
Proof.
  unfold Str.replaceAll. induction s as [|c s IH]; [reflexivity|].
  cbn [onlyMarkup]. intros [Hc Hs]%andb_true_iff.
  destruct (isMarkupChar_cases c Hc) as [->| [->| ->]].
  - cbn [ampOnly Ascii.eqb Bool.eqb]. rewrite append_cons, append_empty.
    rewrite replaceAll_from_cons.
    replace (String.prefix "&lt;" (String "&" (ampOnly s)))
      with (String.prefix "lt;" (ampOnly s)) by reflexivity.
    rewrite (ampOnly_no_lt_tail s Hs). by rewrite (IH Hs).
  - scomp. by rewrite (IH Hs).
  - scomp. by rewrite (IH Hs).
Qed.

Lemma markup_no_gt_tail (s : string) :
  onlyMarkup s = true -> String.prefix "gt;" s = false.
Proof.
  destruct s as [|c s]; [reflexivity|]. cbn [onlyMarkup].
  intros [Hc _]%andb_true_iff.
  by destruct (isMarkupChar_cases c Hc) as [->| [->| ->]].
Qed.

Lemma unescape_pass3 (s : string) :
  onlyMarkup s = true ->
  Str.replaceAll "&gt;" ">" s = s.
Proof.
  unfold Str.replaceAll. induction s as [|c s IH]; [reflexivity|].
  cbn [onlyMarkup]. intros [Hc Hs]%andb_true_iff.
  destruct (isMarkupChar_cases c Hc) as [->| [->| ->]].
  - rewrite replaceAll_from_cons.
    replace (String.prefix "&gt;" (String "&" s))
      with (String.prefix "gt;" s) by reflexivity.
    rewrite (markup_no_gt_tail s Hs). by rewrite (IH Hs).
  - scomp. by rewrite (IH Hs).
  - scomp. by rewrite (IH Hs).
Qed.

(** C4. For every text [v] made only of the characters [&], [<] and [>],
    [unescapeHtml (escapeHtml v) = v]; [escapeHtml] maps [&] to [&amp;] and
    [<] to [&lt;] and leaves every other character, [>] included, as it
    is; [unescapeHtml] also decodes [&gt;]. *)
Theorem unescape_escape_markup (v : string) :
  onlyMarkup v = true ->
  unescapeHtml (escapeHtml v) = v /\
  escapeHtml v = escapeChars v /\
  escapeHtml ">" = ">" /\
  unescapeHtml "&amp;&lt;&gt;" = "&<>".
Proof.
  intros Hv. split; [|split; [exact (escapeHtml_chars v) | split; reflexivity]].
  rewrite escapeHtml_chars. unfold unescapeHtml.
  by rewrite unescape_pass1, unescape_pass2, unescape_pass3.
Qed.

Lemma unescape_escape_markup_witness :
  onlyMarkup "<&&>" = true /\
  (unescapeHtml (escapeHtml "<&&>") = "<&&>" /\
   escapeHtml "<&&>" = escapeChars "<&&>" /\
   escapeHtml ">" = ">" /\
   unescapeHtml "&amp;&lt;&gt;" = "&<>").
Proof. split; [reflexivity | apply (unescape_escape_markup "<&&>"); reflexivity]. Defined.

(** ** The highlight pass, step by step *)

(** C8. A highlight pass of a set-up element with a template returns
    normally and performs, in this order: the text of the textarea is read
    and one line feed is appended to it; the result, with every [&]
    replaced by [&amp;] and every [<] by [&lt;], is assigned to the content
    of the code element; every plugin's [beforeHighlight] hook is called in
    the order of the template's plugin list; the template's highlight
    function is called, with the element as second argument exactly when
    [includeCodeInputInHighlightFunc] holds; the sizes are synchronised;
    every plugin's [afterHighlight] hook is called.  Nothing else leaves
    the library during the pass. *)
Theorem update_highlight_pass (i : InstId) (s : State) ta code pre t :
  textareaElement (elem s i) = Some ta ->
  codeElement (elem s i) = Some code ->
  preElement (elem s i) = Some pre ->
  template (elem s i) = Some t ->
  exists s',
    update i s = Return tt s' /\
    trace s' =
      trace s
      ++ [InnerHTMLSet i (escapeChars (ta_value ta +:+ String "010"%char EmptyString))]
      ++ map (fun p => PluginCall p "beforeHighlight" i []) (plugins t)
      ++ [HighlightCall (highlight t) i (includeCodeInputInHighlightFunc t)]
      ++ [SyncSize i (preElementStyled t)]
      ++ map (fun p => PluginCall p "afterHighlight" i []) (plugins t).
Proof.
  intros Hta Hcode Hpre Ht. exists (afterUpdate i t ta code s).
  split; [by eapply update_run|]. unfold afterUpdate, highlightPass. mred.
  rewrite escapeHtml_chars. auto.
Qed.

Lemma update_highlight_pass_witness :
  exists ta code pre t,
    textareaElement (elem pythonPage 0) = Some ta /\
    codeElement (elem pythonPage 0) = Some code /\
    preElement (elem pythonPage 0) = Some pre /\
    template (elem pythonPage 0) = Some t /\
    exists s',
      update 0 pythonPage = Return tt s' /\
      trace s' =
        trace pythonPage
        ++ [InnerHTMLSet 0 (escapeChars (ta_value ta +:+ String "010"%char EmptyString))]
        ++ map (fun p => PluginCall p "beforeHighlight" 0 []) (plugins t)
        ++ [HighlightCall (highlight t) 0 (includeCodeInputInHighlightFunc t)]
        ++ [SyncSize 0 (preElementStyled t)]
        ++ map (fun p => PluginCall p "afterHighlight" 0 []) (plugins t).
Proof.
  do 4 eexists.
  split; [vm_compute; reflexivity|]. split; [vm_compute; reflexivity|].
  split; [vm_compute; reflexivity|]. split; [vm_compute; reflexivity|].
  eapply update_highlight_pass; vm_compute; reflexivity.
Defined.

(** A pass on the text [a<b && c]: what is written ends in exactly one line
    feed, which the text did not have. *)
Lemma highlight_pass_example :
  let s := finalState (set_value 0 (Some "a<b && c") pythonPage) in
  exists s',
    update 0 s = Return tt s' /\
    trace s' =
      trace s ++
      [ InnerHTMLSet 0 (String.append "a&lt;b &amp;&amp; c" (String "010"%char EmptyString));
        PluginCall 1 "beforeHighlight" 0 [];
        HighlightCall 0 0 false;
        SyncSize 0 true;
        PluginCall 1 "afterHighlight" 0 [] ].
Proof.
  cbv zeta. eexists. split; vm_compute; reflexivity.
Qed.

(** ** Validation in [registerTemplate] *)

Lemma plugin_check_forallb (l : list JSVal) :
  existsb (fun plugin => negb (instanceof plugin PluginC)) l = negb (forallb isPlugin l).
Proof.
  induction l as [|v l IH]; [reflexivity|]. cbn [existsb forallb]. rewrite IH.
  by destruct v.
Qed.

Lemma registerTemplate_throws (templateName : JSVal) (template : option TemplateObject)
    (s : State) :
  wellFormedRegistration templateName template = false ->
  registerTemplate templateName template s = Throw TypeError s.
Proof.
  intros Hbad.
  unfold wellFormedRegistration, wellFormedTemplate in Hbad. unfold registerTemplate.
  destruct templateName; try reflexivity; cbn [isStringTyped andb] in Hbad;
    cbn [typeof instanceof String.eqb negb orb];
    (destruct template as [o|]; [|reflexivity]);
    (destruct (prop_highlight o); try reflexivity);
    (destruct (prop_includeCodeInputInHighlightFunc o); try reflexivity);
    (destruct (prop_preElementStyled o); try reflexivity);
    (destruct (prop_isCode o); try reflexivity);
    (destruct (prop_plugins o) as [| | | | | | | |l| |]; try reflexivity);
    cbn [isCallable isBooleanTyped isPluginArray andb arrayElements isArray negb] in *;
    rewrite plugin_check_forallb, Hbad; reflexivity.
Qed.

(** C7. [registerTemplate] throws a [TypeError] when the name is not a
    string, or the template has no callable [highlight], or one of the
    three flags is not a boolean, or [plugins] is not an array, or an
    element of [plugins] is not a plugin; the state it throws in is the
    state it was called in, so the registry, the default name and the queue
    are unchanged. *)
Theorem registerTemplate_rejects_malformed (templateName : JSVal)
    (template : option TemplateObject) (s : State) :
  (isStringTyped templateName = false \/
   match template with
   | None => True
   | Some o =>
       isCallable (prop_highlight o) = false \/
       isBooleanTyped (prop_preElementStyled o) = false \/
       isBooleanTyped (prop_isCode o) = false \/
       isBooleanTyped (prop_includeCodeInputInHighlightFunc o) = false \/
       isArray (prop_plugins o) = false \/
       (exists v, In v (arrayElements (prop_plugins o)) /\ isPlugin v = false)
   end) ->
  registerTemplate templateName template s = Throw TypeError s /\
  usedTemplates (finalState (registerTemplate templateName template s)) = usedTemplates s /\
  defaultTemplate (finalState (registerTemplate templateName template s)) = defaultTemplate s /\
  templateNotYetRegisteredQueue (finalState (registerTemplate templateName template s))
    = templateNotYetRegisteredQueue s.
Proof.
  intros Hbad.
  assert (H : registerTemplate templateName template s = Throw TypeError s);
    [| by rewrite H].
  apply registerTemplate_throws. unfold wellFormedRegistration, wellFormedTemplate.
  destruct Hbad as [->|Hbad]; [reflexivity|].
  destruct template as [o|]; [|apply andb_false_r].
  apply andb_false_iff; right.
  destruct Hbad as [->|[->|[->|[->|[Harr|(v & Hin & Hv)]]]]];
    rewrite ?andb_false_r; try reflexivity.
  - destruct (prop_plugins o); try discriminate; apply andb_false_r.
  - destruct (prop_plugins o) as [| | | | | | | |l| |]; try apply andb_false_r.
    cbn [arrayElements] in Hin. cbn [isPluginArray].
    replace (forallb isPlugin l) with false; [apply andb_false_r|].
    symmetry. apply not_true_is_false. intros Hall.
    rewrite forallb_forall in Hall. specialize (Hall v Hin). congruence.
Qed.

Lemma registerTemplate_rejects_malformed_witness :
  registerTemplate (VString "demo")
    (Some (Template_constructor (VFunction 0) (VBool true) (VString "yes") (VBool false)
             (VArray []))) codeInput = Throw TypeError codeInput /\
  usedTemplates (finalState (registerTemplate (VString "demo")
    (Some (Template_constructor (VFunction 0) (VBool true) (VString "yes") (VBool false)
             (VArray []))) codeInput)) = usedTemplates codeInput /\
  defaultTemplate (finalState (registerTemplate (VString "demo")
    (Some (Template_constructor (VFunction 0) (VBool true) (VString "yes") (VBool false)
             (VArray []))) codeInput)) = defaultTemplate codeInput /\
  templateNotYetRegisteredQueue (finalState (registerTemplate (VString "demo")
    (Some (Template_constructor (VFunction 0) (VBool true) (VString "yes") (VBool false)
             (VArray []))) codeInput)) = templateNotYetRegisteredQueue codeInput.
Proof.
  apply registerTemplate_rejects_malformed.
  right. right. right. left. reflexivity.
Defined.

(** ** The language attribute *)

Lemma includes_app (l1 l2 : list string) (tok : string) :
  Str.includes (l1 ++ l2) tok = Str.includes l1 tok || Str.includes l2 tok.
Proof. unfold Str.includes. apply existsb_app. Qed.

Lemma contains_add_same (tok : string) (l : list string) :
  ClassList.contains (ClassList.add tok l) tok = true.
Proof.
  unfold ClassList.add. destruct (ClassList.contains l tok) eqn:E; [exact E|].
  unfold ClassList.contains in *. rewrite includes_app, E. cbn.
  by rewrite String.eqb_refl.
Qed.

Lemma contains_add_other (tok tok' : string) (l : list string) :
  tok <> tok' ->
  ClassList.contains (ClassList.add tok l) tok' = ClassList.contains l tok'.
Proof.
  intros Hne. unfold ClassList.add. destruct (ClassList.contains l tok); [reflexivity|].
  unfold ClassList.contains. rewrite includes_app. cbn.
  destruct (String.eqb_spec tok' tok) as [->|_]; [congruence|].
  by rewrite !orb_false_r.
Qed.

Lemma contains_remove_same (tok : string) (l : list string) :
  ClassList.contains (ClassList.remove tok l) tok = false.
Proof.
  unfold ClassList.contains, ClassList.remove, Str.includes.
  induction l as [|x l IH]; [reflexivity|]. cbn [List.filter].
  destruct (String.eqb_spec x tok) as [->|Hne]; cbn [negb]; [exact IH|].
  cbn [existsb]. rewrite IH.
  destruct (String.eqb_spec tok x) as [->|_]; [congruence | reflexivity].
Qed.

Lemma contains_remove_subset (tok tok' : string) (l : list string) :
  ClassList.contains (ClassList.remove tok l) tok' = true ->
  ClassList.contains l tok' = true.
Proof.
  unfold ClassList.contains, ClassList.remove, Str.includes.
  induction l as [|x l IH]; [done|]. cbn [List.filter existsb].
  destruct (negb (String.eqb x tok)); cbn [existsb].
  - intros [H|H]%orb_true_iff; [by rewrite H | by rewrite (IH H), orb_true_r].
  - intros H. by rewrite (IH H), orb_true_r.
Qed.

Lemma contains_remove_other (tok tok' : string) (l : list string) :
  tok <> tok' ->
  ClassList.contains (ClassList.remove tok l) tok' = ClassList.contains l tok'.
Proof.
  intros Hne. unfold ClassList.contains, ClassList.remove, Str.includes.
  induction l as [|x l IH]; [reflexivity|]. cbn [List.filter existsb].
  destruct (String.eqb_spec x tok) as [->|Hx]; cbn [negb existsb].
  - rewrite IH. destruct (String.eqb_spec tok' tok) as [->|_]; [congruence | reflexivity].
  - by rewrite IH.
Qed.

Lemma language_class_inj (a b : string) :
  "language-" +:+ a = "language-" +:+ b -> a = b.
Proof. intros H. by injection H. Qed.

Lemma attributeChanged_language (i : InstId) (s : State) (name : string)
    (old new : option string) ta code pre t :
  isConnected (elem s i) = true ->
  textareaElement (elem s i) = Some ta ->
  codeElement (elem s i) = Some code ->
  preElement (elem s i) = Some pre ->
  template (elem s i) = Some t ->
  name = "lang" \/ name = "language" ->
  attributeChangedCallback i name old new s =
  languageChanged i old new
    (set_trace (trace s ++
       map (fun p => PluginCall p "attributeChanged" i [Some name; old; new]) (plugins t)) s).
Proof.
  intros Hc Hta Hcode Hpre Ht Hname. unfold attributeChangedCallback. mred.
  rewrite Hc. erewrite pluginEvt_run by eassumption.
  by destruct Hname as [-> | ->].
Qed.

(** C5 (amended). On a connected, set-up element a change of [lang] or
    [language] from [old] to [new], compared in lower case, does nothing to
    the element when the class of [new] is already on the code element;
    otherwise it removes the class of [old] from the code element and from
    the pre element, adds the class of [new] to the code element only (the
    pre element gains no class), and sets [needsHighlight]. *)
Theorem language_change_swaps_class (i : InstId) (s : State) (name old new : string)
    ta code pre t :
  isConnected (elem s i) = true ->
  textareaElement (elem s i) = Some ta ->
  codeElement (elem s i) = Some code ->
  preElement (elem s i) = Some pre ->
  template (elem s i) = Some t ->
  name = "lang" \/ name = "language" ->
  let oldClass := "language-" +:+ Str.toLowerCase old in
  let newClass := "language-" +:+ Str.toLowerCase new in
  exists s',
    attributeChangedCallback i name (Some old) (Some new) s = Return tt s' /\
    (ClassList.contains (el_classList code) newClass = true -> elem s' i = elem s i) /\
    (ClassList.contains (el_classList code) newClass = false ->
     Str.toLowerCase new <> "" ->
     Str.toLowerCase old <> Str.toLowerCase new ->
     exists code' pre',
       codeElement (elem s' i) = Some code' /\
       preElement (elem s' i) = Some pre' /\
       ClassList.contains (el_classList code') oldClass = false /\
       ClassList.contains (el_classList code') newClass = true /\
       ClassList.contains (el_classList pre') oldClass = false /\
       (forall tok, ClassList.contains (el_classList pre') tok = true ->
                    ClassList.contains (el_classList pre) tok = true) /\
       needsHighlight (elem s' i) = true).
Proof.
  intros Hc Hta Hcode Hpre Ht Hname oldClass newClass.
  erewrite attributeChanged_language by eassumption.
  erewrite languageChanged_run by (mred; eassumption).
  eexists. split; [reflexivity|].
  unfold languageApplied. cbn [fmap option_fmap option_map]. fold newClass.
  split.
  - intros ->. reflexivity.
  - intros -> Hnew Hne. mred. do 2 eexists. split; [reflexivity|]. split; [reflexivity|].
    mred. unfold withLanguage, withoutLanguage. cbn [fmap option_fmap option_map].
    fold oldClass newClass.
    destruct (String.eqb_spec (Str.toLowerCase new) "") as [E|_]; [congruence|].
    assert (Hcls : newClass <> oldClass).
    { intros E. apply Hne. symmetry. by apply language_class_inj. }
    repeat split.
    + rewrite contains_add_other by exact Hcls.
      destruct (ClassList.contains _ oldClass) eqn:E; [|reflexivity].
      apply contains_remove_subset in E. by rewrite contains_remove_same in E.
    + apply contains_add_same.
    + destruct (ClassList.contains _ oldClass) eqn:E; [|reflexivity].
      apply contains_remove_subset in E. by rewrite contains_remove_same in E.
    + intros tok H. by do 2 apply contains_remove_subset in H.
Qed.

Lemma language_change_swaps_class_witness :
  exists s',
    attributeChangedCallback 0 "lang" (Some "Python") (Some "RUST") highlightedPage
      = Return tt s' /\
    (ClassList.contains ["language-python"] "language-rust" = true ->
     elem s' 0 = elem highlightedPage 0) /\
    (ClassList.contains ["language-python"] "language-rust" = false ->
     Str.toLowerCase "RUST" <> "" ->
     Str.toLowerCase "Python" <> Str.toLowerCase "RUST" ->
     exists code' pre',
       codeElement (elem s' 0) = Some code' /\
       preElement (elem s' 0) = Some pre' /\
       ClassList.contains (el_classList code') "language-python" = false /\
       ClassList.contains (el_classList code') "language-rust" = true /\
       ClassList.contains (el_classList pre') "language-python" = false /\
       (forall tok, ClassList.contains (el_classList pre') tok = true ->
                    ClassList.contains ["language-python"] tok = true) /\
       needsHighlight (elem s' 0) = true).
Proof.
  refine (language_change_swaps_class 0 highlightedPage "lang" "Python" "RUST"
            _ (mkElement ["language-python"] newline) (mkElement ["language-python"] "")
            _ _ _ _ _ _ _);
    [reflexivity | vm_compute; reflexivity | reflexivity | reflexivity
    | vm_compute; reflexivity | by left].
Defined.

(** C5, as stated, fails: after the change from ["python"] to ["rust"] the
    class [language-rust] is on the code element and not on the pre
    element. *)
Lemma language_class_not_added_to_pre :
  ~ languageOnBothNodes
      (elem (finalState
         (attributeChangedCallback 0 "lang" (Some "python") (Some "rust") highlightedPage)) 0)
      "language-rust".
Proof.
  intros (code & pre & _ & Hpre & _ & H).
  vm_compute in Hpre. injection Hpre as <-. discriminate H.
Qed.

(** ** Attributes declared by plugins *)

Lemma attributeChangedCallback_unlisted (i : InstId) (s : State) (name : string)
    (old new : option string) (t : Template) :
  isConnected (elem s i) = true ->
  template (elem s i) = Some t ->
  String.eqb name "value" = false ->
  String.eqb name "template" = false ->
  String.eqb name "lang" || String.eqb name "language" = false ->
  syncsToTextarea name = false ->
  attributeChangedCallback i name old new s =
  Throw TypeError
    (set_trace (trace s ++
       map (fun p => PluginCall p "attributeChanged" i [Some name; old; new]) (plugins t)) s).
Proof.
  intros Hc Ht Hv Htpl Hl Hs. unfold attributeChangedCallback. mred.
  rewrite Hc. erewrite pluginEvt_run by eassumption.
  rewrite Hv, Htpl, Hl, Hs. reflexivity.
Qed.

(** C6 (defect of the code). [data-limit] is observed only because a plugin
    declared it.  When the page sets it on the set-up, connected element of
    [pythonPage], the plugin's [attributeChanged] hook is called with the
    name, the old and the new value, and the callback then throws a
    [TypeError]: its last branch reads
    [codeInput.textareaSyncAttributes.regexp], which is [undefined]. *)
Theorem plugin_attribute_change_throws :
  Str.includes (observedAttributes codeInput) "data-limit" = false /\
  Str.includes (observedAttributes pythonPage) "data-limit" = true /\
  setAttribute 0 "data-limit" "10" pythonPage =
  Throw TypeError
    (set_trace
       (trace pythonPage ++
        [PluginCall 1 "attributeChanged" 0 [Some "data-limit"; None; Some "10"]])
       (set_heap
          (<[0 := set_attributes (<["data-limit" := "10"]> (attributes (elem pythonPage 0)))
                    (elem pythonPage 0)]> (heap pythonPage))
          pythonPage)).
Proof.
  split; [vm_compute; reflexivity|]. split; [vm_compute; reflexivity|].
  vm_compute; reflexivity.
Qed.


(** ** Event listeners *)

(** [addEventListener] satisfies the recursive equation of the source:
    the method it calls for a textarea that does not exist yet is
    itself. *)
Lemma addEventListener_unfold (i : InstId) (type : string) (listener : ListenerArg)
    (options : option bool) (s : State) :
  addEventListener i type listener options s =
  addEventListener_body addEventListener i type listener options s.
Proof.
  unfold addEventListener at 1. unfold addEventListener_body at 1 3.
  rewrite !bind_allocFn, !bind_modifyThis.
  destruct (Str.includes textareaSyncEvents type); [|reflexivity].
  rewrite !bind_modifyThis, !bind_this.
  destruct (textareaElement _); reflexivity.
Qed.

(** Removing a listener right after it was added detaches its bound
    callback. *)
Lemma add_then_remove :
  attachedWrappers (elem (finalState (run
    [ addEventListener 0 "input" (PageListener handlerA) None;
      removeEventListener 0 "input" (PageListener handlerA) None ] pythonPage)) 0)
    "input" handlerA = [].
Proof. vm_compute. reflexivity. Qed.

(** C9 (defect of the code). [boundEventCallbacks] is a plain object, so
    its keys are the listeners converted to strings, not the listeners
    themselves.  On [listenersPage] two different listener objects were
    added for [input]; removing the first one looks up the bound callback
    of the second, detaches that one and leaves the bound callback of the
    first attached. *)
Theorem removeEventListener_detaches_other_wrapper :
  attachedWrappers (elem listenersPage 0) "input" handlerA = [Bound 3 (PageListener handlerA)] /\
  attachedWrappers (elem listenersPage 0) "input" handlerB = [Bound 4 (PageListener handlerB)] /\
  (exists s',
     removeEventListener 0 "input" (PageListener handlerA) None listenersPage = Return tt s' /\
     attachedWrappers (elem s' 0) "input" handlerA = [Bound 3 (PageListener handlerA)] /\
     attachedWrappers (elem s' 0) "input" handlerB = []).
Proof.
  split; [vm_compute; reflexivity|]. split; [vm_compute; reflexivity|].
  eexists. split; [vm_compute; reflexivity|]. split; vm_compute; reflexivity.
Qed.

(** ** Steps inside one element *)

Lemma elem_mk_other o u d q (h : gmap InstId CodeInput) n tr i j c :
  j <> i -> elem (mkState o u d q (<[i := c]> h) n tr) j = elem (mkState o u d q h n tr) j.
Proof. intros. unfold elem; simpl. by rewrite lookup_insert_ne. Qed.

Lemma attachCalls_app (l1 l2 : list Event) :
  attachCalls (l1 ++ l2) = attachCalls l1 ++ attachCalls l2.
Proof. apply omap_app. Qed.

Lemma attachCalls_plugins (i : InstId) (name : string) args (ps : list PluginId) :
  attachCalls (map (fun p => PluginCall p name i args) ps) = [].
Proof. induction ps as [|p ps IH]; [reflexivity | exact IH]. Qed.

Lemma localStep_refl (i : InstId) (s : State) : localStep i s s.
Proof. unfold localStep. tauto. Qed.

Lemma localStep_trans (i : InstId) (s1 s2 s3 : State) :
  localStep i s1 s2 -> localStep i s2 s3 -> localStep i s1 s3.
Proof.
  unfold localStep.
  intros (A1 & A2 & A3 & A4 & A5 & A6 & A7 & A8 & A9 & A10 & A11)
         (B1 & B2 & B3 & B4 & B5 & B6 & B7 & B8 & B9 & B10 & B11).
  repeat split; try congruence; [|auto].
  intros j Hj. rewrite B4, A4 by exact Hj. reflexivity.
Qed.

(** Closing a [localStep] goal on an explicit state. *)
Ltac local_done :=
  unfold localStep; mred;
  repeat match goal with |- _ /\ _ => split end;
  try reflexivity;
  try (intros ? ?; rewrite ?elem_mk_other by assumption; reflexivity);
  try (rewrite ?attachCalls_app, ?attachCalls_plugins, ?app_nil_r; reflexivity);
  try (intros _; eexists; reflexivity);
  try (intros ?; assumption).

Lemma callFn_local (i : InstId) (type : string) (f : Fn) (s : State) :
  localStep i s (finalState (callFn i type f s)).
Proof.
  destruct f as [id [l | | remove type' cb options] | id | id]; cbn [callFn callListener].
  - destruct (listenerKind l); mred; local_done.
  - mred. local_done.
  - mred. destruct (textareaElement (elem s i)) as [ta|] eqn:Hta; mred.
    + destruct remove; [|destruct cb];
        unfold textarea_removeEventListener, textarea_addEventListener; mred; local_done.
    + apply localStep_refl.
  - mred. local_done.
  - unfold get_value. mred. destruct (textareaElement (elem s i)) as [ta|] eqn:Hta; mred.
    + erewrite set_value_run by eassumption. local_done.
    + apply localStep_refl.
Qed.

Lemma dispatch_local (i : InstId) (type : string) (ls : list EventListener) :
  forall s, exists s',
    forEach ls (fun e => reported (callFn i type (callback e))) s = Return tt s' /\
    localStep i s s'.
Proof.
  induction ls as [|e ls IH]; intros s.
  - exists s. split; [reflexivity | apply localStep_refl].
  - destruct (IH (finalState (callFn i type (callback e) s))) as (s' & Hrun & Hstep).
    exists s'. split; [exact Hrun|].
    eapply localStep_trans; [apply callFn_local | exact Hstep].
Qed.

Lemma attachCalls_highlightPass (i : InstId) (t : Template) (v : string) :
  attachCalls (highlightPass i t v) = [].
Proof.
  unfold highlightPass. rewrite !attachCalls_app, !attachCalls_plugins. reflexivity.
Qed.

Lemma animateFrame_run (i : InstId) (s : State) ta code pre t :
  textareaElement (elem s i) = Some ta ->
  codeElement (elem s i) = Some code ->
  preElement (elem s i) = Some pre ->
  template (elem s i) = Some t ->
  needsHighlight (elem s i) = true ->
  animateFrame i s =
  Return tt
    (set_trace (trace s ++ highlightPass i t (ta_value ta) ++ [RequestAnimationFrame i])
       (set_heap
          (<[i := set_needsHighlight false
                    (set_codeElement
                       (Some (set_el_innerHTML (escapeHtml (ta_value ta +:+ newline)) code))
                       (elem s i))]> (heap s)) s)).
Proof.
  intros Hta Hcode Hpre Ht Hn. unfold animateFrame. mred. rewrite Hn.
  erewrite update_run by eassumption. unfold afterUpdate. mred.
  rewrite insert_insert_eq, <- app_assoc. reflexivity.
Qed.

Lemma setup_spec (i : InstId) (s : State) (t : Template) :
  template (elem s i) = Some t ->
  exists s',
    setup i s = Return tt s' /\
    usedTemplates s' = usedTemplates s /\
    defaultTemplate s' = defaultTemplate s /\
    templateNotYetRegisteredQueue s' = templateNotYetRegisteredQueue s /\
    (forall j, j <> i -> elem s' j = elem s j) /\
    attachCalls (trace s') = attachCalls (trace s) /\
    template (elem s' i) = Some t /\
    is_Some (textareaElement (elem s' i)) /\
    sameRequest (elem s i) (elem s' i).
Proof.
  intros Ht. unfold setup. mstep.
  destruct (textareaElement (elem s i)) as [ta|] eqn:Hta.
  { exists s. rewrite Hta. unfold sameRequest. split; [reflexivity|]. eauto 12. }
  mnorm. mstep. rewrite Ht.
  destruct (preElementStyled t) eqn:Hstyled; mnorm; repeat mstep.
  all: erewrite (bind_Return (pluginEvt _ _ _)) by (apply pluginEvt_run; mnorm; reflexivity).
  all: mnorm; repeat mstep.
  all: unfold addEventListener at 1, addEventListener_body at 1.
  all: repeat mstep.
  all: change (Str.includes textareaSyncEvents "mousedown") with false; cbv iota.
  all: repeat mstep.
  all: erewrite (bind_Return (pluginEvt _ _ _)) by (apply pluginEvt_run; mnorm; reflexivity).
  all: mnorm; repeat mstep.
  all: unfold dispatchEvent; repeat mstep.
  all: match goal with
       | |- context [bind (forEach ?ls _) _ ?st] =>
           destruct (dispatch_local i "code-input_load" ls st) as (s1 & Hd & Hl)
       end.
  all: rewrite (bind_Return _ _ _ _ _ Hd).
  all: destruct Hl as (L1 & L2 & L3 & L4 & L5 & L6 & L7 & L8 & L9 & L10 & L11).
  all: mnorm_in L1; mnorm_in L2; mnorm_in L3; mnorm_in L5; mnorm_in L6; mnorm_in L7; mnorm_in L8;
       mnorm_in L9; mnorm_in L10; mnorm_in L11.
  all: destruct L11 as [ta1 Hta1]; [eexists; reflexivity|].
  all: erewrite (bind_Return (set_value _ _)) by (eapply set_value_run; exact Hta1).
  all: mnorm.
  all: erewrite (bind_Return (animateFrame _)) by
         (eapply animateFrame_run; mnorm; rewrite ?L8, ?L9, ?L10; reflexivity).
  all: clear Hd; mnorm; repeat mstep.
  all: eexists; split; [reflexivity|]; mnorm.
  all: rewrite L1, L2, L3, L6, L7, L8.
  all: repeat match goal with |- _ /\ _ => split end; try reflexivity.
  all: try (intros j Hj; rewrite elem_mk_other by exact Hj; rewrite elem_mk_heap;
            rewrite (L4 j Hj), !elem_mk_other by exact Hj; reflexivity).
  all: try (rewrite !attachCalls_app, attachCalls_highlightPass, L5,
              !attachCalls_app, !attachCalls_plugins; cbn; by rewrite !app_nil_r).
  all: try (eexists; reflexivity).
  all: unfold sameRequest, unnamed; mnorm; split.
  all: try (intros n Hn; rewrite lookup_insert_ne by discriminate;
            destruct (fallbackTextarea (elem s i)); [|exact Hn];
            by apply lookup_union_Some_l).
  all: intros [Hn Hfb]; (split; [|exact I]); rewrite lookup_insert_ne by discriminate;
       destruct (fallbackTextarea (elem s i)); [|exact Hn];
       by apply lookup_union_None.
Qed.

(** ** [connectedCallback] *)

Lemma connectedCallback_spec (i : InstId) (s : State) :
  exists s',
    connectedCallback i s = Return tt s' /\
    usedTemplates s' = usedTemplates s /\
    defaultTemplate s' = defaultTemplate s /\
    (forall j, j <> i -> elem s' j = elem s j) /\
    attachCalls (trace s') = attachCalls (trace s) ++ [i] /\
    sameRequest (elem s i) (elem s' i) /\
    match usedTemplates s !! requestedKey s i with
    | Some t =>
        templateNotYetRegisteredQueue s' = templateNotYetRegisteredQueue s /\
        template (elem s' i) = Some t /\
        is_Some (textareaElement (elem s' i))
    | None =>
        templateNotYetRegisteredQueue s' =
          <[requestedKey s i := bucket s (requestedKey s i) ++ [i]]>
            (templateNotYetRegisteredQueue s) /\
        template (elem s' i) = None
    end.
Proof.
  unfold connectedCallback, getTemplate. rewrite !bind_bind. mstep.
  unfold requestedKey, bucket.
  set (key := propertyKey match getAttribute (elem s i) "template" with
                          | Some n => Some n | None => defaultTemplate s end).
  rewrite bind_bind. unfold gets at 1. unfold bind at 1. mnorm.
  rewrite bind_bind. unfold gets at 1. unfold bind at 1. mnorm. fold key.
  destruct (usedTemplates s !! key) as [t|] eqn:Hlook.
  - repeat mstep.
    match goal with
    | |- context [bind (setup i) _ ?st] =>
        destruct (setup_spec i st t) as (s1 & Hs & S1 & S2 & S3 & S4 & S5 & S6 & S7 & S8);
          [mnorm; reflexivity|]
    end.
    rewrite (bind_Return _ _ _ _ _ Hs). clear Hs.
    mnorm_in S1; mnorm_in S2; mnorm_in S3; mnorm_in S5; mnorm_in S6; mnorm_in S8.
    repeat mstep. eexists. split; [reflexivity|]. mnorm.
    rewrite S1, S2, S3, S6.
    repeat match goal with |- _ /\ _ => split end; try reflexivity.
    + intros j Hj. rewrite elem_mk_other by exact Hj. rewrite elem_mk_heap.
      rewrite (S4 j Hj), !elem_mk_other by exact Hj. reflexivity.
    + rewrite !attachCalls_app, S5. reflexivity.
    + destruct S8 as [Sa Sb]. unfold unnamed in *. mnorm_in Sa. mnorm_in Sb. split; assumption.
    + destruct S7 as [ta Hta]. rewrite Hta. eexists; reflexivity.
  - unfold modify at 1. unfold bind at 1. mnorm. repeat mstep.
    eexists. split; [reflexivity|]. mnorm.
    repeat match goal with |- _ /\ _ => split end; try reflexivity.
    + intros j Hj. rewrite elem_mk_other by exact Hj. reflexivity.
    + rewrite !attachCalls_app. reflexivity.
    + unfold sameRequest, unnamed. mnorm. tauto.
Qed.

(** ** Replaying the queue *)

Lemma sameRequest_refl (c : CodeInput) : sameRequest c c.
Proof. unfold sameRequest. tauto. Qed.

Lemma sameRequest_trans (c1 c2 c3 : CodeInput) :
  sameRequest c1 c2 -> sameRequest c2 c3 -> sameRequest c1 c3.
Proof. unfold sameRequest. intros [A B] [C D]. split; auto. Qed.

Lemma queueStep_refl (L : list InstId) (s : State) : queueStep L s s.
Proof.
  intros key. split; [|auto]. exists []. by rewrite app_nil_r.
Qed.

Lemma queueStep_trans (L1 L2 : list InstId) (s1 s2 s3 : State) :
  queueStep L1 s1 s2 -> queueStep L2 s2 s3 -> queueStep (L1 ++ L2) s1 s3.
Proof.
  intros H1 H2 key. destruct (H1 key) as [(b1 & E1 & F1) I1].
  destruct (H2 key) as [(b2 & E2 & F2) I2]. split; [|auto].
  exists (b1 ++ b2). rewrite E2, E1, app_assoc. split; [reflexivity|].
  apply Forall_app. split; eapply Forall_impl; eauto; cbn; intros x Hx;
    apply in_or_app; auto.
Qed.

Lemma queueStep_grows (L : list InstId) (s s' : State) :
  queueStep L s s' -> queueGrows s s'.
Proof.
  intros H key b Hb. destruct (H key) as [(b' & E & _) I].
  destruct I as [b2 Hb2]; [by eexists|]. unfold bucket in E.
  rewrite Hb, Hb2 in E. cbn in E. subst b2. by exists b'.
Qed.

Lemma requests_key (s : State) (e : InstId) (name : string) :
  requests s e name -> requestedKey s e = name.
Proof.
  unfold requests, requestedKey, getAttribute, unnamed.
  intros [-> | [[-> _] ->]]; reflexivity.
Qed.

Lemma requests_preserved (s s' : State) (e : InstId) (name : string) :
  sameRequest (elem s e) (elem s' e) ->
  defaultTemplate s' = defaultTemplate s ->
  requests s e name -> requests s' e name.
Proof.
  unfold requests. intros [A B] -> [H | [H1 H2]]; [left | right]; auto.
Qed.

(** One round of the replay loop. *)
Lemma replayOne_spec (e : InstId) (tpl : Template) (s : State) :
  exists s',
    (modifyThis e (set_template (Some tpl)) ;; connectedCallback e) s = Return tt s' /\
    usedTemplates s' = usedTemplates s /\
    defaultTemplate s' = defaultTemplate s /\
    (forall j, j <> e -> elem s' j = elem s j) /\
    attachCalls (trace s') = attachCalls (trace s) ++ [e] /\
    sameRequest (elem s e) (elem s' e) /\
    queueStep [e] s s' /\
    (forall name, requests s e name -> usedTemplates s !! name = Some tpl ->
                  settled tpl (elem s' e)).
Proof.
  rewrite bind_modifyThis.
  match goal with
  | |- context [connectedCallback e ?st] =>
      destruct (connectedCallback_spec e st)
        as (s' & Hrun & C1 & C2 & C3 & C4 & C5 & C6); set (s0 := st) in *
  end.
  assert (Hkey : requestedKey s0 e = requestedKey s e).
  { unfold requestedKey, getAttribute, s0. mnorm. reflexivity. }
  assert (Hq0 : templateNotYetRegisteredQueue s0 = templateNotYetRegisteredQueue s)
    by reflexivity.
  assert (Hu0 : usedTemplates s0 = usedTemplates s) by reflexivity.
  exists s'. split; [exact Hrun|]. split; [exact C1|]. split; [exact C2|].
  split.
  { intros j Hj. rewrite (C3 j Hj). unfold s0. mnorm.
    rewrite elem_mk_other by exact Hj. reflexivity. }
  split; [exact C4|]. split.
  { revert C5. unfold s0, sameRequest, unnamed. mnorm. tauto. }
  rewrite Hkey, Hu0 in C6. split.
  - intros key. destruct (usedTemplates s !! requestedKey s e) as [t|].
    + destruct C6 as (Hq & _). unfold bucket. rewrite Hq, Hq0. split; [|auto].
      exists []. by rewrite app_nil_r.
    + destruct C6 as (Hq & _). unfold bucket in *. rewrite Hq, Hq0.
      destruct (decide (requestedKey s e = key)) as [<-|Hne].
      * rewrite lookup_insert_eq. cbn. split; [|by eexists].
        exists [e]. split; [reflexivity|]. repeat constructor.
      * rewrite lookup_insert_ne by exact Hne. split; [|auto].
        exists []. by rewrite app_nil_r.
  - intros name Hreq Hreg. rewrite (requests_key _ _ _ Hreq), Hreg in C6.
    destruct C6 as (_ & Ht & Hta). by split.
Qed.

Lemma replay_cons (tpl : Template) (x : InstId) (L : list InstId) (s : State) :
  replay tpl (x :: L) s =
  bind (modifyThis x (set_template (Some tpl)) ;; connectedCallback x)
       (fun _ => replay tpl L) s.
Proof. reflexivity. Qed.

Lemma replay_spec (tpl : Template) (L : list InstId) :
  forall s, exists s',
    replay tpl L s = Return tt s' /\
    usedTemplates s' = usedTemplates s /\
    defaultTemplate s' = defaultTemplate s /\
    (forall j, ~ In j L -> elem s' j = elem s j) /\
    attachCalls (trace s') = attachCalls (trace s) ++ L /\
    (forall e, sameRequest (elem s e) (elem s' e)) /\
    queueStep L s s' /\
    (forall e name,
       requests s e name -> usedTemplates s !! name = Some tpl ->
       In e L \/ settled tpl (elem s e) ->
       settled tpl (elem s' e)).
Proof.
  induction L as [|x L IH]; intros s.
  - exists s. split; [reflexivity|]. rewrite app_nil_r.
    split; [reflexivity|]. split; [reflexivity|]. split; [reflexivity|].
    split; [reflexivity|]. split; [intros e; apply sameRequest_refl|].
    split; [apply queueStep_refl|].
    intros e name _ _ [[]|H]; exact H.
  - destruct (replayOne_spec x tpl s) as (s1 & Hrun1 & U1 & D1 & O1 & A1 & R1 & Q1 & G1).
    destruct (IH s1) as (s' & Hrun & U & D & O & A & R & Q & G).
    exists s'. rewrite replay_cons, (bind_Return _ _ _ _ _ Hrun1).
    split; [exact Hrun|]. split; [congruence|]. split; [congruence|].
    assert (Hsame1 : forall e, sameRequest (elem s e) (elem s1 e)).
    { intros e. destruct (decide (e = x)) as [->|Hne]; [exact R1|].
      rewrite (O1 e Hne). apply sameRequest_refl. }
    split.
    { intros j Hj. rewrite O, O1; [reflexivity | |]; intros H; apply Hj; cbn; auto. }
    split.
    { rewrite A, A1, <- app_assoc. reflexivity. }
    split.
    { intros e. eapply sameRequest_trans; [apply Hsame1 | apply R]. }
    split.
    { exact (queueStep_trans [x] L _ _ _ Q1 Q). }
    intros e name Hreq Hreg Hcase.
    apply (G e name).
    + eapply requests_preserved; [apply Hsame1 | exact D1 | exact Hreq].
    + by rewrite U1.
    + destruct (decide (e = x)) as [->|Hne].
      * right. by apply (G1 name).
      * destruct Hcase as [[Hx|Hin]|Hs]; [congruence | by left |].
        right. by rewrite (O1 e Hne).
Qed.

Lemma replayQueued_bucket (tpl : Template) (key : string) (s : State) :
  replayQueued tpl key s = replay tpl (bucket s key) s.
Proof.
  unfold replayQueued, bucket. unfold gets, bind.
  by destruct (templateNotYetRegisteredQueue s !! key).
Qed.

Lemma mapM_pluginOf (l : list JSVal) :
  forallb isPlugin l = true -> exists ps, mapM pluginOf l = Some ps.
Proof.
  induction l as [|v l IH]; [by exists []|]. cbn [forallb].
  intros [Hv Hl]%andb_true_iff. destruct (IH Hl) as [ps Hps].
  destruct v; try discriminate. eexists. cbn. rewrite Hps. reflexivity.
Qed.

Lemma registerTemplate_accepts (templateName : JSVal) (o : TemplateObject) :
  wellFormedRegistration templateName (Some o) = true ->
  exists name tpl,
    stringOf templateName = Some name /\
    asTemplate o = Some tpl /\
    forall s, registerTemplate templateName (Some o) s = registerChecked name tpl s.
Proof.
  unfold wellFormedRegistration, wellFormedTemplate.
  intros H. apply andb_true_iff in H as [Hname H].
  repeat match goal with H : _ && _ = true |- _ => apply andb_true_iff in H as [? ?] end.
  assert (Hs : exists name, stringOf templateName = Some name)
    by (destruct templateName; try discriminate; eexists; reflexivity).
  destruct Hs as [name Hs].
  assert (Ht : exists tpl, asTemplate o = Some tpl).
  { unfold asTemplate. destruct (prop_highlight o); try discriminate.
    destruct (prop_plugins o) as [| | | | | | | |l| |]; try discriminate.
    destruct (mapM_pluginOf l) as [ps Hps]; [assumption|].
    cbn [arrayElements]. rewrite Hps. eexists; reflexivity. }
  destruct Ht as [tpl Ht].
  exists name, tpl. split; [exact Hs|]. split; [exact Ht|]. intros s.
  unfold registerTemplate. rewrite Hs, Ht.
  destruct templateName; try discriminate;
    cbn [typeof instanceof String.eqb negb orb];
    (destruct (prop_highlight o); try discriminate);
    (destruct (prop_includeCodeInputInHighlightFunc o); try discriminate);
    (destruct (prop_preElementStyled o); try discriminate);
    (destruct (prop_isCode o); try discriminate);
    (destruct (prop_plugins o) as [| | | | | | | |l| |]; try discriminate);
    cbn [isArray negb arrayElements isPluginArray] in *;
    rewrite plugin_check_forallb;
    match goal with H : forallb isPlugin l = true |- _ => rewrite H end;
    reflexivity.
Qed.

Lemma registerChecked_spec (name : string) (tpl : Template) (s : State) :
  exists s',
    registerChecked name tpl s = Return tt s' /\
    usedTemplates s' = <[name := tpl]> (usedTemplates s) /\
    defaultTemplate s' = Some (default name (defaultTemplate s)) /\
    (exists requeued,
       attachCalls (trace s') =
         attachCalls (trace s) ++ bucket s name ++
         match defaultTemplate s with
         | None => bucket s "undefined" ++ requeued
         | Some _ => []
         end /\
       Forall (fun x => In x (bucket s name)) requeued) /\
    (forall j, ~ In j (bucket s name) ->
               (defaultTemplate s = None -> ~ In j (bucket s "undefined")) ->
               elem s' j = elem s j) /\
    (forall e, In e (bucket s name) ->
               attributes (elem s e) !! "template" = Some name ->
               settled tpl (elem s' e)) /\
    (defaultTemplate s = None ->
     forall e, In e (bucket s "undefined") -> unnamed (elem s e) ->
               settled tpl (elem s' e)) /\
    queueGrows s s'.
Proof.
  unfold registerChecked. unfold modify at 1. unfold bind at 1.
  set (s0 := set_usedTemplates (<[name:=tpl]> (usedTemplates s)) s).
  destruct (replay_spec tpl (bucket s0 name) s0) as (s1 & Hrun1 & U1 & D1 & O1 & A1 & R1 & Q1 & G1).
  rewrite <- replayQueued_bucket in Hrun1.
  rewrite (bind_Return _ _ _ _ _ Hrun1). unfold gets at 1. unfold bind at 1.
  change (bucket s0 name) with (bucket s name) in *.
  change (defaultTemplate s0) with (defaultTemplate s) in *.
  change (trace s0) with (trace s) in *.
  change (usedTemplates s0) with (<[name:=tpl]> (usedTemplates s)) in *.
  assert (E0 : forall j, elem s0 j = elem s j) by reflexivity.
  assert (Hreg : (<[name:=tpl]> (usedTemplates s)) !! name = Some tpl)
    by apply lookup_insert_eq.
  rewrite D1. destruct (defaultTemplate s) as [d|] eqn:Hd.
  - exists s1. split; [reflexivity|]. split; [exact U1|]. split; [by rewrite D1|].
    split; [exists []; rewrite A1, app_nil_r; by split|].
    split; [intros j Hj _; by rewrite O1|].
    split.
    { intros e He Hattr. apply (G1 e name); [by left | exact Hreg | by left]. }
    split; [discriminate|].
    eapply queueStep_grows. intros key. apply (Q1 key).
  - unfold modify at 1. unfold bind at 1. rewrite replayQueued_bucket.
    set (s1' := set_defaultTemplate (Some name) s1).
    destruct (replay_spec tpl (bucket s1' (propertyKey None)) s1')
      as (s2 & Hrun2 & U2 & D2 & O2 & A2 & R2 & Q2 & G2).
    change (bucket s1' (propertyKey None)) with (bucket s1 "undefined") in *.
    change (trace s1') with (trace s1) in *.
    change (usedTemplates s1') with (usedTemplates s1) in *.
    change (defaultTemplate s1') with (Some name) in *.
    assert (E1 : forall j, elem s1' j = elem s1 j) by reflexivity.
    destruct (Q1 "undefined") as [(b' & Hb' & Fb') _].
    change (bucket s0 "undefined") with (bucket s "undefined") in Hb'.
    exists s2. split; [exact Hrun2|]. split; [congruence|]. split; [exact D2|].
    split.
    { exists b'. split; [|exact Fb']. by rewrite A2, A1, Hb', <- app_assoc. }
    split.
    { intros j Hj Hu. rewrite O2, E1, O1; [reflexivity | exact Hj |].
      rewrite Hb'. intros [H|H]%in_app_or; [by apply Hu|].
      rewrite Forall_forall in Fb'. apply Hj, Fb'.
      by apply list_elem_of_In. }
    split.
    { intros e He Hattr.
      assert (S1 : settled tpl (elem s1 e))
        by (apply (G1 e name); [by left | exact Hreg | by left]).
      apply (G2 e name); [ | by rewrite U1 | right; by rewrite E1].
      left. rewrite E1. destruct (R1 e) as [Ra _]. apply Ra. by rewrite E0. }
    split.
    { intros _ e He Hun. apply (G2 e name); [ | by rewrite U1 | left].
      - right. split; [|reflexivity]. rewrite E1. destruct (R1 e) as [_ Rb].
        apply Rb. by rewrite E0.
      - rewrite Hb'. apply in_or_app. by left. }
    eapply queueStep_grows. intros key.
    exact (queueStep_trans _ _ s0 s1 s2 Q1 Q2 key).
Qed.


(** C3. Registering a well-formed template under [name] returns normally;
    the elements whose [connectedCallback] is re-run are, in this order,
    those of the bucket of [name] and then, when no default was set, those
    of the bucket of the missing name (with, at its end, elements of the
    first bucket that were queued again meanwhile); each of them that
    names [name], or names nothing when [name] becomes the default, ends
    with the template and set up; every element outside these buckets is
    unchanged. *)
Theorem registerTemplate_replays_queue (templateName : JSVal) (o : TemplateObject)
    (s : State) :
  wellFormedRegistration templateName (Some o) = true ->
  exists name tpl s',
    stringOf templateName = Some name /\
    asTemplate o = Some tpl /\
    registerTemplate templateName (Some o) s = Return tt s' /\
    usedTemplates s' !! name = Some tpl /\
    defaultTemplate s' = Some (default name (defaultTemplate s)) /\
    (exists requeued,
       attachCalls (trace s') =
         attachCalls (trace s) ++ bucket s name ++
         match defaultTemplate s with
         | None => bucket s "undefined" ++ requeued
         | Some _ => []
         end /\
       Forall (fun x => In x (bucket s name)) requeued) /\
    (forall e, In e (bucket s name) ->
               attributes (elem s e) !! "template" = Some name ->
               settled tpl (elem s' e)) /\
    (defaultTemplate s = None ->
     forall e, In e (bucket s "undefined") -> unnamed (elem s e) ->
               settled tpl (elem s' e)) /\
    (forall j, ~ In j (bucket s name) ->
               (defaultTemplate s = None -> ~ In j (bucket s "undefined")) ->
               elem s' j = elem s j).
Proof.
  intros Hwf.
  destruct (registerTemplate_accepts templateName o Hwf) as (name & tpl & Hn & Ht & Heq).
  destruct (registerChecked_spec name tpl s)
    as (s' & Hrun & U & D & A & O & G1 & G2 & _).
  exists name, tpl, s'. rewrite Heq.
  repeat (split; [assumption|]).
  split; [rewrite U; apply lookup_insert_eq|].
  repeat (split; [assumption|]). assumption.
Qed.

Lemma registerTemplate_replays_queue_witness :
  exists name tpl s',
    stringOf (VString "demo") = Some name /\
    asTemplate demoTemplate = Some tpl /\
    registerTemplate (VString "demo") (Some demoTemplate) queuedPage = Return tt s' /\
    usedTemplates s' !! name = Some tpl /\
    defaultTemplate s' = Some (default name (defaultTemplate queuedPage)) /\
    (exists requeued,
       attachCalls (trace s') =
         attachCalls (trace queuedPage) ++ bucket queuedPage name ++
         match defaultTemplate queuedPage with
         | None => bucket queuedPage "undefined" ++ requeued
         | Some _ => []
         end /\
       Forall (fun x => In x (bucket queuedPage name)) requeued) /\
    (forall e, In e (bucket queuedPage name) ->
               attributes (elem queuedPage e) !! "template" = Some name ->
               settled tpl (elem s' e)) /\
    (defaultTemplate queuedPage = None ->
     forall e, In e (bucket queuedPage "undefined") -> unnamed (elem queuedPage e) ->
               settled tpl (elem s' e)) /\
    (forall j, ~ In j (bucket queuedPage name) ->
               (defaultTemplate queuedPage = None -> ~ In j (bucket queuedPage "undefined")) ->
               elem s' j = elem queuedPage j).
Proof.
  apply (registerTemplate_replays_queue (VString "demo") demoTemplate queuedPage).
  reflexivity.
Defined.

(** On [queuedPage] the replay order is element 1, which named ["demo"],
    then elements 0 and 3, which named nothing; element 2 is not replayed. *)
Lemma registerTemplate_replay_order :
  bucket queuedPage "demo" = [1] /\
  bucket queuedPage "undefined" = [0; 3] /\
  bucket queuedPage "other" = [2] /\
  attachCalls (trace (finalState
    (registerTemplate (VString "demo") (Some demoTemplate) queuedPage))) =
  attachCalls (trace queuedPage) ++ [1; 0; 3].
Proof. repeat (split; [vm_compute; reflexivity|]). vm_compute. reflexivity. Qed.

(** ** The pending queue *)

Lemma getTemplate_run (i : InstId) (s : State) :
  exists r s',
    getTemplate i s = Return r s' /\
    r = usedTemplates s !! requestedKey s i /\
    templateNotYetRegisteredQueue s' =
      match r with
      | Some _ => templateNotYetRegisteredQueue s
      | None => <[requestedKey s i := bucket s (requestedKey s i) ++ [i]]>
                  (templateNotYetRegisteredQueue s)
      end.
Proof.
  unfold getTemplate. rewrite bind_this. unfold gets at 1. unfold bind at 1.
  unfold gets at 1. unfold bind at 1. fold (requestedKey s i).
  destruct (usedTemplates s !! requestedKey s i) as [t|] eqn:E.
  - exists (Some t), s. split; [reflexivity|]. split; reflexivity.
  - eexists None, _. split; [reflexivity|]. split; reflexivity.
Qed.

Lemma queueGrows_refl (s : State) : queueGrows s s.
Proof. intros key b Hb. exists []. by rewrite app_nil_r. Qed.

(** C1 (amended). A run of [getTemplate] that finds no registered template
    appends the element to one bucket, the bucket of the key it asked for,
    and a run that finds one leaves the queue as it is; neither
    [connectedCallback] nor [registerTemplate] takes an element out of a
    bucket: every bucket is a prefix of what it is afterwards. *)
Theorem queue_only_grows :
  (forall (i : InstId) (s : State),
     exists r s',
       getTemplate i s = Return r s' /\
       r = usedTemplates s !! requestedKey s i /\
       templateNotYetRegisteredQueue s' =
         match r with
         | Some _ => templateNotYetRegisteredQueue s
         | None => <[requestedKey s i := bucket s (requestedKey s i) ++ [i]]>
                     (templateNotYetRegisteredQueue s)
         end) /\
  (forall (i : InstId) (s : State),
     queueGrows s (finalState (connectedCallback i s))) /\
  (forall (templateName : JSVal) (template : option TemplateObject) (s : State),
     queueGrows s (finalState (registerTemplate templateName template s))).
Proof.
  split; [exact getTemplate_run|]. split.
  - intros i s.
    destruct (connectedCallback_spec i s) as (s' & Hrun & _ & _ & _ & _ & _ & Hq).
    rewrite Hrun. cbn [finalState]. intros key b Hb.
    destruct (usedTemplates s !! requestedKey s i).
    + destruct Hq as (-> & _). exists []. by rewrite app_nil_r.
    + destruct Hq as (-> & _).
      destruct (decide (requestedKey s i = key)) as [<-|Hne].
      * rewrite lookup_insert_eq. unfold bucket. rewrite Hb. by eexists.
      * rewrite lookup_insert_ne by exact Hne. exists []. by rewrite app_nil_r.
  - intros templateName template s.
    destruct (wellFormedRegistration templateName template) eqn:Hwf.
    + destruct template as [o|];
        [|unfold wellFormedRegistration in Hwf; by rewrite andb_false_r in Hwf].
      destruct (registerTemplate_accepts templateName o Hwf) as (name & tpl & _ & _ & Heq).
      destruct (registerChecked_spec name tpl s) as (s' & Hrun & _ & _ & _ & _ & _ & _ & Hg).
      rewrite Heq, Hrun. exact Hg.
    + rewrite (registerTemplate_throws _ _ _ Hwf). apply queueGrows_refl.
Qed.

(** C1, as stated, fails on [reattachedPage]: element 0 has its template
    and is still in the queue, in two buckets. *)
Lemma resolved_instance_stays_queued :
  ~ inAtMostOneBucket reattachedPage 0 /\ ~ removedOnceResolved reattachedPage 0.
Proof.
  assert (Hu : In 0 (bucket reattachedPage "undefined")) by (vm_compute; auto).
  assert (Hd : In 0 (bucket reattachedPage "demo")) by (vm_compute; auto).
  split.
  - intros H. specialize (H "undefined" "demo" Hu Hd). discriminate H.
  - intros H. apply (H ltac:(vm_compute; eexists; reflexivity) "demo" Hd).
Qed.

(** ** More on HTML escaping *)

Lemma escapeChars_app (a b : string) :
  escapeChars (a +:+ b) = escapeChars a +:+ escapeChars b.
Proof.
  induction a as [|c a IH]; [reflexivity|].
  rewrite append_cons. cbn [escapeChars]. rewrite IH.
  unfold escapeChar. destruct (Ascii.eqb c "&"); [|destruct (Ascii.eqb c "<")]; scomp; reflexivity.
Qed.

Lemma hasChar_app (c : ascii) (a b : string) :
  hasChar c (a +:+ b) = hasChar c a || hasChar c b.
Proof.
  induction a as [|x a IH]; [reflexivity|].
  rewrite append_cons. cbn [hasChar]. rewrite IH. by rewrite orb_assoc.
Qed.

(** X1. Whatever the text, the result of [escapeHtml] (and of its
    deprecated alias [escape_html]) contains no [<]: written into
    [innerHTML], it cannot open a tag. *)
Theorem escapeHtml_no_markup_start (v : string) :
  hasChar "<" (escapeHtml v) = false /\ hasChar "<" (escape_html v) = false.
Proof.
  unfold escape_html. enough (hasChar "<" (escapeHtml v) = false) by auto.
  rewrite escapeHtml_chars. induction v as [|c v IH]; [reflexivity|].
  cbn [escapeChars]. rewrite hasChar_app, IH, orb_false_r. unfold escapeChar.
  destruct (Ascii.eqb c "&") eqn:Ea; [reflexivity|].
  destruct (Ascii.eqb c "<") eqn:El; [reflexivity|].
  cbn [hasChar]. by rewrite El.
Qed.

(** X2. [escapeHtml] works character by character, although it is written
    as two global replacements: escaping a concatenation gives the
    concatenation of the escaped parts. *)
Theorem escapeHtml_app (a b : string) :
  escapeHtml (a +:+ b) = escapeHtml a +:+ escapeHtml b.
Proof. rewrite !escapeHtml_chars. apply escapeChars_app. Qed.

Lemma escapeChars_inj (a b : string) : escapeChars a = escapeChars b -> a = b.
Proof.
  revert b. induction a as [|x a IH]; intros [|y b]; cbn [escapeChars].
  - reflexivity.
  - unfold escapeChar. destruct (Ascii.eqb y "&"); [|destruct (Ascii.eqb y "<")]; discriminate.
  - unfold escapeChar. destruct (Ascii.eqb x "&"); [|destruct (Ascii.eqb x "<")]; discriminate.
  - unfold escapeChar.
    destruct (Ascii.eqb_spec x "&") as [->|Hxa]; [|destruct (Ascii.eqb_spec x "<") as [->|Hxl]];
    (destruct (Ascii.eqb_spec y "&") as [->|Hya]; [|destruct (Ascii.eqb_spec y "<") as [->|Hyl]]);
    rewrite ?append_cons, ?append_empty; intros H; try discriminate H.
    all: try (injection H as H; f_equal; by apply IH).
    all: try (injection H as -> H; congruence).
    all: try (injection H as <- H; congruence).
    injection H as -> H. f_equal. by apply IH.
Qed.

(** X3. [escapeHtml] loses nothing: two texts have the same escaped form
    exactly when they are the same text. *)
Theorem escapeHtml_injective (a b : string) : escapeHtml a = escapeHtml b <-> a = b.
Proof.
  split; [|by intros ->].
  rewrite !escapeHtml_chars. apply escapeChars_inj.
Qed.
Lemma prefix_cons (a c : ascii) (p s : string) :
  String.prefix (String a p) (String c s) = Ascii.eqb c a && String.prefix p s.
Proof.
  cbn [String.prefix].
  destruct (ascii_dec a c) as [->|Hne]; [by rewrite Ascii.eqb_refl|].
  by destruct (Ascii.eqb_spec c a) as [->|_].
Qed.

Lemma unescape_pass1_all (s : string) :
  Str.replaceAll "&amp;" "&" (escapeChars s) = ampOnly s.
Proof.
  unfold Str.replaceAll. induction s as [|c s IH]; [reflexivity|].
  cbn [escapeChars ampOnly]. unfold escapeChar.
  destruct (Ascii.eqb_spec c "&") as [->|Ha].
  - scomp. by rewrite IH.
  - destruct (Ascii.eqb_spec c "<") as [->|Hl].
    + scomp. by rewrite IH.
    + rewrite append_cons, append_empty, replaceAll_from_cons, prefix_cons.
      destruct (Ascii.eqb_spec c "&") as [->|_]; [done|]. cbn [andb]. by rewrite IH.
Qed.

Lemma prefix_plainHead (p s : string) :
  hasChar "<" p = false -> String.prefix p s = true -> plainHead (String.length p) s = true.
Proof.
  revert s. induction p as [|a p IH]; intros s Hp Hpre; [reflexivity|].
  destruct s as [|c s]; [reflexivity|].
  rewrite prefix_cons in Hpre. apply andb_true_iff in Hpre as [Hc Hs].
  cbn [hasChar] in Hp. apply orb_false_iff in Hp as [Ha Hp].
  apply Ascii.eqb_eq in Hc as ->. cbn [String.length plainHead]. rewrite Ha. cbn [negb andb].
  by apply IH.
Qed.

Lemma prefix_ampOnly (p s : string) :
  hasChar "<" p = false -> hasChar "&" p = false ->
  String.prefix p (ampOnly s) = String.prefix p s.
Proof.
  revert s. induction p as [|a p IH]; intros s Hl Ha; [by rewrite !prefix_empty|].
  cbn [hasChar] in Hl, Ha. apply orb_false_iff in Hl as [Hl1 Hl2].
  apply orb_false_iff in Ha as [Ha1 Ha2].
  destruct s as [|c s]; [reflexivity|]. cbn [ampOnly].
  destruct (Ascii.eqb_spec c "<") as [->|Hc].
  - rewrite append_cons, !prefix_cons.
    rewrite (Ascii.eqb_sym "&" a), Ha1, (Ascii.eqb_sym "<" a), Hl1. reflexivity.
  - rewrite append_cons, append_empty, !prefix_cons. by rewrite IH.
Qed.

Lemma unescape_pass2_from (s : string) :
  forall k, plainHead k s = true ->
    Str.replaceAll_from "&lt;" "<" k (ampOnly s) = Str.replaceAll_from "&lt;" "<" k s.
Proof.
  induction s as [|c s IH]; intros k Hk; [reflexivity|].
  destruct k as [|k].
  - cbn [ampOnly]. destruct (Ascii.eqb_spec c "<") as [->|Hc].
    + scomp. by rewrite (IH 0).
    + rewrite append_cons, append_empty, !replaceAll_from_cons, !prefix_cons.
      destruct (Ascii.eqb c "&"); cbn [andb]; [|by rewrite (IH 0)].
      rewrite prefix_ampOnly by reflexivity.
      destruct (String.prefix "lt;" s) eqn:Hp; [|by rewrite (IH 0)].
      cbn [String.length Nat.sub]. rewrite (IH 3); [reflexivity|].
      by apply (prefix_plainHead "lt;").
  - cbn [plainHead] in Hk. apply andb_true_iff in Hk as [Hc Hk].
    cbn [ampOnly]. apply negb_true_iff in Hc. rewrite Hc.
    rewrite append_cons, append_empty. cbn [Str.replaceAll_from]. by apply IH.
Qed.

Lemma unescape_escape_decodes (v : string) :
  unescapeHtml (escapeHtml v) = decodeAngles v.
Proof.
  rewrite escapeHtml_chars. unfold unescapeHtml, decodeAngles.
  rewrite unescape_pass1_all. unfold Str.replaceAll at 2 4.
  by rewrite (unescape_pass2_from v 0).
Qed.

Lemma skip_le (pat s : string) :
  String.prefix pat s = true -> String.length pat <= String.length s.
Proof.
  revert s. induction pat as [|a p IH]; intros s H; [cbn; lia|].
  destruct s as [|c s]; [discriminate|].
  rewrite prefix_cons in H. apply andb_true_iff in H as [_ H].
  cbn [String.length]. specialize (IH _ H). lia.
Qed.

Lemma length_append (a b : string) :
  String.length (a +:+ b) = String.length a + String.length b.
Proof. induction a as [|c a IH]; [reflexivity|]. rewrite append_cons. cbn [String.length]. by rewrite IH. Qed.

Lemma replaceAll_from_length (pat rep : string) (s : string) :
  String.length rep <= String.length pat ->
  forall k, k <= String.length s ->
    String.length (Str.replaceAll_from pat rep k s) + k <= String.length s.
Proof.
  intros Hrep. induction s as [|c s IH]; intros k Hk.
  - cbn in *. lia.
  - destruct k as [|k]; cbn [Str.replaceAll_from String.length] in *.
    + destruct (String.prefix pat (String c s)) eqn:Hp.
      * apply skip_le in Hp. cbn [String.length] in Hp.
        rewrite length_append.
        specialize (IH (String.length pat - 1)). lia.
      * cbn [String.length]. specialize (IH 0). lia.
    + specialize (IH k). lia.
Qed.

Lemma replaceAll_shrinks (pat rep s : string) :
  String.length rep < String.length pat ->
  occurs pat s = true ->
  String.length (Str.replaceAll pat rep s) < String.length s.
Proof.
  intros Hrep. unfold Str.replaceAll. induction s as [|c s IH]; intros Ho; [discriminate|].
  cbn [occurs] in Ho. rewrite replaceAll_from_cons.
  destruct (String.prefix pat (String c s)) eqn:Hp.
  - apply skip_le in Hp. cbn [String.length] in *. rewrite length_append.
    pose proof (replaceAll_from_length pat rep s ltac:(lia) (String.length pat - 1) ltac:(lia)).
    lia.
  - cbn [orb] in Ho. cbn [String.length]. specialize (IH Ho). lia.
Qed.

Lemma replaceAll_absent (pat rep s : string) :
  occurs pat s = false -> Str.replaceAll pat rep s = s.
Proof.
  unfold Str.replaceAll. induction s as [|c s IH]; intros Ho; [reflexivity|].
  cbn [occurs] in Ho. apply orb_false_iff in Ho as [Hp Ho].
  rewrite replaceAll_from_cons, Hp. by rewrite IH.
Qed.

Lemma replaceAll_length_le (pat rep s : string) :
  String.length rep <= String.length pat ->
  String.length (Str.replaceAll pat rep s) <= String.length s.
Proof.
  intros H. pose proof (replaceAll_from_length pat rep s H 0 ltac:(lia)).
  unfold Str.replaceAll. lia.
Qed.

(** X4. [unescapeHtml] undoes [escapeHtml] exactly on the texts that
    contain neither [&lt;] nor [&gt;]: on every text
    [unescapeHtml (escapeHtml v)] is [v] with its own [&lt;] and [&gt;]
    decoded as well, because [&amp;] is decoded first. *)
Theorem unescape_escape_roundtrip_iff (v : string) :
  unescapeHtml (escapeHtml v) = v <->
  occurs "&lt;" v = false /\ occurs "&gt;" v = false.
Proof.
  rewrite unescape_escape_decodes. unfold decodeAngles. split.
  - intros Heq.
    destruct (occurs "&lt;" v) eqn:Hl.
    { exfalso. pose proof (replaceAll_shrinks "&lt;" "<" v ltac:(cbn; lia) Hl) as H1.
      pose proof (replaceAll_length_le "&gt;" ">" (Str.replaceAll "&lt;" "<" v) ltac:(cbn; lia)) as H2.
      rewrite Heq in H2. lia. }
    split; [reflexivity|].
    rewrite (replaceAll_absent _ _ _ Hl) in Heq.
    destruct (occurs "&gt;" v) eqn:Hg; [|reflexivity].
    exfalso. pose proof (replaceAll_shrinks "&gt;" ">" v ltac:(cbn; lia) Hg) as H1.
    rewrite Heq in H1. lia.
  - intros [Hl Hg]. by rewrite (replaceAll_absent _ _ _ Hl), (replaceAll_absent _ _ _ Hg).
Qed.
(** ** Plugins *)

Lemma addTranslations_union (destination source : gmap string string) :
  addTranslations destination source = source ∪ destination.
Proof.
  unfold addTranslations.
  apply (map_fold_weak_ind (fun r m => r = m ∪ destination)).
  - by rewrite (left_id_L ∅ (∪)).
  - intros k v m r Hk ->. by rewrite insert_union_l.
Qed.

(** X5. After [addTranslations(destination, source)] every key of
    [source] has the value [source] gives it, and every other key of
    [destination] keeps its value. *)
Theorem addTranslations_lookup (destination source : gmap string string) (key : string) :
  addTranslations destination source !! key =
  match source !! key with
  | Some translated => Some translated
  | None => destination !! key
  end.
Proof.
  rewrite addTranslations_union. destruct (source !! key) as [v|] eqn:E.
  - by apply lookup_union_Some_l.
  - rewrite lookup_union_r by exact E. reflexivity.
Qed.

Lemma Plugin_constructor_run (observed : list string) (s : State) :
  Plugin_constructor observed s =
  Return tt (set_observedAttributes (observedAttributes s ++ observed) s).
Proof.
  unfold Plugin_constructor. revert s.
  induction observed as [|a l IH]; intros s; cbn [forEach].
  - unfold ret. rewrite app_nil_r. by destruct s.
  - unfold modify at 1. unfold bind at 1. rewrite IH. mnorm.
    by rewrite <- app_assoc.
Qed.

Lemma includes_app_r (l1 l2 : list string) (name : string) :
  In name l2 -> Str.includes (l1 ++ l2) name = true.
Proof.
  intros Hin. unfold Str.includes. rewrite existsb_app.
  apply orb_true_iff. right. apply existsb_exists. exists name.
  split; [exact Hin | apply String.eqb_refl].
Qed.

(** X6. Of a batch of mutation records [mutationObserverCallback] passes
    on one record only: the first one that is an attribute change of an
    observed attribute or of an [aria-] attribute, with the value the
    attribute has now; the records after it are dropped, and a batch
    without such a record does nothing. *)
Theorem mutation_batch_passes_first_observed (i : InstId) (l : list MutationRecord)
    (s : State) :
  mutationObserverCallback i l s =
  match firstObserved (observedAttributes s) l with
  | Some m =>
      attributeChangedCallback i (attributeName m) (oldValue m)
        (getAttribute (elem s i) (attributeName m)) s
  | None => Return tt s
  end.
Proof.
  unfold firstObserved. induction l as [|m l IH]; [reflexivity|].
  cbn [mutationObserverCallback List.find].
  destruct (String.eqb (mutationType m) "attributes"); cbn [negb andb]; [|exact IH].
  unfold gets at 1. unfold bind at 1.
  destruct (Str.includes (observedAttributes s) (attributeName m) || Str.is_aria (attributeName m));
    [reflexivity | exact IH].
Qed.

(** X7. [new codeInput.Plugin(observedAttributes)] appends the given
    names to [codeInput.observedAttributes] and touches nothing else; from
    then on a mutation record for one of these names is passed to
    [attributeChangedCallback]. *)
Theorem plugin_attributes_become_observed (observed : list string) (s : State)
    (i : InstId) (name : string) (old : option string) (rest : list MutationRecord) :
  In name observed ->
  exists s',
    Plugin_constructor observed s = Return tt s' /\
    observedAttributes s' = observedAttributes s ++ observed /\
    usedTemplates s' = usedTemplates s /\
    heap s' = heap s /\
    trace s' = trace s /\
    mutationObserverCallback i
      ({| mutationType := "attributes"; attributeName := name; oldValue := old |} :: rest) s' =
    attributeChangedCallback i name old (getAttribute (elem s' i) name) s'.
Proof.
  intros Hin. eexists. split; [apply Plugin_constructor_run|].
  repeat (split; [reflexivity|]).
  cbn [mutationObserverCallback mutationType attributeName oldValue].
  change (negb (String.eqb "attributes" "attributes")) with false. cbv iota.
  unfold gets at 1. unfold bind at 1. mnorm.
  rewrite includes_app_r by exact Hin. reflexivity.
Qed.

Lemma plugin_attributes_become_observed_witness :
  exists s',
    Plugin_constructor ["data-limit"; "data-mode"] codeInput = Return tt s' /\
    observedAttributes s' = observedAttributes codeInput ++ ["data-limit"; "data-mode"] /\
    usedTemplates s' = usedTemplates codeInput /\
    heap s' = heap codeInput /\
    trace s' = trace codeInput /\
    mutationObserverCallback 0
      ({| mutationType := "attributes"; attributeName := "data-mode"; oldValue := None |} :: []) s' =
    attributeChangedCallback 0 "data-mode" None (getAttribute (elem s' 0) "data-mode") s'.
Proof.
  apply (plugin_attributes_become_observed ["data-limit"; "data-mode"] codeInput 0 "data-mode" None []).
  simpl. auto.
Defined.

(** ** Template constructors *)

Lemma orDefault_cases (arg dflt : JSVal) (P : JSVal -> bool) :
  P dflt = true -> arg = VUndefined \/ P arg = true -> P (orDefault arg dflt) = true.
Proof. intros Hd [->|Ha]; [exact Hd|]. destruct arg; try exact Ha. exact Hd. Qed.

Lemma registerTemplate_returns (templateName : JSVal) (o : TemplateObject) (s : State) :
  wellFormedRegistration templateName (Some o) = true ->
  exists s', registerTemplate templateName (Some o) s = Return tt s'.
Proof.
  intros Hwf.
  destruct (registerTemplate_accepts templateName o Hwf) as (name & tpl & _ & _ & Heq).
  destruct (registerChecked_spec name tpl s) as (s' & Hrun & _).
  exists s'. by rewrite Heq.
Qed.

Lemma orDefault_twice (arg d d' : JSVal) :
  d <> VUndefined -> orDefault (orDefault arg d) d' = orDefault arg d.
Proof. intros Hd. destruct arg; try reflexivity. by destruct d. Qed.

(** X8. The objects built by [codeInput.templates.Prism], [Hljs], [prism],
    [hljs], [custom], [rainbowText] and [character_limit] pass the checks
    of [registerTemplate] whenever the plugin list is absent or an array of
    plugins and [preElementStyled] is absent or a boolean -- a missing
    [prism.highlightElement] is replaced by the empty default function --
    while the object [characterLimit()] builds without an argument is
    rejected, its [plugins] being [undefined]; [Prism] styles the [pre]
    element by default and [Hljs] does not. *)
Theorem builtin_templates_pass_validation (noop wrapper : FunId)
    (highlightElement plugins preElementStyled templateName : JSVal) (s : State) :
  isStringTyped templateName = true ->
  highlightElement = VUndefined \/ isCallable highlightElement = true ->
  plugins = VUndefined \/ isPluginArray plugins = true ->
  preElementStyled = VUndefined \/ isBooleanTyped preElementStyled = true ->
  (exists s', registerTemplate templateName
     (Some (templates_Prism noop highlightElement plugins preElementStyled)) s = Return tt s') /\
  (exists s', registerTemplate templateName
     (Some (templates_Hljs noop wrapper plugins preElementStyled)) s = Return tt s') /\
  (exists s', registerTemplate templateName
     (Some (templates_prism noop highlightElement plugins)) s = Return tt s') /\
  (exists s', registerTemplate templateName
     (Some (templates_hljs noop wrapper plugins)) s = Return tt s') /\
  (exists s', registerTemplate templateName
     (Some (templates_custom noop highlightElement preElementStyled VUndefined VUndefined plugins)) s
     = Return tt s') /\
  (exists s', registerTemplate templateName
     (Some (templates_rainbow_text wrapper plugins)) s = Return tt s') /\
  (exists s', registerTemplate templateName
     (Some (templates_character_limit wrapper)) s = Return tt s') /\
  registerTemplate templateName (Some (templates_characterLimit wrapper VUndefined)) s
    = Throw TypeError s /\
  toBoolean (prop_preElementStyled (templates_Prism noop highlightElement plugins VUndefined)) = true /\
  toBoolean (prop_preElementStyled (templates_Hljs noop wrapper plugins VUndefined)) = false.
Proof.
  intros Hn Hh Hp Hs.
  assert (Hh' := orDefault_cases highlightElement (VFunction noop) isCallable eq_refl Hh).
  assert (Hp' := orDefault_cases plugins (VArray []) isPluginArray eq_refl Hp).
  assert (Ht := orDefault_cases preElementStyled (VBool true) isBooleanTyped eq_refl Hs).
  assert (Hf := orDefault_cases preElementStyled (VBool false) isBooleanTyped eq_refl Hs).
  repeat match goal with
  | |- (exists s', registerTemplate _ _ _ = Return tt s') /\ _ => split
  | |- exists s', registerTemplate _ _ _ = Return tt s' =>
      apply registerTemplate_returns; unfold wellFormedRegistration, wellFormedTemplate;
      rewrite Hn; cbn [andb templates_Prism templates_Hljs templates_prism templates_hljs
        templates_custom templates_character_limit templates_characterLimit
        templates_rainbow_text templates_rainbowText Template_new
        Template_constructor prop_highlight prop_preElementStyled prop_isCode
        prop_includeCodeInputInHighlightFunc prop_plugins];
      rewrite ?orDefault_twice by discriminate;
      rewrite ?Hh', ?Hp', ?Ht, ?Hf; reflexivity
  end.
  split.
  - apply registerTemplate_throws. unfold wellFormedRegistration, wellFormedTemplate.
    cbn. apply andb_false_r.
  - split; reflexivity.
Qed.

Lemma builtin_templates_pass_validation_witness :
  (exists s', registerTemplate (VString "code")
     (Some (templates_Prism 7 (VFunction 3) (VArray [VPlugin 1]) VUndefined)) codeInput
     = Return tt s') /\
  (exists s', registerTemplate (VString "code")
     (Some (templates_Hljs 7 8 (VArray [VPlugin 1]) VUndefined)) codeInput = Return tt s') /\
  (exists s', registerTemplate (VString "code")
     (Some (templates_prism 7 (VFunction 3) (VArray [VPlugin 1]))) codeInput = Return tt s') /\
  (exists s', registerTemplate (VString "code")
     (Some (templates_hljs 7 8 (VArray [VPlugin 1]))) codeInput = Return tt s') /\
  (exists s', registerTemplate (VString "code")
     (Some (templates_custom 7 (VFunction 3) VUndefined VUndefined VUndefined
              (VArray [VPlugin 1]))) codeInput
     = Return tt s') /\
  (exists s', registerTemplate (VString "code")
     (Some (templates_rainbow_text 8 (VArray [VPlugin 1]))) codeInput = Return tt s') /\
  (exists s', registerTemplate (VString "code")
     (Some (templates_character_limit 8)) codeInput = Return tt s') /\
  registerTemplate (VString "code") (Some (templates_characterLimit 8 VUndefined)) codeInput
    = Throw TypeError codeInput /\
  toBoolean (prop_preElementStyled
    (templates_Prism 7 (VFunction 3) (VArray [VPlugin 1]) VUndefined)) = true /\
  toBoolean (prop_preElementStyled (templates_Hljs 7 8 (VArray [VPlugin 1]) VUndefined)) = false.
Proof.
  apply (builtin_templates_pass_validation 7 8 (VFunction 3) (VArray [VPlugin 1]) VUndefined
           (VString "code") codeInput).
  - reflexivity.
  - right. reflexivity.
  - right. reflexivity.
  - left. reflexivity.
Defined.
(** ** [setup] on an element that has not been set up *)

Lemma setup_built (i : InstId) (s : State) (t : Template) :
  textareaElement (elem s i) = None ->
  template (elem s i) = Some t ->
  setup i s =
  (dispatchEvent i "code-input_load" ;;
   set_value i (Some (initialText (elem s i))) ;;
   animateFrame i ;;
   log (ResizeObserve i)) (built i t s).
Proof.
  intros Hta Ht. unfold setup. mstep. rewrite Hta. mnorm. mstep. rewrite Ht.
  destruct (preElementStyled t) eqn:Hstyled; mnorm; repeat mstep.
  all: erewrite (bind_Return (pluginEvt _ _ _)) by (apply pluginEvt_run; mnorm; reflexivity).
  all: mnorm; repeat mstep.
  all: unfold addEventListener at 1, addEventListener_body at 1.
  all: repeat mstep.
  all: change (Str.includes textareaSyncEvents "mousedown") with false; cbv iota.
  all: repeat mstep.
  all: erewrite (bind_Return (pluginEvt _ _ _)) by (apply pluginEvt_run; mnorm; reflexivity).
  all: mnorm; repeat mstep.
  all: unfold built, builtElement, initialText, requestedLanguage, createdAttributes,
         effectiveAttributes.
  all: rewrite Hstyled, <- ?app_assoc; cbn [app default].
  all: reflexivity.
Qed.
Lemma handlerStep_refl (i : InstId) (s : State) : handlerStep i s s.
Proof. unfold handlerStep. repeat split; eauto. Qed.

Lemma handlerStep_trans (i : InstId) (s1 s2 s3 : State) :
  handlerStep i s1 s2 -> handlerStep i s2 s3 -> handlerStep i s1 s3.
Proof.
  unfold handlerStep.
  intros (A1 & A2 & A3 & A4 & A5 & A6 & A7 & A8 & A9 & A10)
         (B1 & B2 & B3 & B4 & B5 & B6 & B7 & B8 & B9 & B10).
  do 7 (split; [congruence|]). split; [|split].
  - intros tok Htok. by rewrite B8, A8.
  - intros ta Hta. destruct (A9 ta Hta) as (ta' & Hta' & Hv & Ha).
    destruct (B9 ta' Hta') as (ta'' & Hta'' & Hv' & Ha').
    exists ta''. split; [exact Hta''|]. split; congruence.
  - intros j. by rewrite B10, A10.
Qed.

Lemma highlightPasses_snoc_other (j : InstId) (tr : list Event) (ev : Event) :
  isHighlightOf j ev = false -> highlightPasses j (tr ++ [ev]) = highlightPasses j tr.
Proof.
  intros H. rewrite highlightPasses_app. unfold highlightPasses at 2.
  cbn [List.filter]. rewrite H. cbn. lia.
Qed.

(** Closing a [handlerStep] goal on an explicit state. *)
Ltac handler_done :=
  unfold handlerStep; mred;
  repeat match goal with |- _ /\ _ => split end;
  try reflexivity;
  try (intros ? ?; first [ apply contains_add_other | apply contains_remove_other ];
       congruence);
  try (intros ? ?; reflexivity);
  try (intros ? ?; eexists; split; [first [eassumption | reflexivity]|];
       split; simpl; congruence);
  try (intros ?; apply highlightPasses_snoc_other; reflexivity).

Lemma callFn_handler (i : InstId) (type : string) (f : Fn) (s : State) :
  handlerStep i s (finalState (callFn i type f s)).
Proof.
  destruct f as [id [l | | remove type' cb options] | id | id]; cbn [callFn callListener].
  - destruct (listenerKind l); mred; handler_done.
  - mred. handler_done.
  - mred. destruct (textareaElement (elem s i)) as [ta|] eqn:Hta; mred.
    + destruct remove; [|destruct cb];
        unfold textarea_removeEventListener, textarea_addEventListener; mred; handler_done.
    + apply handlerStep_refl.
  - mred. handler_done.
  - unfold get_value. mred. destruct (textareaElement (elem s i)) as [ta|] eqn:Hta; mred.
    + erewrite set_value_run by eassumption. handler_done.
    + apply handlerStep_refl.
Qed.

Lemma dispatch_handler (i : InstId) (type : string) (ls : list EventListener) :
  forall s,
    handlerStep i s
      (finalState (forEach ls (fun e => reported (callFn i type (callback e))) s)).
Proof.
  induction ls as [|e ls IH]; intros s.
  - apply handlerStep_refl.
  - cbn [forEach]. unfold bind at 1, reported at 1.
    eapply handlerStep_trans; [apply callFn_handler | apply IH].
Qed.
Lemma highlightPasses_other (i : InstId) (tr : list Event) (evs : list Event) :
  forallb (fun ev => negb (isHighlightOf i ev)) evs = true ->
  highlightPasses i (tr ++ evs) = highlightPasses i tr.
Proof.
  intros H. rewrite highlightPasses_app. unfold highlightPasses at 2.
  induction evs as [|ev evs IH]; [cbn; lia|]. cbn [forallb] in H.
  apply andb_true_iff in H as [Hev Hevs]. cbn [List.filter].
  apply negb_true_iff in Hev. rewrite Hev. by apply IH.
Qed.

Lemma setup_first (i : InstId) (s : State) (t : Template) :
  textareaElement (elem s i) = None ->
  template (elem s i) = Some t ->
  exists s' ta,
    setup i s = Return tt s' /\
    textareaElement (elem s' i) = Some ta /\
    ta_value ta = initialText (elem s i) /\
    ta_attributes ta =
      syncedAttributes (<["tabindex" := "-1"]> (effectiveAttributes (elem s i)))
      ∪ createdAttributes (elem s i) /\
    attributes (elem s' i) = <["tabindex" := "-1"]> (effectiveAttributes (elem s i)) /\
    template (elem s' i) = Some t /\
    initialValue (elem s' i) = Some (initialText (elem s i)) /\
    codeElement (elem s' i) =
      Some (mkElement (languageClasses t (requestedLanguage (elem s i)))
              (escapeHtml (initialText (elem s i) +:+ newline))) /\
    preElement (elem s' i) = Some (mkElement [] "") /\
    needsHighlight (elem s' i) = false /\
    innerHTML (elem s' i) = "" /\
    fallbackTextarea (elem s' i) = None /\
    mutationObserver (elem s' i) = mutationObserver (elem s i) /\
    isConnected (elem s' i) = isConnected (elem s i) /\
    (forall tok, tok <> "code-input_mouse-focused" ->
       ClassList.contains (classList (elem s' i)) tok =
       ClassList.contains (classList (builtElement t (nextFn s) (elem s i))) tok) /\
    highlightPasses i (trace s') = S (highlightPasses i (trace s)).
Proof.
  intros Hta Ht. rewrite (setup_built i s t Hta Ht).
  unfold dispatchEvent. rewrite !bind_bind, bind_this.
  match goal with
  | |- context [bind (forEach ?ls ?body) _ ?st] =>
      destruct (dispatch_local i "code-input_load" ls st) as (s1 & Hd & Hl);
      pose proof (dispatch_handler i "code-input_load" ls st) as Hh
  end.
  rewrite Hd in Hh. cbn [finalState] in Hh.
  rewrite (bind_Return _ _ _ _ _ Hd). clear Hd.
  destruct Hl as (L1 & L2 & L3 & L4 & L5 & L6 & L7 & L8 & L9 & L10 & L11).
  destruct Hh as (H1 & H2 & H3 & H4 & H5 & H6 & H7 & H8 & H9 & H10).
  unfold built in L6, L7, L8, L9, L10, H1, H2, H3, H4, H8, H9, H10.
  rewrite elem_mk_eq in L6, L7, L8, L9, L10, H1, H2, H3, H4, H8, H9.
  cbn [trace] in H10.
  unfold builtElement in L6, L7, L8, L9, L10, H1, H2, H3, H4, H9.
  mproj_in L6; mproj_in L7; mproj_in L8; mproj_in L9; mproj_in L10;
  mproj_in H1; mproj_in H2; mproj_in H3; mproj_in H4; mproj_in H9.
  destruct (H9 _ eq_refl) as (ta1 & Hta1 & Hv1 & Ha1). mproj_in Hv1. mproj_in Ha1.
  erewrite (bind_Return (set_value _ _)) by (eapply set_value_run; exact Hta1).
  erewrite (bind_Return (animateFrame _)) by
    (eapply animateFrame_run; mnorm; rewrite ?L8, ?L9, ?L10; reflexivity).
  unfold log, modify. mnorm.
  eexists. eexists. split; [reflexivity|]. mnorm. simpl default.
  split; [reflexivity|]. mproj.
  split; [reflexivity|]. split; [exact Ha1|]. split; [exact L6|]. split; [exact L8|].
  split; [exact H1|]. split; [reflexivity|]. split; [exact L10|]. split; [reflexivity|].
  split; [exact H2|]. split; [exact L7|]. split; [exact H4|]. split; [exact H3|].
  split; [exact H8|].
  rewrite !highlightPasses_app, H10, highlightPasses_pass.
  rewrite !highlightPasses_app, !highlightPasses_plugins. cbn. lia.
Qed.
(** ** The first [connectedCallback] of an element whose template is registered *)

Lemma connectedCallback_first (i : InstId) (s : State) (t : Template) :
  textareaElement (elem s i) = None ->
  usedTemplates s !! requestedKey s i = Some t ->
  exists s' ta,
    connectedCallback i s = Return tt s' /\
    textareaElement (elem s' i) = Some ta /\
    ta_value ta = initialText (elem s i) /\
    ta_attributes ta =
      syncedAttributes (<["tabindex" := "-1"]> (effectiveAttributes (elem s i)))
      ∪ createdAttributes (elem s i) /\
    attributes (elem s' i) = <["tabindex" := "-1"]> (effectiveAttributes (elem s i)) /\
    template (elem s' i) = Some t /\
    initialValue (elem s' i) = Some (initialText (elem s i)) /\
    codeElement (elem s' i) =
      Some (mkElement (languageClasses t (requestedLanguage (elem s i)))
              (escapeHtml (initialText (elem s i) +:+ newline))) /\
    preElement (elem s' i) = Some (mkElement [] "") /\
    needsHighlight (elem s' i) = false /\
    innerHTML (elem s' i) = "" /\
    fallbackTextarea (elem s' i) = None /\
    mutationObserver (elem s' i) = true /\
    isConnected (elem s' i) = isConnected (elem s i) /\
    ClassList.contains (classList (elem s' i)) "code-input_registered" = true /\
    ClassList.contains (classList (elem s' i)) "code-input_loaded" = true /\
    (preElementStyled t = true ->
     ClassList.contains (classList (elem s' i)) "code-input_pre-element-styled" = true) /\
    highlightPasses i (trace s') = S (highlightPasses i (trace s)).
Proof.
  intros Hta Hlook.
  unfold connectedCallback, getTemplate. rewrite !bind_bind. mstep.
  unfold requestedKey in Hlook.
  rewrite bind_bind. unfold gets at 1. unfold bind at 1. mnorm.
  rewrite bind_bind. unfold gets at 1. unfold bind at 1. mnorm.
  rewrite Hlook. repeat mstep.
  match goal with
  | |- context [bind (setup i) _ ?st] =>
      destruct (setup_first i st t) as (s1 & ta & Hs & F);
        [mnorm; exact Hta | mnorm; reflexivity |]
  end.
  rewrite (bind_Return _ _ _ _ _ Hs). clear Hs.
  rewrite elem_mk_eq in F. unfold initialText, requestedLanguage, createdAttributes,
    effectiveAttributes, builtElement in F. mproj_in F.
  fold (effectiveAttributes (elem s i)) in F.
  fold (requestedLanguage (elem s i)) in F.
  fold (createdAttributes (elem s i)) in F.
  fold (initialText (elem s i)) in F.
  destruct F as (F1 & F2 & F3 & F4 & F5 & F6 & F7 & F8 & F9 & F10 & F11 & F12 & F13 & F14 & F15).
  repeat mstep. eexists. exists ta. split; [reflexivity|]. mnorm.
  split; [exact F1|]. split; [exact F2|]. split; [exact F3|]. split; [exact F4|].
  split; [exact F5|]. split; [exact F6|]. split; [exact F7|]. split; [exact F8|].
  split; [exact F9|]. split; [exact F10|]. split; [exact F11|]. split; [reflexivity|].
  split; [exact F13|].
  split.
  { rewrite contains_add_other by discriminate. rewrite F14 by discriminate.
    destruct (preElementStyled t); unfold id;
      rewrite ?(contains_add_other "code-input_pre-element-styled") by discriminate;
      apply contains_add_same. }
  split; [apply contains_add_same|].
  split.
  { intros Hst. rewrite contains_add_other by discriminate. rewrite F14 by discriminate.
    rewrite Hst. apply contains_add_same. }
  rewrite highlightPasses_snoc_other by reflexivity. exact F15.
Qed.
Lemma syncs_not_tabindex (name : string) : syncsToTextarea name = true -> name <> "tabindex".
Proof. intros H ->. discriminate H. Qed.

Lemma connectedCallback_again (i : InstId) (s : State) (ta : Textarea) (t : Template) :
  textareaElement (elem s i) = Some ta ->
  usedTemplates s !! requestedKey s i = Some t ->
  connectedCallback i s =
  Return tt
    (set_trace (trace s ++ [MutationObserve i])
       (set_heap
          (<[i := set_mutationObserver true
                    (set_classList
                       (ClassList.add "code-input_loaded"
                          (ClassList.add "code-input_registered" (classList (elem s i))))
                       (set_template (Some t) (elem s i)))]> (heap s)) s)).
Proof.
  intros Hta Hlook.
  unfold connectedCallback, getTemplate. rewrite !bind_bind. mstep.
  unfold requestedKey in Hlook.
  rewrite bind_bind. unfold gets at 1. unfold bind at 1. mnorm.
  rewrite bind_bind. unfold gets at 1. unfold bind at 1. mnorm.
  rewrite Hlook. repeat mstep.
  unfold setup. repeat mstep. rewrite Hta. repeat mstep.
  unfold log, modify. mnorm. reflexivity.
Qed.

(** X11. [setup] runs once: when [connectedCallback] runs again on an
    element that is set up, it looks the template up again, adds the two
    classes and starts a new mutation observer, and nothing else -- the
    textarea with its text, the [pre] and [code] elements and
    [needsHighlight] are as before, and no hook, no load event and no
    highlight pass occurs. *)
Theorem reattach_keeps_the_built_element (i : InstId) (s : State) (ta : Textarea)
    (t : Template) :
  textareaElement (elem s i) = Some ta ->
  usedTemplates s !! requestedKey s i = Some t ->
  connectedCallback i s =
  Return tt
    (set_trace (trace s ++ [MutationObserve i])
       (set_heap
          (<[i := set_mutationObserver true
                    (set_classList
                       (ClassList.add "code-input_loaded"
                          (ClassList.add "code-input_registered" (classList (elem s i))))
                       (set_template (Some t) (elem s i)))]> (heap s)) s)) /\
  (forall s', connectedCallback i s = Return tt s' ->
     textareaElement (elem s' i) = Some ta /\
     codeElement (elem s' i) = codeElement (elem s i) /\
     preElement (elem s' i) = preElement (elem s i) /\
     needsHighlight (elem s' i) = needsHighlight (elem s i) /\
     highlightPasses i (trace s') = highlightPasses i (trace s)).
Proof.
  intros Hta Hlook. rewrite (connectedCallback_again i s ta t Hta Hlook).
  split; [reflexivity|]. intros s' [= <-]. mred.
  repeat split; try assumption.
  by apply highlightPasses_snoc_other.
Qed.

Lemma reattach_keeps_the_built_element_witness :
  exists ta t,
    textareaElement (elem pythonPage 0) = Some ta /\
    usedTemplates pythonPage !! requestedKey pythonPage 0 = Some t /\
    connectedCallback 0 pythonPage =
    Return tt
      (set_trace (trace pythonPage ++ [MutationObserve 0])
         (set_heap
            (<[0 := set_mutationObserver true
                      (set_classList
                         (ClassList.add "code-input_loaded"
                            (ClassList.add "code-input_registered"
                               (classList (elem pythonPage 0))))
                         (set_template (Some t) (elem pythonPage 0)))]> (heap pythonPage))
            pythonPage)) /\
    (forall s', connectedCallback 0 pythonPage = Return tt s' ->
       textareaElement (elem s' 0) = Some ta /\
       codeElement (elem s' 0) = codeElement (elem pythonPage 0) /\
       preElement (elem s' 0) = preElement (elem pythonPage 0) /\
       needsHighlight (elem s' 0) = needsHighlight (elem pythonPage 0) /\
       highlightPasses 0 (trace s') = highlightPasses 0 (trace pythonPage)).
Proof.
  eexists. eexists.
  split; [vm_compute; reflexivity|]. split; [vm_compute; reflexivity|].
  eapply reattach_keeps_the_built_element; vm_compute; reflexivity.
Defined.

(** ** Form reset *)

Lemma mutate_keeps_initialValue (i : InstId) (s0 s : State) (m : Mutation) :
  frameInv i s0 s -> keepsTemplate s0 m = true ->
  initialValue (elem (finalState (mutate i m s)) i) = initialValue (elem s i).
Proof.
  intros (Hr & Hc & Hu & Hd) Hk. inv_ready Hr.
  destruct m as [val | name old new]; cbn [mutate].
  - erewrite set_value_run by eassumption. mred. reflexivity.
  - unfold attributeChangedCallback. mred. rewrite Hc.
    erewrite pluginEvt_run by eassumption. mred.
    destruct (String.eqb name "value") eqn:Ev.
    { erewrite set_value_run by (mred; eassumption). mred. reflexivity. }
    destruct (String.eqb name "template") eqn:Et.
    { cbn [keepsTemplate] in Hk. rewrite Et in Hk. apply bool_decide_eq_true in Hk.
      mred. rewrite Hu, Hd. destruct Hk as [t' Ht']. rewrite Ht'. mred.
      destruct (preElementStyled t'); mred; rewrite ?insert_insert_eq; mred; reflexivity. }
    destruct (String.eqb name "lang" || String.eqb name "language") eqn:El.
    { erewrite languageChanged_run by (mred; eassumption).
      destruct (languageApplied code new); mred; reflexivity. }
    destruct (syncsToTextarea name) eqn:Es.
    { mred. rewrite Hta. mred. reflexivity. }
    cbv [textareaSyncAttributes_regexp]. mred. reflexivity.
Qed.

Lemma mutations_keep_initialValue (i : InstId) (s0 : State) (ms : list Mutation) :
  forall s,
    frameInv i s0 s -> forallb (keepsTemplate s0) ms = true ->
    initialValue (elem (finalState (mutations i ms s)) i) = initialValue (elem s i).
Proof.
  induction ms as [|m ms IH]; intros s Hinv Hall; cbn [forallb] in *; [reflexivity|].
  apply andb_true_iff in Hall as [Hm Hms].
  destruct (mutate_keeps i s0 s m Hinv Hm) as [Hinv' _].
  unfold mutations in *. cbn [forEach]. unfold bind at 1, reported at 1.
  rewrite (IH _ Hinv' Hms). exact (mutate_keeps_initialValue i s0 s m Hinv Hm).
Qed.

(** X12. [formResetCallback] brings back the text the element was set up
    with: after the first [connectedCallback], whatever values were
    assigned and attributes changed since, a form reset makes [value] the
    initial text again and sets [needsHighlight]. *)
Theorem form_reset_restores_initial_text (i : InstId) (s : State) (t : Template)
    (ms : list Mutation) :
  textareaElement (elem s i) = None ->
  usedTemplates s !! requestedKey s i = Some t ->
  isConnected (elem s i) = true ->
  forallb (keepsTemplate s) ms = true ->
  exists s1 s2 s3,
    connectedCallback i s = Return tt s1 /\
    mutations i ms s1 = Return tt s2 /\
    formResetCallback i s2 = Return tt s3 /\
    get_value i s3 = Return (initialText (elem s i)) s3 /\
    needsHighlight (elem s3 i) = true.
Proof.
  intros Hta Hlook Hc Hall.
  destruct (connectedCallback_first i s t Hta Hlook)
    as (s1 & ta & Hrun & F1 & F2 & F3 & F4 & F5 & F6 & F7 & F8 & F9 & F10 & F11 & F12 & F13 & _).
  destruct (connectedCallback_spec i s) as (s1' & Hrun' & U & D & _).
  rewrite Hrun in Hrun'. injection Hrun' as <-.
  assert (Hinv : frameInv i s s1).
  { unfold frameInv, ready. rewrite F1, F7, F8, F5, F13. eauto 10. }
  destruct (mutations_keep i s ms s1 Hinv Hall) as (s2 & Hms & (Hr2 & _) & _).
  pose proof (mutations_keep_initialValue i s ms s1 Hinv Hall) as Hiv.
  rewrite Hms in Hiv. cbn [finalState] in Hiv. rewrite F6 in Hiv.
  destruct Hr2 as ([ta2 Hta2] & _).
  exists s1, s2. eexists. split; [exact Hrun|]. split; [exact Hms|].
  unfold formResetCallback. rewrite bind_this, Hiv.
  split; [by eapply set_value_run|].
  unfold get_value. mred. split; reflexivity.
Qed.

Lemma form_reset_restores_initial_text_witness :
  exists s1 s2 s3,
    connectedCallback 0 unattachedPage = Return tt s1 /\
    mutations 0 [SetValue (Some "x = 1"); AttributeChanged "rows" (Some "4") (Some "8")] s1
      = Return tt s2 /\
    formResetCallback 0 s2 = Return tt s3 /\
    get_value 0 s3 = Return (initialText (elem unattachedPage 0)) s3 /\
    needsHighlight (elem s3 0) = true.
Proof.
  apply (form_reset_restores_initial_text 0 unattachedPage
           {| highlight := 0; preElementStyled := true; isCode := true;
              includeCodeInputInHighlightFunc := false; plugins := [1] |}).
  - vm_compute. reflexivity.
  - vm_compute. reflexivity.
  - vm_compute. reflexivity.
  - reflexivity.
Defined.
(** ** More on [attributeChangedCallback] *)

Lemma observer_passes_first (i : InstId) (l : list MutationRecord) (s : State) :
  mutationObserverCallback i l s =
  match firstObserved (observedAttributes s) l with
  | Some m =>
      attributeChangedCallback i (attributeName m) (oldValue m)
        (getAttribute (elem s i) (attributeName m)) s
  | None => Return tt s
  end.
Proof.
  unfold firstObserved. induction l as [|m l IH]; [reflexivity|].
  rewrite mutationObserverCallback_cons. cbn [List.find].
  destruct (String.eqb (mutationType m) "attributes"); cbn [negb andb]; [|exact IH].
  destruct (Str.includes (observedAttributes s) (attributeName m) || Str.is_aria (attributeName m));
    [reflexivity | exact IH].
Qed.

Lemma mirrored_run (i : InstId) (s : State) (name : string) (old new : option string)
    (ta : Textarea) (t : Template) :
  isConnected (elem s i) = true ->
  template (elem s i) = Some t ->
  textareaElement (elem s i) = Some ta ->
  Str.includes ["value"; "template"; "lang"; "language"] name = false ->
  syncsToTextarea name = true ->
  attributeChangedCallback i name old new s =
  Return tt
    (set_heap
       (<[i := set_textareaElement
                 (Some match new with
                       | None => ta_removeAttribute name ta
                       | Some v => ta_setAttribute name v ta
                       end) (elem s i)]> (heap s))
       (set_trace
          (trace s ++ map (fun p => PluginCall p "attributeChanged" i [Some name; old; new])
                          (plugins t)) s)).
Proof.
  intros Hc Ht Hta Hname Hs. unfold Str.includes in Hname. cbn [existsb] in Hname.
  rewrite orb_false_r in Hname.
  apply orb_false_iff in Hname as [Hv Hname]. apply orb_false_iff in Hname as [Htpl Hname].
  apply orb_false_iff in Hname as [Hl1 Hl2].
  unfold attributeChangedCallback. mred. rewrite Hc.
  erewrite pluginEvt_run by eassumption. mred.
  rewrite Hv, Htpl, Hl1, Hl2, Hs. cbn [orb]. mred. rewrite Hta. mred.
  rewrite ?Hc, ?Ht, ?Hta. reflexivity.
Qed.

(** X13. Of a batch of mutation records delivered to a connected, set-up
    element, the first record of an observed attribute or of an [aria-]
    attribute decides: when it names an attribute that is in
    [textareaSyncAttributes] or starts with [aria-] (and is not [value],
    [template], [lang] or [language]), the textarea's attribute of that name
    gets the value the element's attribute has now, or is removed when the
    element no longer has it; the textarea's other attributes, its text and
    its listeners stay, [needsHighlight] is not touched, and the only calls
    are the [attributeChanged] hooks of the plugins.  A batch without such a
    record changes nothing: the change of an attribute of
    [textareaSyncAttributes] that is neither observed nor an [aria-]
    attribute does not reach the textarea. *)
Theorem sync_attribute_is_mirrored (i : InstId) (s : State) (records : list MutationRecord)
    (ta : Textarea) (t : Template) :
  isConnected (elem s i) = true ->
  template (elem s i) = Some t ->
  textareaElement (elem s i) = Some ta ->
  (forall m,
     firstObserved (observedAttributes s) records = Some m ->
     Str.includes ["value"; "template"; "lang"; "language"] (attributeName m) = false ->
     syncsToTextarea (attributeName m) = true ->
     exists s' ta',
       mutationObserverCallback i records s = Return tt s' /\
       textareaElement (elem s' i) = Some ta' /\
       ta_attributes ta' !! attributeName m = getAttribute (elem s i) (attributeName m) /\
       (forall other, other <> attributeName m ->
          ta_attributes ta' !! other = ta_attributes ta !! other) /\
       ta_value ta' = ta_value ta /\
       ta_listeners ta' = ta_listeners ta /\
       needsHighlight (elem s' i) = needsHighlight (elem s i) /\
       trace s' =
         trace s ++
         map (fun p => PluginCall p "attributeChanged" i
                         [Some (attributeName m); oldValue m;
                          getAttribute (elem s i) (attributeName m)])
             (plugins t)) /\
  (firstObserved (observedAttributes s) records = None ->
   mutationObserverCallback i records s = Return tt s).
Proof.
  intros Hc Ht Hta. rewrite observer_passes_first. split.
  - intros m -> Hname Hs.
    rewrite (mirrored_run i s _ _ _ ta t Hc Ht Hta Hname Hs).
    eexists. eexists. split; [reflexivity|]. mred. split; [reflexivity|].
    unfold getAttribute.
    destruct (attributes (elem s i) !! attributeName m) as [v|];
      unfold ta_setAttribute, ta_removeAttribute; mred.
    + split; [apply lookup_insert_eq|].
      split; [intros other Hne; by rewrite lookup_insert_ne|]. auto.
    + split; [apply lookup_delete_eq|].
      split; [intros other Hne; by rewrite lookup_delete_ne|]. auto.
  - intros ->. reflexivity.
Qed.

Lemma sync_attribute_is_mirrored_witness :
  exists ta t,
    textareaElement (elem labelledPage 0) = Some ta /\
    template (elem labelledPage 0) = Some t /\
    (forall m,
       firstObserved (observedAttributes labelledPage)
         [ {| mutationType := "attributes"; attributeName := "rows"; oldValue := None |};
           {| mutationType := "attributes"; attributeName := "aria-label";
              oldValue := None |} ] = Some m ->
       Str.includes ["value"; "template"; "lang"; "language"] (attributeName m) = false ->
       syncsToTextarea (attributeName m) = true ->
       exists s' ta',
         mutationObserverCallback 0
           [ {| mutationType := "attributes"; attributeName := "rows"; oldValue := None |};
             {| mutationType := "attributes"; attributeName := "aria-label";
                oldValue := None |} ] labelledPage = Return tt s' /\
         textareaElement (elem s' 0) = Some ta' /\
         ta_attributes ta' !! attributeName m =
           getAttribute (elem labelledPage 0) (attributeName m) /\
         (forall other, other <> attributeName m ->
            ta_attributes ta' !! other = ta_attributes ta !! other) /\
         ta_value ta' = ta_value ta /\
         ta_listeners ta' = ta_listeners ta /\
         needsHighlight (elem s' 0) = needsHighlight (elem labelledPage 0) /\
         trace s' =
           trace labelledPage ++
           map (fun p => PluginCall p "attributeChanged" 0
                           [Some (attributeName m); oldValue m;
                            getAttribute (elem labelledPage 0) (attributeName m)])
               (plugins t)) /\
    (firstObserved (observedAttributes labelledPage)
       [ {| mutationType := "attributes"; attributeName := "rows"; oldValue := None |};
         {| mutationType := "attributes"; attributeName := "aria-label";
            oldValue := None |} ] = None ->
     mutationObserverCallback 0
       [ {| mutationType := "attributes"; attributeName := "rows"; oldValue := None |};
         {| mutationType := "attributes"; attributeName := "aria-label";
            oldValue := None |} ] labelledPage = Return tt labelledPage).
Proof.
  eexists. eexists.
  split; [vm_compute; reflexivity|]. split; [vm_compute; reflexivity|].
  eapply sync_attribute_is_mirrored; vm_compute; reflexivity.
Defined.

(** On [labelledPage], where no plugin observes [rows]: of the records of
    the two changes the one of [aria-label] is passed on, so that the
    [aria-label] reaches the textarea and [rows] does not; a batch with the
    record of [rows] alone changes nothing. *)
Lemma sync_attribute_example :
  firstObserved (observedAttributes labelledPage)
    [ {| mutationType := "attributes"; attributeName := "rows"; oldValue := None |};
      {| mutationType := "attributes"; attributeName := "aria-label"; oldValue := None |} ]
  = Some {| mutationType := "attributes"; attributeName := "aria-label"; oldValue := None |} /\
  (exists s' ta',
     mutationObserverCallback 0
       [ {| mutationType := "attributes"; attributeName := "rows"; oldValue := None |};
         {| mutationType := "attributes"; attributeName := "aria-label";
            oldValue := None |} ] labelledPage = Return tt s' /\
     textareaElement (elem s' 0) = Some ta' /\
     ta_attributes ta' !! "aria-label" = Some "Editor" /\
     ta_attributes ta' !! "rows" = None) /\
  getAttribute (elem labelledPage 0) "rows" = Some "10" /\
  mutationObserverCallback 0
    [ {| mutationType := "attributes"; attributeName := "rows"; oldValue := None |} ]
    labelledPage = Return tt labelledPage.
Proof.
  split; [vm_compute; reflexivity|].
  split; [eexists; eexists; split; [vm_compute; reflexivity|]; split; [vm_compute; reflexivity|];
          split; vm_compute; reflexivity|].
  split; vm_compute; reflexivity.
Qed.

(** X14. A change of the [template] attribute to a registered name (an
    empty or missing value means the default template) gives the element
    that template, puts or removes the class
    [code-input_pre-element-styled] as the new template says, and sets
    [needsHighlight]; the textarea and the rendering elements are kept,
    and the [attributeChanged] hooks that ran are those of the old
    template. *)
Theorem template_attribute_switches_template (i : InstId) (s : State)
    (old new : option string) (t0 t' : Template) :
  isConnected (elem s i) = true ->
  template (elem s i) = Some t0 ->
  usedTemplates s !! propertyKey (or_else new (defaultTemplate s)) = Some t' ->
  exists s',
    attributeChangedCallback i "template" old new s = Return tt s' /\
    template (elem s' i) = Some t' /\
    needsHighlight (elem s' i) = true /\
    ClassList.contains (classList (elem s' i)) "code-input_pre-element-styled"
      = preElementStyled t' /\
    textareaElement (elem s' i) = textareaElement (elem s i) /\
    codeElement (elem s' i) = codeElement (elem s i) /\
    preElement (elem s' i) = preElement (elem s i) /\
    trace s' =
      trace s ++ map (fun p => PluginCall p "attributeChanged" i [Some "template"; old; new])
                     (plugins t0).
Proof.
  intros Hc Ht Hlook. unfold attributeChangedCallback. mred. rewrite Hc.
  erewrite pluginEvt_run by eassumption.
  change (String.eqb "template" "value") with false.
  change (String.eqb "template" "template") with true. cbv iota.
  mred. rewrite Hlook. mred.
  destruct (preElementStyled t') eqn:Hst; mred; rewrite !insert_insert_eq;
    (eexists; split; [reflexivity|]); mred; repeat split.
  - apply contains_add_same.
  - apply contains_remove_same.
Qed.

Lemma template_attribute_switches_template_witness :
  exists t0 t',
    template (elem pythonPage 0) = Some t0 /\
    usedTemplates pythonPage !! propertyKey (or_else (Some "") (defaultTemplate pythonPage))
      = Some t' /\
    exists s',
      attributeChangedCallback 0 "template" None (Some "") pythonPage = Return tt s' /\
      template (elem s' 0) = Some t' /\
      needsHighlight (elem s' 0) = true /\
      ClassList.contains (classList (elem s' 0)) "code-input_pre-element-styled"
        = preElementStyled t' /\
      textareaElement (elem s' 0) = textareaElement (elem pythonPage 0) /\
      codeElement (elem s' 0) = codeElement (elem pythonPage 0) /\
      preElement (elem s' 0) = preElement (elem pythonPage 0) /\
      trace s' =
        trace pythonPage ++
        map (fun p => PluginCall p "attributeChanged" 0 [Some "template"; None; Some ""])
            (plugins t0).
Proof.
  eexists. eexists.
  split; [vm_compute; reflexivity|]. split; [vm_compute; reflexivity|].
  eapply template_attribute_switches_template; vm_compute; reflexivity.
Defined.

Lemma attributeChangedCallback_no_template (i : InstId) (s : State) (name : string)
    (old new : option string) :
  isConnected (elem s i) = true -> template (elem s i) = None ->
  attributeChangedCallback i name old new s = Throw TypeError s.
Proof.
  intros Hc Ht. unfold attributeChangedCallback, pluginEvt. mred. rewrite Hc, Ht. reflexivity.
Qed.

Lemma animateFrame_no_template (i : InstId) (s : State) (ta : Textarea) (code : Element) :
  textareaElement (elem s i) = Some ta ->
  codeElement (elem s i) = Some code ->
  template (elem s i) = None ->
  needsHighlight (elem s i) = true ->
  animateFrame i s =
  Throw TypeError
    (set_trace (trace s ++ [InnerHTMLSet i (escapeHtml (ta_value ta +:+ newline))])
       (set_heap
          (<[i := set_codeElement
                    (Some (set_el_innerHTML (escapeHtml (ta_value ta +:+ newline)) code))
                    (elem s i)]> (heap s)) s)).
Proof.
  intros Hta Hcode Ht Hn. unfold animateFrame, update, get_value, pluginEvt. mred.
  rewrite Hn. mred. rewrite Hta, Hcode. mred. rewrite Ht.
  rewrite ?Hta, ?Hn, ?Ht. reflexivity.
Qed.

(** X15. A change of the [template] attribute to a name that is not
    registered throws a [TypeError] and leaves the element without a
    template.  From then on every attribute change throws before it does
    anything, and once a value is assigned the next [animateFrame] writes
    the escaped text into the code element and throws, without
    highlighting, with [needsHighlight] still set and without requesting
    another frame. *)
Theorem unregistered_template_attribute_stops_highlighting (i : InstId) (s : State)
    (old new : option string) (t0 : Template) (ta : Textarea) (code : Element) :
  isConnected (elem s i) = true ->
  template (elem s i) = Some t0 ->
  textareaElement (elem s i) = Some ta ->
  codeElement (elem s i) = Some code ->
  usedTemplates s !! propertyKey (or_else new (defaultTemplate s)) = None ->
  exists s',
    attributeChangedCallback i "template" old new s = Throw TypeError s' /\
    template (elem s' i) = None /\
    needsHighlight (elem s' i) = needsHighlight (elem s i) /\
    (forall name o n, attributeChangedCallback i name o n s' = Throw TypeError s') /\
    (forall v, exists s2 s3,
       set_value i v s' = Return tt s2 /\
       animateFrame i s2 = Throw TypeError s3 /\
       trace s3 = trace s2 ++ [InnerHTMLSet i (escapeHtml (default "" v +:+ newline))] /\
       needsHighlight (elem s3 i) = true).
Proof.
  intros Hc Ht Hta Hcode Hlook. unfold attributeChangedCallback at 1. mred. rewrite Hc.
  erewrite pluginEvt_run by eassumption.
  change (String.eqb "template" "value") with false.
  change (String.eqb "template" "template") with true. cbv iota.
  mred. rewrite Hlook. mred.
  eexists. split; [reflexivity|]. mred. split; [reflexivity|]. split; [reflexivity|].
  split.
  { intros name o n. apply attributeChangedCallback_no_template; mred; [exact Hc | reflexivity]. }
  intros v. eexists. eexists.
  split; [eapply set_value_run; mred; exact Hta|].
  split; [eapply animateFrame_no_template; mred; first [reflexivity | exact Hcode]|].
  mred. split; reflexivity.
Qed.

Lemma unregistered_template_attribute_stops_highlighting_witness :
  exists t0 ta code,
    template (elem pythonPage 0) = Some t0 /\
    textareaElement (elem pythonPage 0) = Some ta /\
    codeElement (elem pythonPage 0) = Some code /\
    exists s',
      attributeChangedCallback 0 "template" None (Some "missing") pythonPage
        = Throw TypeError s' /\
      template (elem s' 0) = None /\
      needsHighlight (elem s' 0) = needsHighlight (elem pythonPage 0) /\
      (forall name o n, attributeChangedCallback 0 name o n s' = Throw TypeError s') /\
      (forall v, exists s2 s3,
         set_value 0 v s' = Return tt s2 /\
         animateFrame 0 s2 = Throw TypeError s3 /\
         trace s3 = trace s2 ++ [InnerHTMLSet 0 (escapeHtml (default "" v +:+ newline))] /\
         needsHighlight (elem s3 0) = true).
Proof.
  eexists. eexists. eexists.
  split; [vm_compute; reflexivity|]. split; [vm_compute; reflexivity|].
  split; [vm_compute; reflexivity|].
  eapply unregistered_template_attribute_stops_highlighting; vm_compute; reflexivity.
Defined.

(** ** An element whose template is not registered *)

(** X16. An element attached while its template is not registered is put
    at the end of the bucket of the name it asked for and is left without
    template and without textarea; only a mutation observer is started.
    On such an element every attribute change, the [value] getter and
    setter and [formResetCallback] throw a [TypeError], and a listener
    added for a textarea event is not attached to anything yet. *)
Theorem queued_element_rejects_changes (i : InstId) (s : State) :
  textareaElement (elem s i) = None ->
  isConnected (elem s i) = true ->
  usedTemplates s !! requestedKey s i = None ->
  exists s',
    connectedCallback i s = Return tt s' /\
    bucket s' (requestedKey s i) = bucket s (requestedKey s i) ++ [i] /\
    template (elem s' i) = None /\
    textareaElement (elem s' i) = None /\
    classList (elem s' i) = classList (elem s i) /\
    trace s' = trace s ++ [MutationObserve i] /\
    (forall name o n, attributeChangedCallback i name o n s' = Throw TypeError s') /\
    (forall v, set_value i v s' = Throw TypeError s') /\
    get_value i s' = Throw TypeError s' /\
    formResetCallback i s' = Throw TypeError s' /\
    (forall type l o, Str.includes textareaSyncEvents type = true ->
       attachedWrappers (elem (finalState (addEventListener i type (PageListener l) o s')) i)
         type l = []).
Proof.
  intros Hta Hc Hlook.
  unfold connectedCallback, getTemplate. rewrite !bind_bind. mstep.
  unfold requestedKey in Hlook. unfold requestedKey, bucket.
  rewrite bind_bind. unfold gets at 1. unfold bind at 1. mnorm.
  rewrite bind_bind. unfold gets at 1. unfold bind at 1. mnorm.
  rewrite Hlook. unfold modify at 1. unfold bind at 1. mnorm. repeat mstep.
  unfold log, modify. mnorm.
  eexists. split; [reflexivity|]. mnorm.
  split; [by rewrite lookup_insert_eq|].
  split; [reflexivity|]. split; [exact Hta|]. split; [reflexivity|]. split; [reflexivity|].
  split.
  { intros name o n. apply attributeChangedCallback_no_template; mnorm; [exact Hc | reflexivity]. }
  split.
  { intros v. unfold set_value. mred. rewrite Hta. reflexivity. }
  split.
  { unfold get_value. mred. rewrite Hta. reflexivity. }
  split.
  { unfold formResetCallback, set_value. mred. rewrite Hta. reflexivity. }
  intros type l o Hty. unfold addEventListener, addEventListener_body. mred.
  rewrite Hty. mred. rewrite Hta. mred. rewrite !insert_insert_eq. mred.
  change (Str.includes textareaSyncEvents "code-input_load") with false. cbv iota. mred.
  unfold attachedWrappers. mred. rewrite ?Hta. reflexivity.
Qed.

Lemma queued_element_rejects_changes_witness :
  exists s',
    connectedCallback 1 queuedPage = Return tt s' /\
    bucket s' (requestedKey queuedPage 1) = bucket queuedPage (requestedKey queuedPage 1) ++ [1] /\
    template (elem s' 1) = None /\
    textareaElement (elem s' 1) = None /\
    classList (elem s' 1) = classList (elem queuedPage 1) /\
    trace s' = trace queuedPage ++ [MutationObserve 1] /\
    (forall name o n, attributeChangedCallback 1 name o n s' = Throw TypeError s') /\
    (forall v, set_value 1 v s' = Throw TypeError s') /\
    get_value 1 s' = Throw TypeError s' /\
    formResetCallback 1 s' = Throw TypeError s' /\
    (forall type l o, Str.includes textareaSyncEvents type = true ->
       attachedWrappers (elem (finalState (addEventListener 1 type (PageListener l) o s')) 1)
         type l = []).
Proof.
  apply (queued_element_rejects_changes 1 queuedPage); vm_compute; reflexivity.
Defined.
(** ** More on event listeners *)

Lemma fresh_not_same (type : string) (f : Fn) (cap : bool) (ls : list EventListener) :
  freshFn (fnId f) ls = true ->
  existsb (sameListener type f cap) ls = false /\
  List.filter (fun e => negb (sameListener type f cap e)) ls = ls.
Proof.
  unfold freshFn. induction ls as [|e ls IH]; [done|]. cbn [forallb existsb List.filter].
  intros [He Hls]%andb_true_iff. apply negb_true_iff in He.
  destruct (IH Hls) as [IH1 IH2]. unfold sameListener at 1 3. rewrite He, IH1, IH2.
  by rewrite andb_false_r.
Qed.

Lemma sameListener_refl (type : string) (f : Fn) (cap : bool) :
  sameListener type f cap {| evType := type; callback := f; capture := cap |} = true.
Proof.
  unfold sameListener. cbn [evType callback capture].
  by rewrite String.eqb_refl, Nat.eqb_refl, eqb_reflx.
Qed.

(** X17. On a set-up element, [addEventListener] for a textarea event puts
    one bound callback at the end of the textarea's listeners and none on
    the element, and [removeEventListener] with the same arguments right
    after it takes that callback away: the textarea is as before.  (The
    identity of a new function object is not the identity of a listener
    already there.) *)
Theorem add_then_remove_restores_textarea (i : InstId) (s : State) (type : string)
    (l : Listener) (options : option bool) (ta : Textarea) :
  Str.includes textareaSyncEvents type = true ->
  textareaElement (elem s i) = Some ta ->
  freshFn (nextFn s) (ta_listeners ta) = true ->
  exists s1 s2 ta1,
    addEventListener i type (PageListener l) options s = Return tt s1 /\
    textareaElement (elem s1 i) = Some ta1 /\
    ta_listeners ta1 =
      ta_listeners ta ++
      [{| evType := type; callback := Bound (nextFn s) (PageListener l);
          capture := captureOf options |}] /\
    listeners (elem s1 i) = listeners (elem s i) /\
    removeEventListener i type (PageListener l) options s1 = Return tt s2 /\
    textareaElement (elem s2 i) = Some ta /\
    listeners (elem s2 i) = listeners (elem s i).
Proof.
  intros Hty Hta Hfresh.
  destruct (fresh_not_same type (Bound (nextFn s) (PageListener l)) (captureOf options)
              (ta_listeners ta) Hfresh) as [Hex Hfil].
  unfold addEventListener, addEventListener_body. mred. rewrite Hty. mred.
  rewrite Hta. unfold textarea_addEventListener. mred.
  unfold dom_addEventListener. rewrite Hex. rewrite !insert_insert_eq.
  eexists. eexists. eexists. split; [reflexivity|]. mred.
  split; [reflexivity|]. split; [reflexivity|]. split; [reflexivity|].
  unfold removeEventListener. mred. rewrite Hty, lookup_insert_eq.
  unfold textarea_removeEventListener. mred. rewrite insert_insert_eq.
  split; [reflexivity|]. mred.
  unfold dom_removeEventListener. rewrite List.filter_app, Hfil. cbn [List.filter].
  rewrite sameListener_refl. cbn [negb]. rewrite app_nil_r.
  split; [by destruct ta | reflexivity].
Qed.

Lemma add_then_remove_restores_textarea_witness :
  exists ta,
    textareaElement (elem pythonPage 0) = Some ta /\
    exists s1 s2 ta1,
      addEventListener 0 "change" (PageListener handlerA) (Some true) pythonPage
        = Return tt s1 /\
      textareaElement (elem s1 0) = Some ta1 /\
      ta_listeners ta1 =
        ta_listeners ta ++
        [{| evType := "change"; callback := Bound (nextFn pythonPage) (PageListener handlerA);
            capture := captureOf (Some true) |}] /\
      listeners (elem s1 0) = listeners (elem pythonPage 0) /\
      removeEventListener 0 "change" (PageListener handlerA) (Some true) s1 = Return tt s2 /\
      textareaElement (elem s2 0) = Some ta /\
      listeners (elem s2 0) = listeners (elem pythonPage 0).
Proof.
  eexists. split; [vm_compute; reflexivity|].
  eapply add_then_remove_restores_textarea; vm_compute; reflexivity.
Defined.

Lemma no_listener_not_same (type : string) (f : Fn) (cap : bool) (ls : list EventListener) :
  listenersFor type ls = [] -> existsb (sameListener type f cap) ls = false.
Proof.
  unfold listenersFor. induction ls as [|e ls IH]; [done|]. cbn [List.filter existsb].
  unfold sameListener at 1. destruct (String.eqb (evType e) type); [discriminate|].
  intros H. by rewrite (IH H).
Qed.

Lemma listenersFor_add_new (type : string) (f : Fn) (options : option bool)
    (ls : list EventListener) :
  listenersFor type ls = [] ->
  listenersFor type (dom_addEventListener type f options ls) =
  [{| evType := type; callback := f; capture := captureOf options |}].
Proof.
  intros H. unfold dom_addEventListener. rewrite (no_listener_not_same _ _ _ _ H).
  unfold listenersFor in *. rewrite List.filter_app, H. cbn [List.filter evType app].
  by rewrite String.eqb_refl.
Qed.

Lemma listenersFor_add_other (type type' : string) (f : Fn) (options : option bool)
    (ls : list EventListener) :
  String.eqb type' type = false ->
  listenersFor type (dom_addEventListener type' f options ls) = listenersFor type ls.
Proof.
  intros H. unfold dom_addEventListener.
  destruct (existsb _ ls); [reflexivity|].
  unfold listenersFor. rewrite List.filter_app. cbn [List.filter evType].
  rewrite H. apply app_nil_r.
Qed.



Lemma elem_built (i : InstId) (t : Template) (s : State) :
  elem (built i t s) i = builtElement t (nextFn s) (elem s i).
Proof. unfold built. apply elem_mk_eq. Qed.

Lemma setup_after_load (i : InstId) (s S1 : State) (t : Template) ta1 code1 pre1 :
  textareaElement (elem s i) = None ->
  template (elem s i) = Some t ->
  dispatchEvent i "code-input_load" (built i t s) = Return tt S1 ->
  textareaElement (elem S1 i) = Some ta1 ->
  codeElement (elem S1 i) = Some code1 ->
  preElement (elem S1 i) = Some pre1 ->
  template (elem S1 i) = Some t ->
  exists s',
    setup i s = Return tt s' /\
    textareaElement (elem s' i) = Some (set_ta_value (initialText (elem s i)) ta1).
Proof.
  intros Hta Ht Hd Hta1 Hcode1 Hpre1 Ht1.
  rewrite (setup_built i s t Hta Ht).
  rewrite (bind_Return _ _ _ _ _ Hd).
  erewrite (bind_Return (set_value _ _)) by (eapply set_value_run; exact Hta1).
  erewrite (bind_Return (animateFrame _)) by
    (eapply animateFrame_run; mnorm; rewrite ?Hcode1, ?Hpre1, ?Ht1; reflexivity).
  unfold log, modify. eexists. split; [reflexivity|]. mnorm. reflexivity.
Qed.

Lemma load_attaches_deferred (i : InstId) (st : State) (type : string) (f : Fn)
    (options : option bool) (k : FunId) (cap : bool) (ta0 : Textarea) :
  textareaElement (elem st i) = Some ta0 ->
  listenersFor "code-input_load" (listeners (elem st i)) =
    [{| evType := "code-input_load";
        callback := Bound k (DeferredArrow false type (Some f) options);
        capture := cap |}] ->
  dispatchEvent i "code-input_load" st =
  Return tt
    (set_heap
       (<[i := set_textareaElement
                 (Some (set_ta_listeners
                          (dom_addEventListener type f options (ta_listeners ta0)) ta0))
                 (elem st i)]> (heap st)) st).
Proof.
  intros Hta Hls. unfold dispatchEvent. rewrite bind_this, Hls.
  cbn [forEach callback callFn callListener]. unfold textarea_addEventListener. mred.
  rewrite Hta. mred. reflexivity.
Qed.

Lemma eqb_succ_l (a n : nat) : a <> n -> Nat.eqb n a = false.
Proof. intros H. apply Nat.eqb_neq. congruence. Qed.

Lemma setup_attaches_deferred (i : InstId) (s : State) (t : Template) (type : string)
    (f : Fn) (options : option bool) (k : FunId) (cap : bool) :
  textareaElement (elem s i) = None ->
  template (elem s i) = Some t ->
  listenersFor "code-input_load" (listeners (elem s i)) =
    [{| evType := "code-input_load";
        callback := Bound k (DeferredArrow false type (Some f) options);
        capture := cap |}] ->
  fnId f <> S (nextFn s) -> fnId f <> S (S (nextFn s)) ->
  exists s' ta,
    setup i s = Return tt s' /\
    textareaElement (elem s' i) = Some ta /\
    ta_listeners ta =
      [ {| evType := "blur"; callback := BlurArrow (S (nextFn s)); capture := false |};
        {| evType := "input"; callback := InputArrow (S (S (nextFn s))); capture := false |};
        {| evType := type; callback := f; capture := captureOf options |} ].
Proof.
  intros Hta Ht Hls Hf1 Hf2.
  assert (Hd := load_attaches_deferred i (built i t s) type f options k cap).
  rewrite elem_built in Hd. specialize (Hd _ eq_refl).
  unfold builtElement at 1 in Hd. cbn [listeners] in Hd.
  rewrite listenersFor_add_other in Hd by reflexivity. specialize (Hd Hls).
  match type of Hd with
  | _ = Return tt ?S1 =>
      edestruct (setup_after_load i s S1 t) as (s' & Hrun & Hres);
        [exact Hta | exact Ht | exact Hd | rewrite elem_set_heap_eq; reflexivity ..|]
  end.
  - exists s'. eexists. split; [exact Hrun|]. split; [exact Hres|].
    cbn [set_ta_value set_ta_listeners ta_listeners ta_value ta_attributes].
    unfold dom_addEventListener. cbn [existsb]. unfold sameListener.
    cbn [evType callback capture fnId].
    by rewrite (eqb_succ_l _ _ Hf1), (eqb_succ_l _ _ Hf2), !andb_false_r.
Qed.

Lemma connectedCallback_attaches_deferred (i : InstId) (s : State) (t : Template)
    (type : string) (f : Fn) (options : option bool) (k : FunId) (cap : bool) :
  textareaElement (elem s i) = None ->
  usedTemplates s !! requestedKey s i = Some t ->
  listenersFor "code-input_load" (listeners (elem s i)) =
    [{| evType := "code-input_load";
        callback := Bound k (DeferredArrow false type (Some f) options);
        capture := cap |}] ->
  fnId f <> S (nextFn s) -> fnId f <> S (S (nextFn s)) ->
  exists s' ta,
    connectedCallback i s = Return tt s' /\
    textareaElement (elem s' i) = Some ta /\
    ta_listeners ta =
      [ {| evType := "blur"; callback := BlurArrow (S (nextFn s)); capture := false |};
        {| evType := "input"; callback := InputArrow (S (S (nextFn s))); capture := false |};
        {| evType := type; callback := f; capture := captureOf options |} ].
Proof.
  intros Hta Hlook Hls Hf1 Hf2.
  unfold connectedCallback, getTemplate. rewrite !bind_bind. mstep.
  unfold requestedKey in Hlook.
  rewrite bind_bind. unfold gets at 1. unfold bind at 1. mnorm.
  rewrite bind_bind. unfold gets at 1. unfold bind at 1. mnorm.
  rewrite Hlook. repeat mstep.
  match goal with
  | |- context [bind (setup i) _ ?st] =>
      destruct (setup_attaches_deferred i st t type f options k cap)
        as (s1 & ta & Hs & Hta1 & Hl1);
        [mnorm; exact Hta | mnorm; reflexivity | mnorm; exact Hls
        | exact Hf1 | exact Hf2 |]
  end.
  rewrite (bind_Return _ _ _ _ _ Hs). clear Hs. cbn [nextFn] in Hl1.
  repeat mstep. unfold log, modify. mnorm.
  eexists. exists ta. split; [reflexivity|]. mnorm. split; [exact Hta1 | exact Hl1].
Qed.

Lemma addEventListener_deferred (i : InstId) (s : State) (type : string)
    (listener : ListenerArg) (options : option bool) :
  Str.includes textareaSyncEvents type = true ->
  textareaElement (elem s i) = None ->
  addEventListener i type listener options s =
  Return tt
    (set_heap
       (<[i := set_listeners
                 (dom_addEventListener "code-input_load"
                    (Bound (S (nextFn s))
                       (DeferredArrow false type (Some (Bound (nextFn s) listener)) options))
                    None (listeners (elem s i)))
                 (set_boundEventCallbacks
                    (<[deferredArrowSource false options :=
                         Bound (S (nextFn s))
                           (DeferredArrow false type (Some (Bound (nextFn s) listener)) options)]>
                       (<[listenerKeyOf listener := Bound (nextFn s) listener]>
                          (boundEventCallbacks (elem s i))))
                    (elem s i))]> (heap s))
       (set_nextFn (S (S (nextFn s))) s)).
Proof.
  intros Hty Hta.
  unfold addEventListener, addEventListener_body. mred. rewrite Hty. mred.
  rewrite Hta. mred. rewrite !insert_insert_eq.
  change (Str.includes textareaSyncEvents "code-input_load") with false. cbv iota. mred.
  rewrite !insert_insert_eq, ?Hta. reflexivity.
Qed.

Lemma elem_set_heap_insert (s : State) (h : gmap InstId CodeInput) (i : InstId)
    (c : CodeInput) :
  elem (set_heap (<[i := c]> h) s) i = c.
Proof. unfold elem; simpl. by rewrite lookup_insert_eq. Qed.

(** X19. A listener added for a textarea event before the element is set
    up is kept for later: nothing is attached until [setup] dispatches
    [code-input_load], and after the first [connectedCallback] the
    textarea has, after its own [blur] and [input] listeners, the bound
    callback of that listener with the given options. *)
Theorem listener_added_before_setup_is_attached_at_load (i : InstId) (s : State)
    (type : string) (l : Listener) (options : option bool) (t : Template) :
  Str.includes textareaSyncEvents type = true ->
  textareaElement (elem s i) = None ->
  listenersFor "code-input_load" (listeners (elem s i)) = [] ->
  usedTemplates s !! requestedKey s i = Some t ->
  exists s1 s2 ta,
    addEventListener i type (PageListener l) options s = Return tt s1 /\
    textareaElement (elem s1 i) = None /\
    connectedCallback i s1 = Return tt s2 /\
    textareaElement (elem s2 i) = Some ta /\
    ta_listeners ta =
      [ {| evType := "blur"; callback := BlurArrow (3 + nextFn s); capture := false |};
        {| evType := "input"; callback := InputArrow (4 + nextFn s); capture := false |};
        {| evType := type; callback := Bound (nextFn s) (PageListener l);
           capture := captureOf options |} ].
Proof.
  intros Hty Hta Hnone Hlook.
  rewrite (addEventListener_deferred i s type (PageListener l) options Hty Hta).
  match goal with
  | |- context [Return tt ?S1 = Return tt _] =>
      destruct (connectedCallback_attaches_deferred i S1 t type
                  (Bound (nextFn s) (PageListener l)) options (S (nextFn s)) false)
        as (s2 & ta & Hrun & Hta2 & Hls2)
  end.
  - rewrite elem_set_heap_insert. exact Hta.
  - unfold requestedKey, getAttribute. rewrite elem_set_heap_insert. exact Hlook.
  - rewrite elem_set_heap_insert. cbn [set_listeners listeners].
    apply (listenersFor_add_new _ _ None _ Hnone).
  - cbn. lia.
  - cbn. lia.
  - eexists. exists s2, ta. split; [reflexivity|].
    split; [rewrite elem_set_heap_insert; exact Hta|].
    split; [exact Hrun|]. split; [exact Hta2 | exact Hls2].
Qed.

Lemma listener_added_before_setup_is_attached_at_load_witness :
  exists s1 s2 ta,
    addEventListener 0 "input" (PageListener handlerA) None unattachedPage = Return tt s1 /\
    textareaElement (elem s1 0) = None /\
    connectedCallback 0 s1 = Return tt s2 /\
    textareaElement (elem s2 0) = Some ta /\
    ta_listeners ta =
      [ {| evType := "blur"; callback := BlurArrow (3 + nextFn unattachedPage);
           capture := false |};
        {| evType := "input"; callback := InputArrow (4 + nextFn unattachedPage);
           capture := false |};
        {| evType := "input"; callback := Bound (nextFn unattachedPage) (PageListener handlerA);
           capture := captureOf None |} ].
Proof.
  apply (listener_added_before_setup_is_attached_at_load 0 unattachedPage "input" handlerA None
           {| highlight := 0; preElementStyled := true; isCode := true;
              includeCodeInputInHighlightFunc := false; plugins := [1] |});
    vm_compute; reflexivity.
Defined.
(** ** The first [connectedCallback] when no listener of the page runs *)

Lemma callFn_quiet (i : InstId) (type : string) (f : Fn) (s : State) :
  runsPageCode f = false ->
  trace (finalState (callFn i type f s)) = trace s.
Proof.
  destruct f as [id [l | | remove type' cb options] | id | id];
    cbn [callFn callListener runsPageCode]; intros Hq.
  - discriminate Hq.
  - mred. reflexivity.
  - mred. destruct (textareaElement (elem s i)) as [ta|] eqn:Hta; mred; [|reflexivity].
    destruct remove; [|destruct cb];
      unfold textarea_removeEventListener, textarea_addEventListener; mred; reflexivity.
  - mred. reflexivity.
  - unfold get_value. mred. destruct (textareaElement (elem s i)) as [ta|] eqn:Hta; mred;
      [|reflexivity].
    erewrite set_value_run by eassumption. mred. reflexivity.
Qed.

Lemma dispatch_quiet (i : InstId) (type : string) (ls : list EventListener) :
  libraryOnly ls = true ->
  forall s,
    trace (finalState (forEach ls (fun e => reported (callFn i type (callback e))) s))
    = trace s.
Proof.
  induction ls as [|e ls IH]; intros Hq s; [reflexivity|].
  cbn [libraryOnly forallb] in Hq. apply andb_true_iff in Hq as [He Hq].
  apply negb_true_iff in He.
  cbn [forEach]. unfold bind at 1, reported at 1.
  rewrite (IH Hq). by apply callFn_quiet.
Qed.

Lemma setup_first_calls (i : InstId) (s : State) (t : Template) :
  textareaElement (elem s i) = None ->
  template (elem s i) = Some t ->
  libraryOnly (listenersFor "code-input_load" (listeners (elem s i))) = true ->
  exists s',
    setup i s = Return tt s' /\
    trace s' =
      trace s
      ++ map (fun p => PluginCall p "beforeElementsAdded" i []) (plugins t)
      ++ map (fun p => PluginCall p "afterElementsAdded" i []) (plugins t)
      ++ [LoadEvent i]
      ++ highlightPass i t (initialText (elem s i))
      ++ [RequestAnimationFrame i; ResizeObserve i].
Proof.
  intros Hta Ht Hq. rewrite (setup_built i s t Hta Ht).
  assert (Hq' : libraryOnly
            (listenersFor "code-input_load" (listeners (elem (built i t s) i))) = true).
  { unfold built. rewrite elem_mk_eq. unfold builtElement. mproj.
    rewrite listenersFor_add_other by reflexivity. exact Hq. }
  unfold dispatchEvent. rewrite !bind_bind, bind_this.
  match goal with
  | |- context [bind (forEach ?ls ?body) _ ?st] =>
      destruct (dispatch_local i "code-input_load" ls st) as (s1 & Hd & Hl);
      pose proof (dispatch_handler i "code-input_load" ls st) as Hh;
      pose proof (dispatch_quiet i "code-input_load" ls Hq' st) as Htr
  end.
  rewrite Hd in Hh, Htr. cbn [finalState] in Hh, Htr.
  rewrite (bind_Return _ _ _ _ _ Hd). clear Hd.
  destruct Hl as (L1 & L2 & L3 & L4 & L5 & L6 & L7 & L8 & L9 & L10 & L11).
  destruct Hh as (H1 & H2 & H3 & H4 & H5 & H6 & H7 & H8 & H9 & H10).
  unfold built in L8, L9, L10, H9, Htr.
  rewrite elem_mk_eq in L8, L9, L10, H9.
  cbn [trace] in Htr.
  unfold builtElement in L8, L9, L10, H9.
  mproj_in L8; mproj_in L9; mproj_in L10; mproj_in H9.
  destruct (H9 _ eq_refl) as (ta1 & Hta1 & Hv1 & Ha1). mproj_in Hv1.
  erewrite (bind_Return (set_value _ _)) by (eapply set_value_run; exact Hta1).
  erewrite (bind_Return (animateFrame _)) by
    (eapply animateFrame_run; mnorm; rewrite ?L8, ?L9, ?L10; reflexivity).
  unfold log, modify. mnorm.
  eexists. split; [reflexivity|]. mnorm. simpl default.
  rewrite Htr, <- !app_assoc. reflexivity.
Qed.

Lemma connectedCallback_first_calls (i : InstId) (s : State) (t : Template) :
  textareaElement (elem s i) = None ->
  usedTemplates s !! requestedKey s i = Some t ->
  libraryOnly (listenersFor "code-input_load" (listeners (elem s i))) = true ->
  exists s',
    connectedCallback i s = Return tt s' /\
    trace s' = trace s ++ firstAttachCalls i t (initialText (elem s i)).
Proof.
  intros Hta Hlook Hq.
  unfold connectedCallback, getTemplate. rewrite !bind_bind. mstep.
  unfold requestedKey in Hlook.
  rewrite bind_bind. unfold gets at 1. unfold bind at 1. mnorm.
  rewrite bind_bind. unfold gets at 1. unfold bind at 1. mnorm.
  rewrite Hlook. repeat mstep.
  match goal with
  | |- context [bind (setup i) _ ?st] =>
      destruct (setup_first_calls i st t) as (s1 & Hs & Htr);
        [mnorm; exact Hta | mnorm; reflexivity | mnorm; exact Hq |]
  end.
  rewrite (bind_Return _ _ _ _ _ Hs). clear Hs.
  rewrite elem_mk_eq in Htr. unfold initialText, effectiveAttributes in Htr. mproj_in Htr.
  fold (effectiveAttributes (elem s i)) in Htr.
  fold (initialText (elem s i)) in Htr.
  repeat mstep. eexists. split; [reflexivity|]. mnorm.
  rewrite Htr. unfold firstAttachCalls, highlightPass. rewrite escapeHtml_chars.
  rewrite <- !app_assoc. reflexivity.
Qed.

(** X9. The first [connectedCallback] of an element whose template is
    registered, when no listener of the page is attached for
    [code-input_load], sets the element up and renders it at once: the calls
    that leave the library are, in this order, the [beforeElementsAdded]
    and [afterElementsAdded] hooks, the load event, one highlight pass --
    the initial text followed by a line feed, with [&] and [<] escaped, is
    assigned to the content of the code element, then come the
    [beforeHighlight] hooks, the highlight function, the size
    synchronisation and the [afterHighlight] hooks -- and the requests for
    the next frame, for resize and for mutation observation.  The initial
    text is the value of the fallback textarea, else the unescaped content
    of the element, else the [value] attribute, else the empty text; the
    textarea and [initialValue] hold it, [needsHighlight] is unset, and the
    element has the classes [code-input_registered] and [code-input_loaded]
    (and [code-input_pre-element-styled] when the template styles the [pre]
    element). *)
Theorem first_attach_renders_initial_text (i : InstId) (s : State) (t : Template) :
  textareaElement (elem s i) = None ->
  usedTemplates s !! requestedKey s i = Some t ->
  libraryOnly (listenersFor "code-input_load" (listeners (elem s i))) = true ->
  exists s' ta,
    connectedCallback i s = Return tt s' /\
    trace s' = trace s ++ firstAttachCalls i t (initialText (elem s i)) /\
    highlightPasses i (trace s') = S (highlightPasses i (trace s)) /\
    template (elem s' i) = Some t /\
    textareaElement (elem s' i) = Some ta /\
    ta_value ta = initialText (elem s i) /\
    initialValue (elem s' i) = Some (initialText (elem s i)) /\
    needsHighlight (elem s' i) = false /\
    ClassList.contains (classList (elem s' i)) "code-input_registered" = true /\
    ClassList.contains (classList (elem s' i)) "code-input_loaded" = true /\
    ClassList.contains (classList (elem s' i)) "code-input_pre-element-styled"
      || negb (preElementStyled t) = true.
Proof.
  intros Hta Hlook Hq.
  destruct (connectedCallback_first i s t Hta Hlook)
    as (s' & ta & Hrun & F1 & F2 & F3 & F4 & F5 & F6 & F7 & F8 & F9 & F10 & F11 & F12 & F13
        & F14 & F15 & F16 & F17).
  destruct (connectedCallback_first_calls i s t Hta Hlook Hq) as (s'' & Hrun' & Htr).
  rewrite Hrun in Hrun'. injection Hrun' as <-.
  exists s', ta. split; [exact Hrun|]. split; [exact Htr|]. split; [exact F17|].
  split; [exact F5|]. split; [exact F1|]. split; [exact F2|]. split; [exact F6|].
  split; [exact F9|]. split; [exact F14|]. split; [exact F15|].
  destruct (preElementStyled t); [by rewrite F16 | apply orb_true_r].
Qed.

Lemma first_attach_renders_initial_text_witness :
  exists s' ta,
    connectedCallback 0 unattachedPage = Return tt s' /\
    trace s' =
      trace unattachedPage ++
      firstAttachCalls 0
        {| highlight := 0; preElementStyled := true; isCode := true;
           includeCodeInputInHighlightFunc := false; plugins := [1] |}
        (initialText (elem unattachedPage 0)) /\
    highlightPasses 0 (trace s') = S (highlightPasses 0 (trace unattachedPage)) /\
    template (elem s' 0) =
      Some {| highlight := 0; preElementStyled := true; isCode := true;
              includeCodeInputInHighlightFunc := false; plugins := [1] |} /\
    textareaElement (elem s' 0) = Some ta /\
    ta_value ta = initialText (elem unattachedPage 0) /\
    initialValue (elem s' 0) = Some (initialText (elem unattachedPage 0)) /\
    needsHighlight (elem s' 0) = false /\
    ClassList.contains (classList (elem s' 0)) "code-input_registered" = true /\
    ClassList.contains (classList (elem s' 0)) "code-input_loaded" = true /\
    ClassList.contains (classList (elem s' 0)) "code-input_pre-element-styled"
      || negb true = true.
Proof.
  apply (first_attach_renders_initial_text 0 unattachedPage
           {| highlight := 0; preElementStyled := true; isCode := true;
              includeCodeInputInHighlightFunc := false; plugins := [1] |}).
  - vm_compute. reflexivity.
  - vm_compute. reflexivity.
  - vm_compute. reflexivity.
Defined.

(** The example: the text content [if (a &lt; b) return;] is unescaped
    into the textarea, and the highlight pass writes it escaped again, with
    a line feed after it. *)
Lemma first_attach_example :
  initialText (elem unattachedPage 0) = "if (a < b) return;" /\
  trace (finalState (connectedCallback 0 unattachedPage)) =
    trace unattachedPage ++
    [ PluginCall 1 "beforeElementsAdded" 0 [];
      PluginCall 1 "afterElementsAdded" 0 [];
      LoadEvent 0;
      InnerHTMLSet 0 (String.append "if (a &lt; b) return;" (String "010"%char EmptyString));
      PluginCall 1 "beforeHighlight" 0 [];
      HighlightCall 0 0 false;
      SyncSize 0 true;
      PluginCall 1 "afterHighlight" 0 [];
      RequestAnimationFrame 0;
      ResizeObserve 0;
      MutationObserve 0 ].
Proof. split; vm_compute; reflexivity. Qed.

(** X10. In that first set-up the textarea receives every attribute of
    the element -- the attributes of the fallback textarea that the element
    lacks included, its own winning -- that is in [textareaSyncAttributes]
    or starts with [aria-], the [tabindex] the element had (or [0]),
    [spellcheck="false"] unless the element says otherwise, and as
    placeholder the [placeholder] attribute or else the language; apart
    from [style], which the size synchronisation writes, it has no other
    attribute.  The element itself has [tabindex="-1"] and, apart from
    [class] and [style], otherwise its own attributes and those of the
    fallback textarea that it lacked. *)
Theorem setup_synchronises_attributes (i : InstId) (s : State) (t : Template) :
  textareaElement (elem s i) = None ->
  usedTemplates s !! requestedKey s i = Some t ->
  libraryOnly (listenersFor "code-input_load" (listeners (elem s i))) = true ->
  exists s' ta,
    connectedCallback i s = Return tt s' /\
    textareaElement (elem s' i) = Some ta /\
    attributes (elem s' i) !! "tabindex" = Some "-1" /\
    (forall name, name <> "tabindex" -> name <> "class" -> name <> "style" ->
       attributes (elem s' i) !! name = effectiveAttributes (elem s i) !! name) /\
    (forall name, is_Some (attributes (elem s i) !! name) ->
       effectiveAttributes (elem s i) !! name = attributes (elem s i) !! name) /\
    (forall name, syncsToTextarea name = true ->
       is_Some (effectiveAttributes (elem s i) !! name) ->
       ta_attributes ta !! name = effectiveAttributes (elem s i) !! name) /\
    ta_attributes ta !! "tabindex" =
      Some (default "0" (or_else (effectiveAttributes (elem s i) !! "tabindex") (Some "0"))) /\
    (effectiveAttributes (elem s i) !! "spellcheck" = None ->
     ta_attributes ta !! "spellcheck" = Some "false") /\
    ta_placeholder ta =
      match effectiveAttributes (elem s i) !! "placeholder" with
      | Some p => p
      | None => default "" (or_else (requestedLanguage (elem s i)) (Some ""))
      end /\
    (forall name, syncsToTextarea name = false -> name <> "tabindex" -> name <> "style" ->
       ta_attributes ta !! name = None).
Proof.
  intros Hta Hlook _.
  destruct (connectedCallback_first i s t Hta Hlook)
    as (s' & ta & Hrun & F1 & F2 & F3 & F4 & _).
  exists s', ta. split; [exact Hrun|]. split; [exact F1|].
  split; [rewrite F4; apply lookup_insert_eq|].
  split; [intros name Hne _ _; rewrite F4; by apply lookup_insert_ne, not_eq_sym|].
  rewrite F3. unfold ta_placeholder. rewrite F3. clear.
  set (attrs := effectiveAttributes (elem s i)).
  assert (Hsync : forall name, syncsToTextarea name = true ->
            syncedAttributes (<["tabindex" := "-1"]> attrs) !! name = attrs !! name).
  { intros name Hs. unfold syncedAttributes.
    destruct (attrs !! name) as [v|] eqn:E.
    - apply map_lookup_filter_Some. split.
      + rewrite lookup_insert_ne by (apply not_eq_sym, syncs_not_tabindex, Hs). exact E.
      + cbn. by rewrite Hs.
    - apply map_lookup_filter_None. left.
      rewrite lookup_insert_ne by (apply not_eq_sym, syncs_not_tabindex, Hs). exact E. }
  assert (Hnot : forall name, syncsToTextarea name = false ->
            syncedAttributes (<["tabindex" := "-1"]> attrs) !! name = None).
  { intros name Hs. unfold syncedAttributes. apply map_lookup_filter_None. right.
    intros v _. cbn. rewrite Hs. exact id. }
  split.
  { intros name [v Hv]. subst attrs. unfold effectiveAttributes. rewrite Hv.
    destruct (fallbackTextarea (elem s i)); [|exact Hv]. by apply lookup_union_Some_l. }
  split.
  { intros name Hs [v Hv]. rewrite Hv. apply lookup_union_Some_l. by rewrite Hsync. }
  split.
  { rewrite lookup_union_r by (apply Hnot; reflexivity).
    unfold createdAttributes. by rewrite lookup_insert_eq. }
  split.
  { intros Hsp. rewrite lookup_union_r by (rewrite Hsync by reflexivity; exact Hsp).
    unfold createdAttributes. rewrite lookup_insert_ne by discriminate.
    by rewrite lookup_insert_eq. }
  split.
  { destruct (attrs !! "placeholder") as [p|] eqn:Hp.
    - erewrite lookup_union_Some_l; [reflexivity|]. by rewrite Hsync.
    - rewrite lookup_union_r by (by rewrite Hsync).
      unfold createdAttributes. rewrite lookup_insert_ne by discriminate.
      rewrite lookup_insert_ne by discriminate. rewrite lookup_singleton_eq.
      fold attrs. rewrite Hp. reflexivity. }
  intros name Hs Hne _. rewrite lookup_union_r by (by apply Hnot).
  unfold createdAttributes. rewrite lookup_insert_ne by (by apply not_eq_sym).
  rewrite lookup_insert_ne by (intros <-; discriminate Hs).
  apply lookup_singleton_ne. intros <-. discriminate Hs.
Qed.

Lemma setup_synchronises_attributes_witness :
  exists s' ta,
    connectedCallback 0 unattachedPage = Return tt s' /\
    textareaElement (elem s' 0) = Some ta /\
    attributes (elem s' 0) !! "tabindex" = Some "-1" /\
    (forall name, name <> "tabindex" -> name <> "class" -> name <> "style" ->
       attributes (elem s' 0) !! name = effectiveAttributes (elem unattachedPage 0) !! name) /\
    (forall name, is_Some (attributes (elem unattachedPage 0) !! name) ->
       effectiveAttributes (elem unattachedPage 0) !! name =
       attributes (elem unattachedPage 0) !! name) /\
    (forall name, syncsToTextarea name = true ->
       is_Some (effectiveAttributes (elem unattachedPage 0) !! name) ->
       ta_attributes ta !! name = effectiveAttributes (elem unattachedPage 0) !! name) /\
    ta_attributes ta !! "tabindex" =
      Some (default "0"
              (or_else (effectiveAttributes (elem unattachedPage 0) !! "tabindex") (Some "0"))) /\
    (effectiveAttributes (elem unattachedPage 0) !! "spellcheck" = None ->
     ta_attributes ta !! "spellcheck" = Some "false") /\
    ta_placeholder ta =
      match effectiveAttributes (elem unattachedPage 0) !! "placeholder" with
      | Some p => p
      | None => default "" (or_else (requestedLanguage (elem unattachedPage 0)) (Some ""))
      end /\
    (forall name, syncsToTextarea name = false -> name <> "tabindex" -> name <> "style" ->
       ta_attributes ta !! name = None).
Proof.
  apply (setup_synchronises_attributes 0 unattachedPage
           {| highlight := 0; preElementStyled := true; isCode := true;
              includeCodeInputInHighlightFunc := false; plugins := [1] |}).
  - vm_compute. reflexivity.
  - vm_compute. reflexivity.
  - vm_compute. reflexivity.
Defined.

(** ** Typing *)

Lemma callFn_keeps_dirty (i : InstId) (type : string) (f : Fn) (s : State) :
  needsHighlight (elem s i) = true ->
  needsHighlight (elem (finalState (callFn i type f s)) i) = true.
Proof.
  intros Hn.
  destruct f as [id [l | | remove type' cb options] | id | id]; cbn [callFn callListener].
  - destruct (listenerKind l); mred; exact Hn.
  - mred. exact Hn.
  - mred. destruct (textareaElement (elem s i)) as [ta|] eqn:Hta; mred; [|exact Hn].
    destruct remove; [|destruct cb];
      unfold textarea_removeEventListener, textarea_addEventListener; mred; exact Hn.
  - mred. exact Hn.
  - unfold get_value. mred. destruct (textareaElement (elem s i)) as [ta|] eqn:Hta; mred;
      [|exact Hn].
    erewrite set_value_run by eassumption. mred. reflexivity.
Qed.

Lemma listeners_keep_text (i : InstId) (type : string) (ls : list EventListener)
    (text : string) :
  forall s ta,
    textareaElement (elem s i) = Some ta -> ta_value ta = text ->
    (needsHighlight (elem s i) = true \/
     exists k cap, In {| evType := type; callback := InputArrow k; capture := cap |} ls) ->
    exists s' ta',
      forEach ls (fun e => reported (callFn i type (callback e))) s = Return tt s' /\
      textareaElement (elem s' i) = Some ta' /\ ta_value ta' = text /\
      needsHighlight (elem s' i) = true.
Proof.
  induction ls as [|e ls IH]; intros s ta Hta Hv Hcase.
  - destruct Hcase as [Hn | (k & cap & [])].
    exists s, ta. split; [reflexivity|]. auto.
  - cbn [forEach]. unfold bind at 1, reported at 1.
    destruct (callFn_handler i type (callback e) s) as (_ & _ & _ & _ & _ & _ & _ & _ & H9 & _).
    destruct (H9 ta Hta) as (ta1 & Hta1 & Hv1 & _).
    apply (IH _ ta1 Hta1); [congruence|].
    destruct Hcase as [Hn | (k & cap & [He | Hin])].
    + left. by apply callFn_keeps_dirty.
    + left. subst e. cbn [callback callFn]. unfold get_value. mred. rewrite Hta. mred.
      erewrite set_value_run by eassumption. mred. reflexivity.
    + right. eauto.
Qed.

(** X20. Typing is noticed: when the textarea has the [input] listener
    that [setup] gives it and the page has attached no [input] listener of
    its own, an [input] event after the user changed the text leaves that
    text as the value and sets [needsHighlight]. *)
Theorem input_event_marks_dirty (i : InstId) (s : State) (text : string) (ta : Textarea)
    (k : FunId) (cap : bool) :
  textareaElement (elem s i) = Some ta ->
  In {| evType := "input"; callback := InputArrow k; capture := cap |} (ta_listeners ta) ->
  libraryOnly (listenersFor "input" (ta_listeners ta)) = true ->
  exists s',
    userInput i text s = Return tt s' /\
    get_value i s' = Return text s' /\
    needsHighlight (elem s' i) = true /\
    trace s' = trace s.
Proof.
  intros Hta Hin Hq. unfold userInput. rewrite bind_this, Hta, bind_modifyThis.
  unfold textareaEvent. rewrite bind_this, elem_set_heap_eq.
  cbn [set_textareaElement textareaElement set_ta_value ta_listeners].
  match goal with
  | |- context [forEach _ _ ?st] =>
      edestruct (listeners_keep_text i "input" (listenersFor "input" (ta_listeners ta)) text st)
        as (s' & ta' & Hrun & Hta' & Hv' & Hn');
      [| | | pose proof (dispatch_quiet i "input" _ Hq st) as Htr ]
  end.
  - rewrite elem_set_heap_eq. reflexivity.
  - reflexivity.
  - right. exists k, cap. unfold listenersFor. apply filter_In. split; [exact Hin | reflexivity].
  - rewrite Hrun in Htr. cbn [finalState] in Htr.
    exists s'. split; [exact Hrun|]. split; [|split; [exact Hn' | exact Htr]].
    unfold get_value. rewrite bind_this, Hta', Hv'. reflexivity.
Qed.

Lemma input_event_marks_dirty_witness :
  exists ta,
    textareaElement (elem pythonPage 0) = Some ta /\
    exists s',
      userInput 0 "x <- 1" pythonPage = Return tt s' /\
      get_value 0 s' = Return "x <- 1" s' /\
      needsHighlight (elem s' 0) = true /\
      trace s' = trace pythonPage.
Proof.
  eexists. split; [vm_compute; reflexivity|].
  eapply (input_event_marks_dirty 0 pythonPage "x <- 1" _ 2 false).
  - vm_compute. reflexivity.
  - vm_compute. right. left. reflexivity.
  - vm_compute. reflexivity.
Defined.

(** ** Attaching and detaching *)

Lemma connectedCallback_unresolved (i : InstId) (s : State) :
  usedTemplates s !! requestedKey s i = None ->
  exists s',
    connectedCallback i s = Return tt s' /\
    elem s' i = set_mutationObserver true (set_template None (elem s i)) /\
    trace s' = trace s ++ [MutationObserve i] /\
    templateNotYetRegisteredQueue s' =
      <[requestedKey s i := bucket s (requestedKey s i) ++ [i]]>
        (templateNotYetRegisteredQueue s) /\
    usedTemplates s' = usedTemplates s.
Proof.
  intros Hlook.
  unfold connectedCallback, getTemplate. rewrite !bind_bind. mstep.
  unfold requestedKey in Hlook. unfold requestedKey, bucket.
  rewrite bind_bind. unfold gets at 1. unfold bind at 1. mnorm.
  rewrite bind_bind. unfold gets at 1. unfold bind at 1. mnorm.
  rewrite Hlook. unfold modify at 1. unfold bind at 1. mnorm. repeat mstep.
  unfold log, modify. mnorm.
  eexists. split; [reflexivity|]. mnorm. repeat split; reflexivity.
Qed.

Lemma connectedCallback_observes (i : InstId) (s : State) :
  exists s',
    connectedCallback i s = Return tt s' /\
    mutationObserver (elem s' i) = true /\
    isConnected (elem s' i) = isConnected (elem s i).
Proof.
  destruct (usedTemplates s !! requestedKey s i) as [t|] eqn:Hlook.
  - destruct (textareaElement (elem s i)) as [ta|] eqn:Hta.
    + rewrite (connectedCallback_again i s ta t Hta Hlook). eexists. split; [reflexivity|].
      mred. split; reflexivity.
    + destruct (connectedCallback_first i s t Hta Hlook)
        as (s' & ta & Hrun & _ & _ & _ & _ & _ & _ & _ & _ & _ & _ & _ & F12 & F13 & _).
      exists s'. auto.
  - destruct (connectedCallback_unresolved i s Hlook) as (s' & Hrun & He & _).
    exists s'. split; [exact Hrun|]. rewrite He. split; reflexivity.
Qed.

(** X21. An element that was attached can always be detached:
    [disconnectedCallback] then returns, disconnects the observer and
    changes nothing else -- the element keeps its place in the pending
    queue and what [setup] built -- and while the element is detached
    [attributeChangedCallback] does nothing at all.  On an element that
    was never attached [disconnectedCallback] throws a [TypeError]. *)
Theorem detach_after_attach (i : InstId) (s : State) :
  exists s1 s2,
    attach i s = Return tt s1 /\
    detach i s1 = Return tt s2 /\
    trace s2 = trace s1 ++ [MutationDisconnect i] /\
    elem s2 i = set_isConnected false (elem s1 i) /\
    templateNotYetRegisteredQueue s2 = templateNotYetRegisteredQueue s1 /\
    usedTemplates s2 = usedTemplates s1 /\
    (forall name old new, attributeChangedCallback i name old new s2 = Return tt s2) /\
    (forall s0, mutationObserver (elem s0 i) = false ->
       disconnectedCallback i s0 = Throw TypeError s0).
Proof.
  unfold attach. rewrite bind_modifyThis.
  match goal with
  | |- context [connectedCallback i ?st] =>
      destruct (connectedCallback_observes i st) as (s1 & Hrun & Hobs & Hc)
  end.
  exists s1. rewrite Hrun. unfold detach, disconnectedCallback. mred. rewrite Hobs.
  eexists. split; [reflexivity|]. split; [reflexivity|]. mred.
  split; [reflexivity|]. split; [reflexivity|]. split; [reflexivity|]. split; [reflexivity|].
  split.
  - intros name old new. unfold attributeChangedCallback. mred. reflexivity.
  - intros s0 H0. rewrite H0. reflexivity.
Qed.

(** ** Registration before attachment *)

(** X22. Once a template is registered, an element that names it -- or
    names none, when the registration made it the default -- finds it:
    [getTemplate] (and [get_template]) returns it without touching the
    queue, and [connectedCallback] sets the element up at once. *)
Theorem registered_template_resolves_at_once (templateName : JSVal) (o : TemplateObject)
    (s : State) (i : InstId) :
  wellFormedRegistration templateName (Some o) = true ->
  exists name tpl s1,
    stringOf templateName = Some name /\
    asTemplate o = Some tpl /\
    registerTemplate templateName (Some o) s = Return tt s1 /\
    (attributes (elem s1 i) !! "template" = Some name \/
     (attributes (elem s1 i) !! "template" = None /\ defaultTemplate s = None) ->
     getTemplate i s1 = Return (Some tpl) s1 /\
     get_template i s1 = Return (Some tpl) s1 /\
     exists s2,
       connectedCallback i s1 = Return tt s2 /\
       settled tpl (elem s2 i) /\
       templateNotYetRegisteredQueue s2 = templateNotYetRegisteredQueue s1).
Proof.
  intros Hwf.
  destruct (registerTemplate_accepts templateName o Hwf) as (name & tpl & Hn & Ht & Heq).
  destruct (registerChecked_spec name tpl s) as (s1 & Hrun & U & D & _).
  exists name, tpl, s1. rewrite Heq.
  split; [exact Hn|]. split; [exact Ht|]. split; [exact Hrun|].
  intros Hreq.
  assert (Hkey : requestedKey s1 i = name).
  { unfold requestedKey, getAttribute. rewrite D.
    destruct Hreq as [-> | [-> ->]]; reflexivity. }
  assert (Hlook : usedTemplates s1 !! requestedKey s1 i = Some tpl).
  { rewrite Hkey, U. apply lookup_insert_eq. }
  assert (Hget : getTemplate i s1 = Return (Some tpl) s1).
  { unfold getTemplate. rewrite bind_this. unfold gets at 1. unfold bind at 1.
    unfold gets at 1. unfold bind at 1. fold (requestedKey s1 i). by rewrite Hlook. }
  split; [exact Hget|]. split; [exact Hget|].
  destruct (connectedCallback_spec i s1) as (s2 & Hrun2 & _ & _ & _ & _ & _ & Hcase).
    rewrite Hlook in Hcase. destruct Hcase as (Hq & Htpl & Hta).
    exists s2. split; [exact Hrun2|]. split; [by split | exact Hq].
Qed.

Lemma registered_template_resolves_at_once_witness :
  exists name tpl s1,
    stringOf (VString "demo") = Some name /\
    asTemplate demoTemplate = Some tpl /\
    registerTemplate (VString "demo") (Some demoTemplate) queuedPage = Return tt s1 /\
    (attributes (elem s1 7) !! "template" = Some name \/
     (attributes (elem s1 7) !! "template" = None /\ defaultTemplate queuedPage = None) ->
     getTemplate 7 s1 = Return (Some tpl) s1 /\
     get_template 7 s1 = Return (Some tpl) s1 /\
     exists s2,
       connectedCallback 7 s1 = Return tt s2 /\
       settled tpl (elem s2 7) /\
       templateNotYetRegisteredQueue s2 = templateNotYetRegisteredQueue s1).
Proof.
  apply (registered_template_resolves_at_once (VString "demo") demoTemplate queuedPage 7).
  reflexivity.
Defined.

(** X23. Whatever its arguments and whether it returns or throws,
    [registerTemplate] leaves the templates registered under other names
    as they are, and never changes a default template that is set. *)
Theorem registration_keeps_other_templates (templateName : JSVal)
    (template : option TemplateObject) (s : State) :
  (forall key, stringOf templateName <> Some key ->
     usedTemplates (finalState (registerTemplate templateName template s)) !! key
       = usedTemplates s !! key) /\
  (forall d, defaultTemplate s = Some d ->
     defaultTemplate (finalState (registerTemplate templateName template s)) = Some d).
Proof.
  destruct (wellFormedRegistration templateName template) eqn:Hwf.
  - destruct template as [o|];
      [|unfold wellFormedRegistration in Hwf; by rewrite andb_false_r in Hwf].
    destruct (registerTemplate_accepts templateName o Hwf) as (name & tpl & Hn & _ & Heq).
    destruct (registerChecked_spec name tpl s) as (s' & Hrun & U & D & _).
    rewrite Heq, Hrun. cbn [finalState]. split.
    + intros key Hkey. rewrite U. apply lookup_insert_ne. congruence.
    + intros d Hd. by rewrite D, Hd.
  - rewrite (registerTemplate_throws _ _ _ Hwf). cbn [finalState]. split; auto.
Qed.

(** ** The [placeholder] property *)

Lemma placeholder_round (i : InstId) (s : State) (old : option string) (val : string)
    (ta : Textarea) (t : Template) :
  isConnected (elem s i) = true ->
  template (elem s i) = Some t ->
  textareaElement (elem s i) = Some ta ->
  Str.includes (observedAttributes s) "placeholder" = true ->
  getAttribute (elem s i) "placeholder" = Some val ->
  mutationObserverCallback i
    [ {| mutationType := "attributes"; attributeName := "placeholder"; oldValue := old |} ] s =
  Return tt
    (set_heap
       (<[i := set_textareaElement (Some (ta_setAttribute "placeholder" val ta)) (elem s i)]>
          (heap s))
       (set_trace
          (trace s ++
           map (fun p => PluginCall p "attributeChanged" i [Some "placeholder"; old; Some val])
               (plugins t)) s)).
Proof.
  intros Hc Ht Hta Hobs Hval. rewrite observer_passes_first.
  unfold firstObserved. cbn [List.find mutationType attributeName oldValue].
  change (String.eqb "attributes" "attributes") with true. rewrite Hobs. cbn [andb orb].
  cbn [attributeName oldValue]. rewrite Hval.
  exact (mirrored_run i s "placeholder" old (Some val) ta t Hc Ht Hta eq_refl eq_refl).
Qed.

Lemma placeholder_rounds (i : InstId) (old : option string) (val : string) (t : Template)
    (n : nat) :
  forall (s : State) (ta : Textarea),
    isConnected (elem s i) = true ->
    template (elem s i) = Some t ->
    textareaElement (elem s i) = Some ta ->
    Str.includes (observedAttributes s) "placeholder" = true ->
    getAttribute (elem s i) "placeholder" = Some val ->
    exists s' ta',
      times n (reported (mutationObserverCallback i
        [ {| mutationType := "attributes"; attributeName := "placeholder";
             oldValue := old |} ])) s = Return tt s' /\
      textareaElement (elem s' i) = Some ta' /\
      ta_value ta' = ta_value ta /\
      ta_listeners ta' = ta_listeners ta /\
      (forall other, other <> "placeholder" ->
         ta_attributes ta' !! other = ta_attributes ta !! other) /\
      (0 < n -> ta_placeholder ta' = val) /\
      (n = 0 -> ta' = ta) /\
      needsHighlight (elem s' i) = needsHighlight (elem s i) /\
      attributes (elem s' i) = attributes (elem s i) /\
      trace s' =
        trace s ++
        concat (repeat
          (map (fun p => PluginCall p "attributeChanged" i [Some "placeholder"; old; Some val])
               (plugins t)) n).
Proof.
  induction n as [|n IH]; intros s ta Hc Ht Hta Hobs Hval.
  - exists s, ta. split; [reflexivity|]. cbn [repeat concat]. rewrite app_nil_r.
    repeat (split; [first [reflexivity | assumption | lia | auto]|]). reflexivity.
  - cbn [times]. unfold bind at 1, reported at 1.
    rewrite (placeholder_round i s old val ta t Hc Ht Hta Hobs Hval). cbn [finalState].
    match goal with
    | |- context [times n _ ?st] =>
        destruct (IH st (ta_setAttribute "placeholder" val ta))
          as (s' & ta' & Hrun & Hta' & Hv' & Hl' & Ho' & Hp' & Hz' & Hn' & Ha' & Htr')
    end.
    { mred. exact Hc. }
    { mred. exact Ht. }
    { mred. reflexivity. }
    { exact Hobs. }
    { unfold getAttribute in *. mred. exact Hval. }
    exists s', ta'. split; [exact Hrun|]. split; [exact Hta'|].
    split; [rewrite Hv'; reflexivity|]. split; [rewrite Hl'; reflexivity|].
    split.
    { intros other Hne. rewrite (Ho' other Hne). unfold ta_setAttribute. mred.
      by apply lookup_insert_ne, not_eq_sym. }
    split.
    { intros _. destruct n as [|n]; [|apply Hp'; lia].
      rewrite (Hz' eq_refl). unfold ta_placeholder, ta_setAttribute. mred.
      by rewrite lookup_insert_eq. }
    split; [discriminate|].
    split; [rewrite Hn'; mred; reflexivity|].
    split; [rewrite Ha'; mred; reflexivity|].
    rewrite Htr'. mred. cbn [repeat concat]. by rewrite <- app_assoc.
Qed.

(** X24. Assigning the [placeholder] property of a connected, set-up
    element sets the attribute, which the getter then returns, and calls
    nothing; when the browser then delivers the record of this change, the
    callback of every mutation observer of the element runs --
    [connectedCallback] has created one each time it ran --, so the plugins'
    [attributeChanged] hooks are called once per observer, with the old and
    the new value, and with at least one observer the placeholder of the
    textarea is the new value.  The text, the listeners and the other
    attributes of the textarea are kept and no highlight is scheduled. *)
Theorem placeholder_setter_reaches_textarea (i : InstId) (s : State) (val : string)
    (ta : Textarea) (t : Template) :
  isConnected (elem s i) = true ->
  template (elem s i) = Some t ->
  textareaElement (elem s i) = Some ta ->
  Str.includes (observedAttributes s) "placeholder" = true ->
  exists s0 s' ta',
    set_placeholder i val s = Return tt s0 /\
    get_placeholder i s0 = Return (Some val) s0 /\
    trace s0 = trace s /\
    deliver i [attributeRecord (elem s i) "placeholder"] s0 = Return tt s' /\
    get_placeholder i s' = Return (Some val) s' /\
    textareaElement (elem s' i) = Some ta' /\
    (0 < liveObservers i (trace s) -> ta_placeholder ta' = val) /\
    (liveObservers i (trace s) = 0 -> ta' = ta) /\
    (forall other, other <> "placeholder" ->
       ta_attributes ta' !! other = ta_attributes ta !! other) /\
    ta_value ta' = ta_value ta /\
    ta_listeners ta' = ta_listeners ta /\
    needsHighlight (elem s' i) = needsHighlight (elem s i) /\
    trace s' =
      trace s ++
      concat (repeat
        (map (fun p => PluginCall p "attributeChanged" i
                         [Some "placeholder"; getAttribute (elem s i) "placeholder"; Some val])
             (plugins t))
        (liveObservers i (trace s))).
Proof.
  intros Hc Ht Hta Hobs.
  unfold set_placeholder, dom_setAttribute, modifyThis, modify.
  eexists.
  match goal with
  | |- exists s' ta', Return tt ?st = _ /\ _ =>
      destruct (placeholder_rounds i (getAttribute (elem s i) "placeholder") val t
                  (liveObservers i (trace s)) st ta)
        as (s' & ta' & Hrun & Hta' & Hv' & Hl' & Ho' & Hp' & Hz' & Hn' & Ha' & Htr')
  end.
  { rewrite elem_set_heap_eq. exact Hc. }
  { rewrite elem_set_heap_eq. exact Ht. }
  { rewrite elem_set_heap_eq. exact Hta. }
  { exact Hobs. }
  { rewrite elem_set_heap_eq. unfold getAttribute. cbn [set_attributes attributes].
    apply lookup_insert_eq. }
  rewrite elem_set_heap_eq in Hn', Ha'. cbn [set_attributes needsHighlight attributes] in Hn', Ha'.
  cbn [set_heap trace] in Htr'.
  exists s', ta'. split; [reflexivity|].
  split.
  { unfold get_placeholder. rewrite bind_this, elem_set_heap_eq. unfold getAttribute.
    cbn [set_attributes attributes]. by rewrite lookup_insert_eq. }
  split; [reflexivity|].
  split.
  { unfold deliver. unfold gets at 1. unfold bind at 1. cbn [set_heap trace]. exact Hrun. }
  split.
  { unfold get_placeholder. rewrite bind_this. unfold getAttribute. rewrite Ha'.
    by rewrite lookup_insert_eq. }
  split; [exact Hta'|]. split; [exact Hp'|]. split; [exact Hz'|]. split; [exact Ho'|].
  split; [exact Hv'|]. split; [exact Hl'|]. split; [exact Hn'|]. exact Htr'.
Qed.

Lemma placeholder_setter_reaches_textarea_witness :
  exists ta t,
    textareaElement (elem pythonPage 0) = Some ta /\
    template (elem pythonPage 0) = Some t /\
    exists s0 s' ta',
      set_placeholder 0 "Type here" pythonPage = Return tt s0 /\
      get_placeholder 0 s0 = Return (Some "Type here") s0 /\
      trace s0 = trace pythonPage /\
      deliver 0 [attributeRecord (elem pythonPage 0) "placeholder"] s0 = Return tt s' /\
      get_placeholder 0 s' = Return (Some "Type here") s' /\
      textareaElement (elem s' 0) = Some ta' /\
      (0 < liveObservers 0 (trace pythonPage) -> ta_placeholder ta' = "Type here") /\
      (liveObservers 0 (trace pythonPage) = 0 -> ta' = ta) /\
      (forall other, other <> "placeholder" ->
         ta_attributes ta' !! other = ta_attributes ta !! other) /\
      ta_value ta' = ta_value ta /\
      ta_listeners ta' = ta_listeners ta /\
      needsHighlight (elem s' 0) = needsHighlight (elem pythonPage 0) /\
      trace s' =
        trace pythonPage ++
        concat (repeat
          (map (fun p => PluginCall p "attributeChanged" 0
                           [Some "placeholder"; getAttribute (elem pythonPage 0) "placeholder";
                            Some "Type here"])
               (plugins t))
          (liveObservers 0 (trace pythonPage))).
Proof.
  eexists. eexists.
  split; [vm_compute; reflexivity|]. split; [vm_compute; reflexivity|].
  eapply placeholder_setter_reaches_textarea; vm_compute; reflexivity.
Defined.

(** The element of [pythonPage] has one observer.  Element 1 of
    [replayedPage] was attached before its template was registered and set
    up by the replay: it has two observers, and the hooks run twice for one
    assignment of the placeholder. *)
Lemma placeholder_setter_example :
  liveObservers 0 (trace pythonPage) = 1 /\
  liveObservers 1 (trace replayedPage) = 2 /\
  exists s0 s',
    set_placeholder 1 "Type here" replayedPage = Return tt s0 /\
    deliver 1 [attributeRecord (elem replayedPage 1) "placeholder"] s0 = Return tt s' /\
    trace s' =
      trace replayedPage ++
      [ PluginCall 1 "attributeChanged" 1 [Some "placeholder"; None; Some "Type here"];
        PluginCall 1 "attributeChanged" 1 [Some "placeholder"; None; Some "Type here"] ].
Proof.
  split; [vm_compute; reflexivity|]. split; [vm_compute; reflexivity|].
  eexists. eexists.
  split; [vm_compute; reflexivity|]. split; vm_compute; reflexivity.
Qed.
